(** * Luma3DS: SVC interception layer and err:f service

    A shallow embedding of
      - k11_extension svc.c: [signalSvcEntry], [signalSvcReturn], [svcHook]
        (src/sysmodules/rosalina/source/menu.c, lines 615-761),
      - k11_extension svc/UnmapProcessMemoryEx.c: [UnmapProcessMemoryEx]
        (same file, lines 530-561),
      - rosalina errdisp.c: [ERRF_HandleCommands] (src/unnamed/part_000),
        with the parts of menu.c it calls ([menuEnter], [menuLeave],
        [waitInput]),
      - the rest of errdisp.c: [ERRF_FormatError] (module [ErrText]) and
        the server thread [errDispThreadMain],
      - rosalina menu.c: [waitComboWithTimeout], [menuAdvanceCursor],
        [menuCountItems], [menuShow] (lines 102-152 and 215-500),
      - rosalina ntp.c (module [Ntp]).

    Kernel objects are records, the raw stack frame is byte-addressed
    memory, and every call that leaves the translated files (kernel
    primitives, libctru, the drawing layer) is recorded as an event in a
    trace, its return value being supplied by the environment.

    The embedding is sequential: one core, one thread.  Locks appear as
    events, and globals another thread may write ([menuShouldExit],
    [isHidInitialized]) keep, during one call, the value they have in the
    state. *)

From Stdlib Require Import ZArith List Lia Bool String.
From stdpp Require Import base option list.
Import ListNotations.
Local Open Scope Z_scope.

(** ** Machine-level data *)

(** Byte-addressed memory.  A cell holds a byte; readers mask to 8 bits. *)
Definition memory := Z -> Z.

(** Read of one byte through a [u8] pointer. *)
Definition load_u8 (m : memory) (a : Z) : Z := Z.land (m a) 0xFF.

(** Read of a word through a [u32] pointer; the ARM11 is little-endian. *)
Definition load_u32 (m : memory) (a : Z) : Z :=
  Z.lor (load_u8 m a)
    (Z.lor (Z.shiftl (load_u8 m (a + 1)) 8)
       (Z.lor (Z.shiftl (load_u8 m (a + 2)) 16)
              (Z.shiftl (load_u8 m (a + 3)) 24))).

(** The functions [svcHook] can hand back by name. *)
Module Fn.
Inductive t : Set :=
| ControlMemoryHookWrapper | GetHandleInfoHookWrapper | GetSystemInfoHookWrapper
| GetProcessInfoHookWrapper | GetThreadInfoHookWrapper | ConnectToPortHookWrapper
| GetCFWInfo | SendSyncRequestHook | Break | SetGpuProt | SetWifiEnabled
| Backdoor | KernelSetStateHook | CustomBackdoor
| convertVAToPA | flushDataCacheRange | flushEntireDataCache
| invalidateInstructionCacheRange | invalidateEntireInstructionCache
| MapProcessMemoryExWrapper | UnmapProcessMemoryEx | ControlMemoryEx
| ControlMemoryUnsafeWrapper
| ControlService | CopyHandleWrapper | TranslateHandleWrapper | ControlProcess.
End Fn.

(** A [void *] that is used as a handler: the null pointer, one of the
    extension's own functions, or an address inside the stock kernel. *)
Inductive fptr : Set :=
| NULL
| FnPtr (f : Fn.t)
| KernelPtr (addr : Z).

(** ** Kernel objects *)

(** The fields of [KProcess] the translated code reads or writes.
    [debug] is [debugOfProcess(p)]: [None] is the null pointer. *)
Record KProcess := mkKProcess {
  customFlags : Z;
  debug : option Z;
  onMemoryLayoutChangeEvent : Z
}.

(** The fields of [KThread] the translated code reads or writes;
    [ownerProcess] is the address of the owning [KProcess]. *)
Record KThread := mkKThread {
  ownerProcess : Z;
  schedulingMask : Z
}.

(** Calls that leave the translated files, in the order they are made. *)
Inductive Event : Type :=
| EvSignalDebugEvent (type info1 info2 : Z)
| EvSignalEvent (event : Z)
| EvPLG_SignalEvent (event : Z)
| EvKRecursiveLock__Lock
| EvKRecursiveLock__Unlock
| EvKAutoObject__AddReference (obj : Z)
| EvDecrementReferenceCount (obj : Z)
| EvKProcessHandleTable__ToKProcess (tableOwner handle : Z) (found : option Z)
| EvKProcessHwInfo__UnmapProcessMemory (process dst nbPages res : Z)
| EvUnmapProcessMemory (processHandle dst size res : Z)
| EvInvalidateEntireInstructionCache
| EvFlushEntireDataCache.

(** What one core sees while it services a call.  [currentProcess] is
    [currentCoreContext->objectContext.currentProcess], never null while a
    process is inside a supervisor call (the code dereferences it without a
    test); [currentProcessObj] is the object it points to. *)
Record KState := mkKState {
  kernelVersion : Z;
  officialSVCs : list fptr;
  currentProcess : Z;
  currentProcessObj : KProcess;
  threadList : list KThread;
  mem : memory;
  trace : list Event
}.

Definition set_trace (t : list Event) (s : KState) : KState :=
  mkKState (kernelVersion s) (officialSVCs s) (currentProcess s)
           (currentProcessObj s) (threadList s) (mem s) t.

Definition set_threadList (l : list KThread) (s : KState) : KState :=
  mkKState (kernelVersion s) (officialSVCs s) (currentProcess s)
           (currentProcessObj s) l (mem s) (trace s).

Definition set_customFlags (f : Z) (s : KState) : KState :=
  mkKState (kernelVersion s) (officialSVCs s) (currentProcess s)
           (mkKProcess f (debug (currentProcessObj s))
                       (onMemoryLayoutChangeEvent (currentProcessObj s)))
           (threadList s) (mem s) (trace s).

(** ** What the headers and the rest of the kernel provide

    Constants and macros of headers that are not among the translated
    files, and the return values of functions whose bodies live elsewhere.
    A return value may depend on everything that happened so far, hence on
    the whole state. *)
Class KernelEnv := mkKernelEnv {
  (* kernel.h, KProcess custom flags *)
  SignalOnMemLayoutChanges : Z;
  SignalOnExit : Z;
  MemLayoutChanged : Z;
  (* libctru / plugin loader constants *)
  DBGEVENT_OUTPUT_STRING : Z;
  CUR_PROCESS_HANDLE : Z;
  PLG_CFG_RUNNING : Z;
  PLG_CFG_EXIT_EVENT : Z;
  GET_VERSION_MINOR : Z -> Z;
  (* return values of external functions *)
  shouldSignalSyscallDebugEvent_ret : KState -> Z -> Z -> bool;
  PLG_GetStatus_ret : KState -> Z;
  KProcessHandleTable__ToKProcess_ret : KState -> Z -> Z -> option Z;
  KProcessHwInfo__UnmapProcessMemory_ret : KState -> Z -> Z -> Z -> Z;
  UnmapProcessMemory_ret : KState -> Z -> Z -> Z -> Z
}.

(** ** The monad of kernel code: state passing over [KState] *)

Definition K (A : Type) : Type := KState -> A * KState.

Definition ret {A} (a : A) : K A := fun s => (a, s).

Definition bind {A B} (c : K A) (k : A -> K B) : K B :=
  fun s => let (a, s') := c s in k a s'.

Notation "'let*' x ':=' c 'in' k" := (bind c (fun x => k))
  (at level 10, x pattern, c at level 100, k at level 200).
Notation "c ;; k" := (bind c (fun _ => k))
  (at level 100, k at level 200, right associativity).

Definition emit (e : Event) : K unit :=
  fun s => (tt, set_trace (trace s ++ [e]) s).

Definition gets {A} (f : KState -> A) : K A := fun s => (f s, s).

Definition when (b : bool) (c : K unit) : K unit :=
  if b then c else ret tt.

(** ** External calls: logged, with the environment's return value *)

Section Kernel.
Context `{KernelEnv}.

Definition shouldSignalSyscallDebugEvent (process svcId : Z) : K bool :=
  fun s => (shouldSignalSyscallDebugEvent_ret s process svcId, s).

Definition SignalDebugEvent (type info1 info2 : Z) : K unit :=
  emit (EvSignalDebugEvent type info1 info2).

Definition SignalEvent (event : Z) : K unit := emit (EvSignalEvent event).

Definition PLG_GetStatus : K Z := fun s => (PLG_GetStatus_ret s, s).

Definition PLG_SignalEvent (event : Z) : K unit := emit (EvPLG_SignalEvent event).

Definition KRecursiveLock__Lock : K unit := emit EvKRecursiveLock__Lock.

Definition KRecursiveLock__Unlock : K unit := emit EvKRecursiveLock__Unlock.

Definition KAutoObject__AddReference (obj : Z) : K unit :=
  emit (EvKAutoObject__AddReference obj).

Definition DecrementReferenceCount (obj : Z) : K unit :=
  emit (EvDecrementReferenceCount obj).

Definition KProcessHandleTable__ToKProcess (tableOwner handle : Z) : K (option Z) :=
  fun s =>
    let found := KProcessHandleTable__ToKProcess_ret s tableOwner handle in
    (found, set_trace (trace s ++ [EvKProcessHandleTable__ToKProcess tableOwner handle found]) s).

Definition KProcessHwInfo__UnmapProcessMemory (process dst nbPages : Z) : K Z :=
  fun s =>
    let res := KProcessHwInfo__UnmapProcessMemory_ret s process dst nbPages in
    (res, set_trace (trace s ++ [EvKProcessHwInfo__UnmapProcessMemory process dst nbPages res]) s).

Definition UnmapProcessMemory (processHandle dst size : Z) : K Z :=
  fun s =>
    let res := UnmapProcessMemory_ret s processHandle dst size in
    (res, set_trace (trace s ++ [EvUnmapProcessMemory processHandle dst size res]) s).

Definition invalidateEntireInstructionCache : K unit :=
  emit EvInvalidateEntireInstructionCache.

Definition flushEntireDataCache : K unit := emit EvFlushEntireDataCache.

(** Reads and writes of the current process object and of the tables. *)

Definition get_currentProcess : K Z := fun s => (currentProcess s, s).

Definition get_customFlags : K Z := fun s => (customFlags (currentProcessObj s), s).

Definition put_customFlags (f : Z) : K unit := fun s => (tt, set_customFlags f s).

Definition debugOfProcess : K (option Z) := fun s => (debug (currentProcessObj s), s).

Definition get_onMemoryLayoutChangeEvent : K Z :=
  fun s => (onMemoryLayoutChangeEvent (currentProcessObj s), s).

(** [officialSVCs[i]]; every use in the source has [i <= 0x7D], inside the
    0x7E entries of the array. *)
Definition get_officialSVCs (i : Z) : K fptr :=
  fun s => (nth (Z.to_nat i) (officialSVCs s) NULL, s).

(** ** svc.c *)

(** The value of the local [svcId] of [signalSvcEntry] after its first
    three statements: the byte at [pageEnd - 0xB5], replaced by the saved
    r12 at [pageEnd - 0x110 + 8 * 4] when that byte is 0xFE. *)
Definition signalSvcEntry_svcId (pageEnd : Z) (s : KState) : Z :=
  let svcId := load_u8 (mem s) (pageEnd - 0xB5) in
  if svcId =? 0xFE then load_u32 (mem s) (pageEnd - 0x110 + 8 * 4) else svcId.

Definition signalSvcEntry (pageEnd : Z) : K unit :=
  let* svcId := gets (signalSvcEntry_svcId pageEnd) in
  let* currentProcess := get_currentProcess in
  let* dbg := debugOfProcess in
  match dbg with
  | None => ret tt
  | Some _ =>
      let* b := shouldSignalSyscallDebugEvent currentProcess svcId in
      when b (SignalDebugEvent DBGEVENT_OUTPUT_STRING 0xFFFFFFFE svcId)
  end.

(** The same local in [signalSvcReturn]. *)
Definition signalSvcReturn_svcId (pageEnd : Z) (s : KState) : Z :=
  let svcId := load_u8 (mem s) (pageEnd - 0xB5) in
  if svcId =? 0xFE then load_u32 (mem s) (pageEnd - 0x110 + 8 * 4) else svcId.

Definition signalSvcReturn (pageEnd : Z) : K unit :=
  let* svcId := gets (signalSvcReturn_svcId pageEnd) in
  let* currentProcess := get_currentProcess in
  let* flags := get_customFlags in
  (let* dbg := debugOfProcess in
   match dbg with
   | None => ret tt
   | Some _ =>
       let* b := shouldSignalSyscallDebugEvent currentProcess svcId in
       when b (SignalDebugEvent DBGEVENT_OUTPUT_STRING 0xFFFFFFFF svcId)
   end) ;;
  if negb (Z.land flags SignalOnMemLayoutChanges =? 0)
     && negb (Z.land flags MemLayoutChanged =? 0)
  then
    put_customFlags (Z.land flags (Z.lnot MemLayoutChanged)) ;;
    let* ev := get_onMemoryLayoutChangeEvent in
    SignalEvent ev
  else ret tt.

(** The loop of [svcHook] over [threadList]: on each thread of
    [currentProcess] that has bit 0x20 of its scheduling mask set, clear
    that bit.  A mask is unsigned, so [&= ~0x20] is [Z.land] with the
    complement and needs no truncation. *)
Fixpoint unlockThreads (currentProcess : Z) (l : list KThread) : list KThread :=
  match l with
  | [] => []
  | thread :: rest =>
      (if (ownerProcess thread =? currentProcess)
          && negb (Z.land (schedulingMask thread) 0x20 =? 0)
       then mkKThread (ownerProcess thread)
                      (Z.land (schedulingMask thread) (Z.lnot 0x20))
       else thread)
      :: unlockThreads currentProcess rest
  end.

(** The local [svcId] of [svcHook] before its [switch]. *)
Definition svcHook_svcId (pageEnd : Z) (s : KState) : Z :=
  let svcId := load_u8 (mem s) (pageEnd - 0xB5) in
  if svcId =? 0xFE then load_u32 (mem s) (pageEnd - 0x110 + 8 * 4) else svcId.

Definition svcHook (pageEnd : Z) : K fptr :=
  let* currentProcess := get_currentProcess in
  let* svcId := gets (svcHook_svcId pageEnd) in
  match svcId with
  | 0x01 => ret (FnPtr Fn.ControlMemoryHookWrapper)
  | 0x03 =>
      let* flags := get_customFlags in
      (if negb (Z.land flags SignalOnExit =? 0) then
         (let* status := PLG_GetStatus in
          when (status =? PLG_CFG_RUNNING) (PLG_SignalEvent PLG_CFG_EXIT_EVENT)) ;;
         KRecursiveLock__Lock ;;
         (fun s => (tt, set_threadList (unlockThreads currentProcess (threadList s)) s)) ;;
         KRecursiveLock__Unlock
       else ret tt) ;;
      get_officialSVCs 0x3
  | 0x29 => ret (FnPtr Fn.GetHandleInfoHookWrapper)
  | 0x2A => ret (FnPtr Fn.GetSystemInfoHookWrapper)
  | 0x2B => ret (FnPtr Fn.GetProcessInfoHookWrapper)
  | 0x2C => ret (FnPtr Fn.GetThreadInfoHookWrapper)
  | 0x2D => ret (FnPtr Fn.ConnectToPortHookWrapper)
  | 0x2E => ret (FnPtr Fn.GetCFWInfo)
  | 0x32 => ret (FnPtr Fn.SendSyncRequestHook)
  | 0x3C =>
      let* dbg := debugOfProcess in
      match dbg with
      | Some _ => get_officialSVCs 0x3C
      | None => ret (FnPtr Fn.Break)
      end
  | 0x59 => ret (FnPtr Fn.SetGpuProt)
  | 0x5A => ret (FnPtr Fn.SetWifiEnabled)
  | 0x7B => ret (FnPtr Fn.Backdoor)
  | 0x7C => ret (FnPtr Fn.KernelSetStateHook)
  | 0x80 => ret (FnPtr Fn.CustomBackdoor)
  | 0x90 => ret (FnPtr Fn.convertVAToPA)
  | 0x91 => ret (FnPtr Fn.flushDataCacheRange)
  | 0x92 => ret (FnPtr Fn.flushEntireDataCache)
  | 0x93 => ret (FnPtr Fn.invalidateInstructionCacheRange)
  | 0x94 => ret (FnPtr Fn.invalidateEntireInstructionCache)
  | 0xA0 => ret (FnPtr Fn.MapProcessMemoryExWrapper)
  | 0xA1 => ret (FnPtr Fn.UnmapProcessMemoryEx)
  | 0xA2 => ret (FnPtr Fn.ControlMemoryEx)
  | 0xA3 => ret (FnPtr Fn.ControlMemoryUnsafeWrapper)
  | 0xB0 => ret (FnPtr Fn.ControlService)
  | 0xB1 => ret (FnPtr Fn.CopyHandleWrapper)
  | 0xB2 => ret (FnPtr Fn.TranslateHandleWrapper)
  | 0xB3 => ret (FnPtr Fn.ControlProcess)
  | _ => if svcId <=? 0x7D then get_officialSVCs svcId else ret NULL
  end.

(** ** svc/UnmapProcessMemoryEx.c *)

(** [handleTableOfProcess(p)] and [hwInfoOfProcess(p)] are address
    computations inside the object at [p]; the sub-objects are named by
    their owner.  A [Result] is held as its 32-bit pattern. *)
Definition UnmapProcessMemoryEx (processHandle dst size : Z) : K Z :=
  let* handleTableOwner := get_currentProcess in
  let* version := gets kernelVersion in
  if GET_VERSION_MINOR version <? 37 then
    UnmapProcessMemory processHandle dst size
  else
    let* process :=
      (if processHandle =? CUR_PROCESS_HANDLE then
         let* process := get_currentProcess in
         KAutoObject__AddReference process ;;
         ret (Some process)
       else KProcessHandleTable__ToKProcess handleTableOwner processHandle) in
    match process with
    | None => ret 0xD8E007F7
    | Some process =>
        let* res := KProcessHwInfo__UnmapProcessMemory process dst (Z.shiftr size 12) in
        DecrementReferenceCount process ;;
        invalidateEntireInstructionCache ;;
        flushEntireDataCache ;;
        ret res
    end.

End Kernel.

(** ** A concrete environment and concrete states, to run the code on *)

(** libctru's [GET_VERSION_MINOR] and [CUR_PROCESS_HANDLE], flags on
    distinct bits, a handle table that knows handle 0x10 only, and
    external calls that report success. *)
Definition sample_env : KernelEnv :=
  {| SignalOnMemLayoutChanges := 0x2;
     SignalOnExit := 0x4;
     MemLayoutChanged := 0x10000;
     DBGEVENT_OUTPUT_STRING := 11;
     CUR_PROCESS_HANDLE := 0xFFFF8001;
     PLG_CFG_RUNNING := 1;
     PLG_CFG_EXIT_EVENT := 2;
     GET_VERSION_MINOR := fun v => Z.land (Z.shiftr v 16) 0xFF;
     shouldSignalSyscallDebugEvent_ret := fun _ _ _ => true;
     PLG_GetStatus_ret := fun _ => 1;
     KProcessHandleTable__ToKProcess_ret :=
       fun _ _ handle => if handle =? 0x10 then Some 0xFFF70000 else None;
     KProcessHwInfo__UnmapProcessMemory_ret := fun _ _ _ _ => 0;
     UnmapProcessMemory_ret := fun _ _ _ _ => 0 |}.

(** A stack frame ending at [pageEnd] whose call byte is [b] and whose
    saved r12 is [r12]; zero elsewhere. *)
Definition frame_mem (pageEnd b r12 : Z) : memory :=
  fun a =>
    if a =? pageEnd - 0xB5 then b
    else if (pageEnd - 0xF0 <=? a) && (a <? pageEnd - 0xEC)
         then Z.land (Z.shiftr r12 (8 * (a - (pageEnd - 0xF0)))) 0xFF
         else 0.

(** The stock table: entry [i] points at kernel address [0xFFF00000 + 4 i]. *)
Definition sample_table : list fptr :=
  map (fun i => KernelPtr (0xFFF00000 + 4 * Z.of_nat i)) (seq 0 0x7E).

(** A process at 0xFFF70000 with the given flags and debugger, two of its
    threads (one held) and one held thread of another process. *)
Definition sample_state (version flags : Z) (dbg : option Z) (m : memory) : KState :=
  {| kernelVersion := version;
     officialSVCs := sample_table;
     currentProcess := 0xFFF70000;
     currentProcessObj := mkKProcess flags dbg 0x77;
     threadList := [mkKThread 0xFFF70000 0x21; mkKThread 0xFFF71000 0x20;
                    mkKThread 0xFFF70000 0x01];
     mem := m;
     trace := [] |}.

(** ** Reading a run *)

(** The events a run from [s] to [s'] added. *)
Definition new_events (s s' : KState) : list Event :=
  drop (length (trace s)) (trace s').

(** The call identifiers carried by the debug events of a trace. *)
Fixpoint debug_event_ids (evs : list Event) : list Z :=
  match evs with
  | [] => []
  | EvSignalDebugEvent _ _ id :: rest => id :: debug_event_ids rest
  | _ :: rest => debug_event_ids rest
  end.

(** The events signalled with [SignalEvent]. *)
Fixpoint signalled_events (evs : list Event) : list Z :=
  match evs with
  | [] => []
  | EvSignalEvent ev :: rest => ev :: signalled_events rest
  | _ :: rest => signalled_events rest
  end.

(** A reference on [p] is taken by [KAutoObject__AddReference] and by a
    successful handle lookup, and dropped by [DecrementReferenceCount]. *)
Definition acquires (p : Z) (e : Event) : bool :=
  match e with
  | EvKAutoObject__AddReference q => q =? p
  | EvKProcessHandleTable__ToKProcess _ _ (Some q) => q =? p
  | _ => false
  end.

Definition releases (p : Z) (e : Event) : bool :=
  match e with
  | EvDecrementReferenceCount q => q =? p
  | _ => false
  end.

Definition is_cache_maintenance (e : Event) : bool :=
  match e with
  | EvInvalidateEntireInstructionCache | EvFlushEntireDataCache => true
  | _ => false
  end.

Definition is_unmap (e : Event) : bool :=
  match e with
  | EvKProcessHwInfo__UnmapProcessMemory _ _ _ _ | EvUnmapProcessMemory _ _ _ _ => true
  | _ => false
  end.

(** The identifiers above 0x7D that [svcHook] serves with a function of
    the extension. *)
Definition custom_svc_ids : list Z :=
  [0x80; 0x90; 0x91; 0x92; 0x93; 0x94; 0xA0; 0xA1; 0xA2; 0xA3;
   0xB0; 0xB1; 0xB2; 0xB3].

(** * rosalina: the err:f service (errdisp.c) and the menu calls it makes *)

(** Colours of draw.h; only their names matter here. *)
Inductive Color : Set := COLOR_RED | COLOR_WHITE | COLOR_BLUE.

(** What is handed to [Draw_DrawString]: a string literal of the source,
    the stored user string, or the buffer [ERRF_FormatError] filled for
    the given error record. *)
Inductive Text : Type :=
| TLit (text : string)
| TUserString (bytes : list Z)
| TErrorText (info : list Z).

(** Calls from the service into libctru, the kernel and the drawing code. *)
Inductive UEvent : Type :=
| EvSvcSleepThread (ns : Z)
| EvSvcKernelSetState (type arg : Z)
| EvHidScanInput
| EvDraw_Lock
| EvDraw_Unlock
| EvDraw_ClearFramebuffer
| EvDraw_FlushFramebuffer
| EvDraw_AllocateFramebufferCache (size res : Z)
| EvDraw_SetupFramebuffer
| EvDraw_RestoreFramebuffer
| EvDraw_FreeFramebufferCache
| EvDraw_DrawString (posX posY : Z) (color : Color) (text : Text) (res : Z)
| EvERRF_FormatError (info : list Z).

(** The globals of errdisp.c and menu.c the handler touches.  [cmdbuf i]
    is the word [getThreadCommandBuffer()[i]]: the thread-local storage is
    read as words from the start of the command buffer, so an index past
    the 64 words of the buffer reads what lies behind it.  [userString] is
    the array of 0x100 + 1 chars.  [hidScans] counts the calls of
    [hidScanInput] so far. *)
Record RState := mkRState {
  cmdbuf : Z -> Z;
  userString : list Z;
  menuShouldExit : bool;
  isHidInitialized : bool;
  menuRefCount : Z;
  hidScans : nat;
  utrace : list UEvent
}.

Definition set_cmdbuf (c : Z -> Z) (s : RState) : RState :=
  mkRState c (userString s) (menuShouldExit s) (isHidInitialized s)
           (menuRefCount s) (hidScans s) (utrace s).

Definition set_userString (u : list Z) (s : RState) : RState :=
  mkRState (cmdbuf s) u (menuShouldExit s) (isHidInitialized s)
           (menuRefCount s) (hidScans s) (utrace s).

Definition set_menuRefCount (n : Z) (s : RState) : RState :=
  mkRState (cmdbuf s) (userString s) (menuShouldExit s) (isHidInitialized s)
           n (hidScans s) (utrace s).

Definition set_hidScans (n : nat) (s : RState) : RState :=
  mkRState (cmdbuf s) (userString s) (menuShouldExit s) (isHidInitialized s)
           (menuRefCount s) n (utrace s).

Definition set_utrace (t : list UEvent) (s : RState) : RState :=
  mkRState (cmdbuf s) (userString s) (menuShouldExit s) (isHidInitialized s)
           (menuRefCount s) (hidScans s) t.

(** Macros, constants and the layout of [ERRF_FatalErrInfo] come from
    libctru and from headers that are not among the translated files; the
    keys the pad reports at each scan and the return values of the drawing
    code come from outside. *)
Class RosalinaEnv := mkRosalinaEnv {
  IPC_MakeHeader : Z -> Z -> Z -> Z;
  R_FAILED : Z -> bool;
  ERRF_ERRTYPE_LOGGED : Z;
  sizeof_ERRF_FatalErrInfo : Z;
  (* the fields [type] and [procId] of the record held in these bytes *)
  info_type : list Z -> Z;
  info_procId : list Z -> Z;
  DIRECTIONAL_KEYS : Z;
  FB_BOTTOM_SIZE : Z;
  SPACING_Y : Z;
  (* what hidKeysDown and hidKeysDownRepeat report after the n-th scan *)
  hidKeysDown_ret : nat -> Z;
  hidKeysDownRepeat_ret : nat -> Z;
  Draw_AllocateFramebufferCache_ret : RState -> Z -> Z;
  Draw_DrawString_ret : RState -> Z -> Z -> Color -> Text -> Z
}.

(** ** The monad of service code: state passing over [RState], [None]
    when the fuel of a waiting loop runs out *)

Definition R (A : Type) : Type := RState -> option (A * RState).

Definition retR {A} (a : A) : R A := fun s => Some (a, s).

Definition bindR {A B} (c : R A) (k : A -> R B) : R B :=
  fun s => match c s with
           | Some (a, s') => k a s'
           | None => None
           end.

Notation "'let+' x ':=' c 'in' k" := (bindR c (fun x => k))
  (at level 10, x pattern, c at level 100, k at level 200).
Notation "c ;+ k" := (bindR c (fun _ => k))
  (at level 100, k at level 200, right associativity).

Definition getsR {A} (f : RState -> A) : R A := fun s => Some (f s, s).

Definition modifyR (f : RState -> RState) : R unit := fun s => Some (tt, f s).

Definition emitR (e : UEvent) : R unit :=
  modifyR (fun s => set_utrace (utrace s ++ [e]) s).

(** Byte [k] of the words that start at [cmdbuf + from] (little-endian). *)
Definition cmdbuf_byte (c : Z -> Z) (from k : Z) : Z :=
  Z.land (Z.shiftr (c (from + k / 4)) (8 * (k mod 4))) 0xFF.

(** The [n] bytes that start at [cmdbuf + from]. *)
Definition cmdbuf_bytes (c : Z -> Z) (from n : Z) : list Z :=
  map (fun k => cmdbuf_byte c from (Z.of_nat k)) (seq 0 (Z.to_nat n)).

(** [memcpy(dst, src, n)] into an array held as a list, [n] within it. *)
Definition memcpy (dst src : list Z) (n : Z) : list Z :=
  take (Z.to_nat n) src ++ drop (Z.to_nat n) dst.

(** The bytes of a C string: up to the first NUL. *)
Fixpoint c_string (bytes : list Z) : list Z :=
  match bytes with
  | [] => []
  | b :: rest => if b =? 0 then [] else b :: c_string rest
  end.

Definition newline : string := String (Ascii.ascii_of_nat 10) EmptyString.

Section Rosalina.
Context `{RosalinaEnv}.

(** ** External calls of the service *)

Definition svcSleepThread (ns : Z) : R unit := emitR (EvSvcSleepThread ns).

Definition svcKernelSetState (type arg : Z) : R unit :=
  emitR (EvSvcKernelSetState type arg).

Definition Draw_Lock : R unit := emitR EvDraw_Lock.

Definition Draw_Unlock : R unit := emitR EvDraw_Unlock.

Definition Draw_ClearFramebuffer : R unit := emitR EvDraw_ClearFramebuffer.

Definition Draw_FlushFramebuffer : R unit := emitR EvDraw_FlushFramebuffer.

Definition Draw_SetupFramebuffer : R unit := emitR EvDraw_SetupFramebuffer.

Definition Draw_RestoreFramebuffer : R unit := emitR EvDraw_RestoreFramebuffer.

Definition Draw_FreeFramebufferCache : R unit := emitR EvDraw_FreeFramebufferCache.

Definition Draw_AllocateFramebufferCache (size : Z) : R Z :=
  fun s =>
    let res := Draw_AllocateFramebufferCache_ret s size in
    Some (res, set_utrace (utrace s ++ [EvDraw_AllocateFramebufferCache size res]) s).

Definition Draw_DrawString (posX posY : Z) (color : Color) (text : Text) : R Z :=
  fun s =>
    let res := Draw_DrawString_ret s posX posY color text in
    Some (res, set_utrace (utrace s ++ [EvDraw_DrawString posX posY color text res]) s).

Definition hidScanInput : R unit :=
  emitR EvHidScanInput ;+ modifyR (fun s => set_hidScans (S (hidScans s)) s).

Definition hidKeysDown : R Z := getsR (fun s => hidKeysDown_ret (hidScans s)).

Definition hidKeysDownRepeat : R Z := getsR (fun s => hidKeysDownRepeat_ret (hidScans s)).

(** ** menu.c *)

Definition convertHidKeys (keys : Z) : Z := keys.

(** The do-while loop of [waitInputWithTimeout], one iteration per unit
    of fuel; [n] is the local counter before the iteration.  [n] is a
    signed int that C leaves undefined on overflow; it is not wrapped. *)
Fixpoint waitInputWithTimeout_loop (fuel : nat) (msec n : Z) : R Z :=
  match fuel with
  | O => fun _ => None
  | S fuel' =>
      svcSleepThread (1 * 1000 * 1000) ;+
      Draw_Lock ;+
      let+ hid := getsR isHidInitialized in
      let+ exit := getsR menuShouldExit in
      if negb hid || exit then
        Draw_Unlock ;+ retR 0
      else
        let n := n + 1 in
        hidScanInput ;+
        let+ down := hidKeysDown in
        let+ rep := hidKeysDownRepeat in
        let keys := Z.lor (convertHidKeys down)
                          (Z.land (convertHidKeys rep) DIRECTIONAL_KEYS) in
        Draw_Unlock ;+
        let+ exit := getsR menuShouldExit in
        let+ hid := getsR isHidInitialized in
        if (keys =? 0) && negb exit && hid && ((msec <? 0) || (n <? msec))
        then waitInputWithTimeout_loop fuel' msec n
        else retR keys
  end.

Definition waitInputWithTimeout (fuel : nat) (msec : Z) : R Z :=
  waitInputWithTimeout_loop fuel msec 0.

Definition waitInput (fuel : nat) : R Z := waitInputWithTimeout fuel (-1).

Definition menuEnter : R unit :=
  Draw_Lock ;+
  let+ exit := getsR menuShouldExit in
  let+ count := getsR menuRefCount in
  (if negb exit && (count =? 0) then
     modifyR (set_menuRefCount (count + 1)) ;+
     svcKernelSetState 0x10000 (Z.lor 2 1) ;+
     svcSleepThread (5 * 1000 * 100) ;+
     let+ res := Draw_AllocateFramebufferCache FB_BOTTOM_SIZE in
     if R_FAILED res then
       modifyR (set_menuRefCount 0) ;+
       svcKernelSetState 0x10000 (Z.lor 2 1) ;+
       svcSleepThread (5 * 1000 * 100)
     else Draw_SetupFramebuffer
   else retR tt) ;+
  Draw_Unlock.

Definition menuLeave : R unit :=
  svcSleepThread (50 * 1000 * 1000) ;+
  Draw_Lock ;+
  let+ count := getsR menuRefCount in
  modifyR (set_menuRefCount (count - 1)) ;+
  (if count - 1 =? 0 then
     Draw_RestoreFramebuffer ;+
     Draw_FreeFramebufferCache ;+
     svcKernelSetState 0x10000 (Z.lor 2 1)
   else retR tt) ;+
  Draw_Unlock.

(** ** errdisp.c *)

(** [ERRF_GetErrInfo(&info, in, size)]: the record is the [size] bytes
    found at [in], here [cmdbuf + from]. *)
Definition ERRF_GetErrInfo (from size : Z) : R (list Z) :=
  getsR (fun s => cmdbuf_bytes (cmdbuf s) from size).

(** [ERRF_FormatError] fills a local buffer with the description of the
    record; the call is logged and the buffer is named by the record. *)
Definition ERRF_FormatError (info : list Z) : R unit := emitR (EvERRF_FormatError info).

Definition ERRF_DisplayError (info : list Z) : R unit :=
  Draw_Lock ;+
  let+ user := getsR userString in
  let+ posY := Draw_DrawString 10 10 COLOR_RED
                 (if nth 0 user 0 =? 0 then TLit "An error occurred (bruh)"
                  else TUserString (c_string user)) in
  ERRF_FormatError info ;+
  let posY := if posY <? 30 then 30 else posY in
  let+ posY := Draw_DrawString 10 posY COLOR_WHITE (TErrorText info) in
  let+ posY := Draw_DrawString 10 ((posY + SPACING_Y) mod 2 ^ 32) COLOR_BLUE
                 (TLit (String.append "Press any button to continue."
                       (String.append newline
                       (String.append "There is a high chance that it crashed"
                       (String.append newline
                       (String.append "and that you can't power off normally."
                       (String.append newline
                        "To reboot, press A + B + X + Y + Start."))))))) in
  Draw_FlushFramebuffer ;+
  Draw_Unlock.

Definition put_cmdbuf (i v : Z) : R unit :=
  modifyR (fun s => set_cmdbuf (fun j => if j =? i then v else cmdbuf s j) s).

Definition ERRF_HandleCommands (fuel : nat) : R unit :=
  let+ cmd0 := getsR (fun s => cmdbuf s 0) in
  match Z.shiftr cmd0 16 with
  | 1 =>
      let+ info := ERRF_GetErrInfo 1 sizeof_ERRF_FatalErrInfo in
      let+ exit := getsR menuShouldExit in
      (if negb exit
          && (negb (info_type info =? ERRF_ERRTYPE_LOGGED) || (info_procId info =? 0))
       then
         menuEnter ;+
         Draw_Lock ;+
         Draw_ClearFramebuffer ;+
         Draw_FlushFramebuffer ;+
         ERRF_DisplayError info ;+
         waitInput fuel ;+
         Draw_Unlock ;+
         menuLeave
       else retR tt) ;+
      put_cmdbuf 0 (IPC_MakeHeader 1 1 0) ;+
      put_cmdbuf 1 0
  | 2 =>
      let+ cmd0 := getsR (fun s => cmdbuf s 0) in
      let+ cmd2 := getsR (fun s => cmdbuf s 2) in
      if negb (cmd0 =? IPC_MakeHeader 2 1 2) || negb (Z.land cmd2 0x3C0F =? 2) then
        put_cmdbuf 0 (IPC_MakeHeader 0 1 0) ;+
        put_cmdbuf 1 0xD9001830
      else
        let+ cmd1 := getsR (fun s => cmdbuf s 1) in
        let sz := if cmd1 <=? 0x100 then cmd1 else 0x100 in
        let+ src := getsR (fun s => cmdbuf_bytes (cmdbuf s) 3 sz) in
        modifyR (fun s => set_userString (memcpy (userString s) src sz) s) ;+
        modifyR (fun s => set_userString (<[Z.to_nat sz := 0]> (userString s)) s) ;+
        put_cmdbuf 0 (IPC_MakeHeader 2 1 0) ;+
        put_cmdbuf 1 0
  | _ => retR tt
  end.

End Rosalina.

(** ** A concrete service environment and concrete requests *)

(** libctru's header word, failure test and record layout ([type] is the
    first byte, [procId] the word at offset 12 of 0x80 bytes); a pad on
    which A goes down at the third scan; drawing calls that succeed. *)
Definition sample_renv : RosalinaEnv :=
  {| IPC_MakeHeader := fun id normal translate =>
       Z.lor (Z.shiftl id 16)
             (Z.lor (Z.shiftl (Z.land normal 0x3F) 6) (Z.land translate 0x3F));
     R_FAILED := fun res => 0x80000000 <=? res;
     ERRF_ERRTYPE_LOGGED := 5;
     sizeof_ERRF_FatalErrInfo := 0x80;
     info_type := fun bytes => nth 0 bytes 0;
     info_procId := fun bytes =>
       Z.lor (nth 12 bytes 0)
             (Z.lor (Z.shiftl (nth 13 bytes 0) 8)
                    (Z.lor (Z.shiftl (nth 14 bytes 0) 16)
                           (Z.shiftl (nth 15 bytes 0) 24)));
     DIRECTIONAL_KEYS := 0xF00000F0;
     FB_BOTTOM_SIZE := 0x25800;
     SPACING_Y := 11;
     hidKeysDown_ret := fun n => if Nat.eqb n 3 then 1 else 0;
     hidKeysDownRepeat_ret := fun _ => 0;
     Draw_AllocateFramebufferCache_ret := fun _ _ => 0;
     Draw_DrawString_ret := fun _ _ posY _ _ => posY + 11 |}.

(** A command buffer holding the given leading words, zero behind them. *)
Definition cmdbuf_of (words : list Z) : Z -> Z :=
  fun i => if i <? 0 then 0 else nth (Z.to_nat i) words 0.

(** The service at rest, with "Hi" stored as user string. *)
Definition sample_rstate (words : list Z) (exiting : bool) : RState :=
  {| cmdbuf := cmdbuf_of words;
     userString := [0x48; 0x69] ++ repeat 0 0xFF;
     menuShouldExit := exiting;
     isHidInitialized := true;
     menuRefCount := 0;
     hidScans := 0;
     utrace := [] |}.

(** The events a run of the service from [s] to [s'] added. *)
Definition new_uevents (s s' : RState) : list UEvent :=
  drop (length (utrace s)) (utrace s').

(** The error screen is drawn by [ERRF_DisplayError], which formats the
    error exactly once. *)
Definition is_error_screen (e : UEvent) : bool :=
  match e with
  | EvERRF_FormatError _ => true
  | _ => false
  end.

(** The pad is polled by [waitInput], each round of which starts by
    sleeping one millisecond. *)
Definition is_input_wait (e : UEvent) : bool :=
  match e with
  | EvSvcSleepThread ns => ns =? 1 * 1000 * 1000
  | _ => false
  end.

(** The keys [waitInputWithTimeout] sees after the [n]-th scan. *)
Definition scanned_keys `{RosalinaEnv} (n : nat) : Z :=
  Z.lor (convertHidKeys (hidKeysDown_ret n))
        (Z.land (convertHidKeys (hidKeysDownRepeat_ret n)) DIRECTIONAL_KEYS).

(** * Notions used to state the properties *)

(** ** svc.c *)

(** What the loop body does to one thread. *)
Definition unlockThread (currentProcess : Z) (thread : KThread) : KThread :=
  if (ownerProcess thread =? currentProcess)
     && negb (Z.land (schedulingMask thread) 0x20 =? 0)
  then mkKThread (ownerProcess thread) (Z.land (schedulingMask thread) (Z.lnot 0x20))
  else thread.

(** The [switch] of [svcHook] read as a table: a call goes to the stock
    handler, to a function of the extension, or to a function of the
    extension unless a debugger is attached. *)
Inductive svc_entry : Set :=
| Original
| Replaced (f : Fn.t)
| DebuggerGated (f : Fn.t).

Definition dispatch_table : list (Z * svc_entry) :=
  [ (0x01, Replaced Fn.ControlMemoryHookWrapper); (0x03, Original);
    (0x29, Replaced Fn.GetHandleInfoHookWrapper);
    (0x2A, Replaced Fn.GetSystemInfoHookWrapper);
    (0x2B, Replaced Fn.GetProcessInfoHookWrapper);
    (0x2C, Replaced Fn.GetThreadInfoHookWrapper);
    (0x2D, Replaced Fn.ConnectToPortHookWrapper);
    (0x2E, Replaced Fn.GetCFWInfo); (0x32, Replaced Fn.SendSyncRequestHook);
    (0x3C, DebuggerGated Fn.Break);
    (0x59, Replaced Fn.SetGpuProt); (0x5A, Replaced Fn.SetWifiEnabled);
    (0x7B, Replaced Fn.Backdoor); (0x7C, Replaced Fn.KernelSetStateHook);
    (0x80, Replaced Fn.CustomBackdoor);
    (0x90, Replaced Fn.convertVAToPA); (0x91, Replaced Fn.flushDataCacheRange);
    (0x92, Replaced Fn.flushEntireDataCache);
    (0x93, Replaced Fn.invalidateInstructionCacheRange);
    (0x94, Replaced Fn.invalidateEntireInstructionCache);
    (0xA0, Replaced Fn.MapProcessMemoryExWrapper);
    (0xA1, Replaced Fn.UnmapProcessMemoryEx);
    (0xA2, Replaced Fn.ControlMemoryEx);
    (0xA3, Replaced Fn.ControlMemoryUnsafeWrapper);
    (0xB0, Replaced Fn.ControlService); (0xB1, Replaced Fn.CopyHandleWrapper);
    (0xB2, Replaced Fn.TranslateHandleWrapper); (0xB3, Replaced Fn.ControlProcess) ].

(** The first entry of an association list under key [id]. *)
Fixpoint assoc {A} (id : Z) (l : list (Z * A)) : option A :=
  match l with
  | [] => None
  | (k, v) :: rest => if id =? k then Some v else assoc id rest
  end.

(** The handler the table gives for [id], with [table] for the stock
    handlers; identifiers without an entry get the stock handler up to
    0x7D and the null pointer above. *)
Definition resolve (id : Z) (table : list fptr) (attached : bool) : fptr :=
  match assoc id dispatch_table with
  | Some (Replaced f) => FnPtr f
  | Some (DebuggerGated f) =>
      if attached then nth (Z.to_nat id) table NULL else FnPtr f
  | Some Original | None =>
      if id <=? 0x7D then nth (Z.to_nat id) table NULL else NULL
  end.

(** Whether [debugOfProcess(currentProcess)] is not null. *)
Definition attached (s : KState) : bool :=
  match debug (currentProcessObj s) with Some _ => true | None => false end.

(** ** svc/UnmapProcessMemoryEx.c *)

(** The process pointer [UnmapProcessMemoryEx] gets for its handle: the
    current process for [CUR_PROCESS_HANDLE], else what the handle table
    of the current process answers. *)
Definition resolved_process `{KernelEnv} (s : KState) (processHandle : Z) : option Z :=
  if processHandle =? CUR_PROCESS_HANDLE then Some (currentProcess s)
  else KProcessHandleTable__ToKProcess_ret s (currentProcess s) processHandle.

(** ** errdisp.c *)

(** From [s] to [s'] the events [l] were logged and nothing a request
    handler reads was changed. *)
Definition frame (s s' : RState) (l : list UEvent) : Prop :=
  utrace s' = utrace s ++ l
  /\ cmdbuf s' = cmdbuf s
  /\ userString s' = userString s
  /\ menuShouldExit s' = menuShouldExit s
  /\ isHidInitialized s' = isHidInitialized s.

(** A computation that always returns, logs calls, keeps the frame and
    does not poll the pad; [P] holds of what it logs. *)
Definition quiet_with {A} (P : list UEvent -> Prop) (c : R A) : Prop :=
  forall s, exists a s' l,
    c s = Some (a, s') /\ frame s s' l /\ hidScans s' = hidScans s /\ P l.

Definition quiet {A} (c : R A) : Prop := quiet_with (fun _ => True) c.

(** Some event of [l] satisfies [p]. *)
Definition logs (p : UEvent -> bool) (l : list UEvent) : Prop := existsb p l = true.

(** * More of the code *)

(** ** svc.c *)

(** Replace the debugger pointer of the current process. *)
Definition with_debug (dbg : option Z) (s : KState) : KState :=
  mkKState (kernelVersion s) (officialSVCs s) (currentProcess s)
           (mkKProcess (customFlags (currentProcessObj s)) dbg
                       (onMemoryLayoutChangeEvent (currentProcessObj s)))
           (threadList s) (mem s) (trace s).

(** ** menu.c: the cursor *)

(** [menuAdvanceCursor]: the sum is taken in 32-bit unsigned arithmetic,
    [displ] being converted from a signed int; the remainder by zero is
    undefined in C and gives [None]. *)
Definition menuAdvanceCursor (pos numItems displ : Z) : option Z :=
  if numItems =? 0 then None
  else Some (((pos + numItems + displ) mod 2 ^ 32) mod numItems).

(** ** ntp.c *)

Module Ntp.

(** [NUM2BCD(n)]; C division truncates. *)
Definition NUM2BCD (n : Z) : Z :=
  if n <? 99 then Z.lor (Z.quot n 10 * 0x10) (Z.rem n 10) else 0x99.

Definition NTP_TIMESTAMP_DELTA : Z := 2208988800.

Definition MAKE_IPV4 (a b c d : Z) : Z :=
  Z.lor (Z.lor (Z.lor (Z.shiftl a 24) (Z.shiftl b 16)) (Z.shiftl c 8)) d.

Definition NTP_IP : Z := MAKE_IPV4 51 137 137 111.

(** [htonl] and [ntohl] on the little-endian host: the four bytes of a
    32-bit word in reverse order. *)
Definition htonl (x : Z) : Z :=
  Z.lor (Z.shiftl (Z.land x 0xFF) 24)
    (Z.lor (Z.shiftl (Z.land (Z.shiftr x 8) 0xFF) 16)
       (Z.lor (Z.shiftl (Z.land (Z.shiftr x 16) 0xFF) 8)
              (Z.land (Z.shiftr x 24) 0xFF))).

Definition ntohl (x : Z) : Z := htonl x.

(** [htons]: the two bytes of a 16-bit word in reverse order. *)
Definition htons (x : Z) : Z :=
  Z.lor (Z.shiftl (Z.land x 0xFF) 8) (Z.land (Z.shiftr x 8) 0xFF).

(** Conversion of an unsigned 64-bit value to the signed 64-bit [time_t]
    and [s64]. *)
Definition to_s64 (x : Z) : Z :=
  let m := x mod 2 ^ 64 in if m <? 2 ^ 63 then m else m - 2 ^ 64.

(** The 32-bit field at byte offset [off] of a structure held as bytes. *)
Definition field_u32 (bytes : list Z) (off : nat) : Z :=
  Z.lor (nth off bytes 0)
    (Z.lor (Z.shiftl (nth (off + 1) bytes 0) 8)
       (Z.lor (Z.shiftl (nth (off + 2) bytes 0) 16)
              (Z.shiftl (nth (off + 3) bytes 0) 24))).

(** Calls into the socket layer, ptm:sysm, cfg:u and the OS. *)
Inductive Event : Type :=
| EvMiniSocInit
| EvMiniSocExit
| EvSocSocket
| EvSocConnect (sock s_addr sin_port : Z)
| EvSocSend (sock : Z) (data : list Z)
| EvSocRecv (sock len : Z)
| EvSocSetsockopt_SO_LINGER (sock l_onoff l_linger : Z)
| EvSocClose (sock : Z)
| EvPtmSysmInit
| EvPtmSysmExit
| EvCfguInit
| EvCfguExit
| EvPTMSYSM_SetUserTime (msY2k : Z)
| EvPTMSYSM_SetRtcTime (t : Z)
| EvPTMSYSM_InvalidateSystemTime
| EvCFG_SetConfigInfoBlk4 (size blkID value : Z)
| EvCFG_UpdateConfigSavegame
| EvOsGetTime.

(** What the calls return; a [Result] and an [int] are signed here. *)
Class Env := mkEnv {
  R_FAILED : Z -> bool;
  miniSocInit_ret : Z;
  socSocket_ret : Z;
  socConnect_ret : Z;
  socSend_ret : Z;
  socRecv_ret : Z;
  (* the bytes [socRecv] wrote at the start of the buffer *)
  socRecv_data : list Z;
  ptmSysmInit_ret : Z;
  cfguInit_ret : Z;
  PTMSYSM_SetUserTime_ret : Z -> Z;
  PTMSYSM_SetRtcTime_ret : Z -> Z;
  CFG_SetConfigInfoBlk4_ret : Z;
  CFG_UpdateConfigSavegame_ret : Z;
  osGetTime_ret : Z
}.

Section Functions.
Context `{Env}.

(** The statements behind the label [cleanup] of [ntpGetTimeStamp]. *)
Definition ntpGetTimeStamp_cleanup (sock : Z) : list Event :=
  [EvSocSetsockopt_SO_LINGER sock 1 0; EvSocClose sock; EvMiniSocExit].

(** [ntpGetTimeStamp(&out)]: the result, the value of [out] afterwards
    and the calls made, [outTimestamp] being the value of [out] before. *)
Definition ntpGetTimeStamp (outTimestamp : Z) : Z * Z * list Event :=
  let res := miniSocInit_ret in
  if R_FAILED res then (res, outTimestamp, [EvMiniSocInit])
  else
    let sock := socSocket_ret in
    if sock <? -10000 then (sock, outTimestamp, [EvMiniSocInit; EvSocSocket])
    else
      let packet := 0x1b :: repeat 0 47 in
      let s_addr := htonl NTP_IP in
      let sin_port := htons 123 in
      let evs := [EvMiniSocInit; EvSocSocket; EvSocConnect sock s_addr sin_port] in
      if socConnect_ret <? 0 then
        (-1, outTimestamp, evs ++ ntpGetTimeStamp_cleanup sock)
      else
        let evs := evs ++ [EvSocSend sock packet] in
        if socSend_ret <? 0 then
          (-1, outTimestamp, evs ++ ntpGetTimeStamp_cleanup sock)
        else
          let evs := evs ++ [EvSocRecv sock 48] in
          if socRecv_ret <? 0 then
            (-1, outTimestamp, evs ++ ntpGetTimeStamp_cleanup sock)
          else
            let packet := socRecv_data ++ drop (length socRecv_data) packet in
            let txTm_s := ntohl (field_u32 packet 40) in
            (0, to_s64 (txTm_s - NTP_TIMESTAMP_DELTA),
             evs ++ ntpGetTimeStamp_cleanup sock).

(** [ntpSetTimeDate(timestamp)]: the result and the calls made. *)
Definition ntpSetTimeDate (timestamp : Z) : Z * list Event :=
  let res := ptmSysmInit_ret in
  if R_FAILED res then (res, [EvPtmSysmInit])
  else
    let msY2k := to_s64 ((timestamp - 946684800) * 1000) in
    let res := PTMSYSM_SetUserTime_ret msY2k in
    (res, [EvPtmSysmInit; EvPTMSYSM_SetUserTime msY2k; EvPtmSysmExit]).

(** [ntpNullifyUserTimeOffset()]: the result and the calls made. *)
Definition ntpNullifyUserTimeOffset : Z * list Event :=
  let res := ptmSysmInit_ret in
  if R_FAILED res then (res, [EvPtmSysmInit])
  else
    let res := cfguInit_ret in
    if R_FAILED res then (res, [EvPtmSysmInit; EvCfguInit; EvPtmSysmExit])
    else
      let cleanup := [EvPtmSysmExit; EvCfguExit] in
      let userTimeOff := 0 in
      let evs := [EvPtmSysmInit; EvCfguInit;
                  EvCFG_SetConfigInfoBlk4 8 0x30001 userTimeOff] in
      let res := CFG_SetConfigInfoBlk4_ret in
      if R_FAILED res then (res, evs ++ cleanup)
      else
        let userTime := to_s64 (osGetTime_ret - 3155673600000) in
        let evs := evs ++ [EvOsGetTime; EvPTMSYSM_SetRtcTime userTime] in
        let res := PTMSYSM_SetRtcTime_ret userTime in
        if R_FAILED res then (res, evs ++ cleanup)
        else
          let evs := evs ++ [EvPTMSYSM_InvalidateSystemTime;
                             EvCFG_UpdateConfigSavegame] in
          let res := CFG_UpdateConfigSavegame_ret in
          (res, evs ++ cleanup).

End Functions.

(** A server that answers with second 0xE0000000 of the NTP era. *)
Definition sample_env : Env :=
  {| R_FAILED := fun res => res <? 0;
     miniSocInit_ret := 0;
     socSocket_ret := 3;
     socConnect_ret := 0;
     socSend_ret := 48;
     socRecv_ret := 48;
     socRecv_data := repeat 0 40 ++ [0xE0; 0; 0; 0] ++ repeat 0 4;
     ptmSysmInit_ret := 0;
     cfguInit_ret := 0;
     PTMSYSM_SetUserTime_ret := fun _ => 0;
     PTMSYSM_SetRtcTime_ret := fun _ => 0;
     CFG_SetConfigInfoBlk4_ret := 0;
     CFG_UpdateConfigSavegame_ret := 0;
     osGetTime_ret := 3155673600000 |}.

(** The two decimal digits a BCD byte stands for. *)
Definition bcd_value (b : Z) : Z := 10 * Z.shiftr b 4 + Z.land b 0xF.

(** The 32-bit big-endian number in four bytes. *)
Definition be32 (b0 b1 b2 b3 : Z) : Z :=
  b0 * 2 ^ 24 + b1 * 2 ^ 16 + b2 * 2 ^ 8 + b3.

Definition is_close (e : Event) : bool :=
  match e with EvSocClose _ => true | _ => false end.

Definition is_miniSocExit (e : Event) : bool :=
  match e with EvMiniSocExit => true | _ => false end.

Definition is_ptmSysmExit (e : Event) : bool :=
  match e with EvPtmSysmExit => true | _ => false end.

Definition is_cfguExit (e : Event) : bool :=
  match e with EvCfguExit => true | _ => false end.

End Ntp.

(** ** errdisp.c: the server thread *)

(** Kernel calls of the server thread. *)
Inductive SrvEvent : Type :=
| EvSvcCreatePort (name : string) (maxSessions : Z)
| EvSvcReplyAndReceive (handles : list Z) (replyTarget : Z)
| EvSvcAcceptSession (port session : Z)
| EvSvcCloseHandle (handle : Z)
| EvSvcBreak.

(** What one return of [svcReplyAndReceive] brings: its result and index,
    the request the kernel wrote into the command buffer, if any, and,
    for the rest of the round, what [svcAcceptSession] answers and whether
    [preTerminationRequested] is set when the loop tests it. *)
Record Wakeup := mkWakeup {
  reply_res : Z;
  reply_index : Z;
  received : option (Z -> Z);
  accept_res : Z;
  accepted : Z;
  terminating : bool
}.

(** The locals of [errDispThreadMain], the globals of the service and
    the kernel calls made so far. *)
Record Server := mkServer {
  service : RState;
  serverHandle : Z;
  clientHandle : Z;
  sessionHandle : Z;
  replyTarget : Z;
  calls : list SrvEvent
}.

(** How a run of the thread over finitely many wake-ups ends: blocked in
    [svcReplyAndReceive], returned from the function, stopped by
    [svcBreak(USERBREAK_PANIC)], or out of fuel while waiting for the pad. *)
Inductive Outcome : Type :=
| Blocked (st : Server)
| Exited (st : Server)
| Panicked (st : Server)
| Starved.

(** Handles, the port results and macros the thread takes from outside. *)
Class ServerEnv := mkServerEnv {
  preTerminationEvent : Z;
  staticBuf : Z;
  IPC_Desc_StaticBuffer : Z -> Z -> Z;
  svcCreatePort_ret : Z;
  svcCreatePort_server : Z;
  svcCreatePort_client : Z
}.

Section ServerThread.
Context `{RosalinaEnv} `{ServerEnv}.

Definition set_service (r : RState) (st : Server) : Server :=
  mkServer r (serverHandle st) (clientHandle st) (sessionHandle st)
           (replyTarget st) (calls st).

Definition set_session (session reply : Z) (st : Server) : Server :=
  mkServer (service st) (serverHandle st) (clientHandle st) session reply (calls st).

Definition call (e : SrvEvent) (st : Server) : Server :=
  mkServer (service st) (serverHandle st) (clientHandle st) (sessionHandle st)
           (replyTarget st) (calls st ++ [e]).

Definition svcBreak (st : Server) : Outcome := Panicked (call EvSvcBreak st).

Definition svcCloseHandle (handle : Z) (st : Server) : Server :=
  call (EvSvcCloseHandle handle) st.

(** The statements of the loop body up to the call of
    [svcReplyAndReceive]: the handles, the marker in [cmdbuf[0]] when
    there is nobody to reply to, and the call itself. *)
Definition errDispThreadMain_wait (st : Server) : Server :=
  let handles := [preTerminationEvent; serverHandle st; sessionHandle st] in
  let st :=
    if replyTarget st =? 0
    then set_service
           (set_cmdbuf (fun j => if j =? 0 then 0xFFFF0000 else cmdbuf (service st) j)
                       (service st)) st
    else st in
  let count := 1 + (if sessionHandle st =? 0 then 1 else 2) in
  call (EvSvcReplyAndReceive (take (Z.to_nat count) handles) (replyTarget st)) st.

(** The three calls of [svcCloseHandle] behind the loop. *)
Definition errDispThreadMain_exit (st : Server) : Outcome :=
  Exited (svcCloseHandle (serverHandle st)
            (svcCloseHandle (clientHandle st)
               (svcCloseHandle (sessionHandle st) st))).

(** The do-while loop of [errDispThreadMain], one round per wake-up. *)
Fixpoint errDispThreadMain_loop (fuel : nat) (script : list Wakeup) (st : Server)
  : Outcome :=
  let st := errDispThreadMain_wait st in
  match script with
  | [] => Blocked st
  | w :: rest =>
      let st :=
        match received w with
        | Some request => set_service (set_cmdbuf request (service st)) st
        | None => st
        end in
      let next (st : Server) : Outcome :=
        if terminating w then errDispThreadMain_exit st
        else errDispThreadMain_loop fuel rest st in
      if R_FAILED (reply_res w) then
        if reply_res w =? 0xC920181A then
          next (set_session 0 0 (svcCloseHandle (sessionHandle st) st))
        else svcBreak st
      else if reply_index w =? 0 then errDispThreadMain_exit st
      else if reply_index w =? 1 then
        let st := call (EvSvcAcceptSession (serverHandle st) (accepted w)) st in
        if R_FAILED (accept_res w) then svcBreak st
        else if sessionHandle st =? 0
             then next (set_session (accepted w) (replyTarget st) st)
             else next (svcCloseHandle (accepted w) st)
      else
        match ERRF_HandleCommands fuel (service st) with
        | None => Starved
        | Some (_, r) =>
            next (set_session (sessionHandle st) (sessionHandle st) (set_service r st))
        end
  end.

(** [errDispThreadMain], started on the globals [r]: the static buffer
    descriptor and address go into the two words behind the command
    buffer, the port is created, and the loop runs with no session. *)
Definition errDispThreadMain (fuel : nat) (script : list Wakeup) (r : RState)
  : Outcome :=
  let r := set_cmdbuf (fun j => if j =? 64 then IPC_Desc_StaticBuffer 0x100 0
                                else cmdbuf r j) r in
  let r := set_cmdbuf (fun j => if j =? 65 then staticBuf else cmdbuf r j) r in
  let st := mkServer r svcCreatePort_server svcCreatePort_client 0 0
                     [EvSvcCreatePort "err:f" 1] in
  if R_FAILED svcCreatePort_ret then svcBreak st
  else errDispThreadMain_loop fuel script st.

End ServerThread.

(** A port with handles 0x20 and 0x21, termination event 0x10. *)
Definition sample_senv : ServerEnv :=
  {| preTerminationEvent := 0x10;
     staticBuf := 0x08000000;
     IPC_Desc_StaticBuffer := fun size id =>
       Z.lor (Z.lor (Z.shiftl size 14) (Z.shiftl (Z.land id 0xF) 10)) 0x2;
     svcCreatePort_ret := 0;
     svcCreatePort_server := 0x20;
     svcCreatePort_client := 0x21 |}.

(** The calls of an outcome; none is kept when the fuel ran out. *)
Definition calls_of (o : Outcome) : list SrvEvent :=
  match o with
  | Blocked st | Exited st | Panicked st => calls st
  | Starved => []
  end.

(** A wait lists the termination event, the port and, if there is one,
    the session; a reply goes to nobody or to the session waited on. *)
Definition wait_ok `{ServerEnv} (port : Z) (e : SrvEvent) : Prop :=
  match e with
  | EvSvcReplyAndReceive handles reply =>
      (handles = [preTerminationEvent; port] /\ reply = 0)
      \/ (exists session, session <> 0
            /\ handles = [preTerminationEvent; port; session]
            /\ (reply = 0 \/ reply = session))
  | _ => True
  end.

Definition accepts (h : Z) (e : SrvEvent) : bool :=
  match e with EvSvcAcceptSession _ session => session =? h | _ => false end.

Definition closes (h : Z) (e : SrvEvent) : bool :=
  match e with EvSvcCloseHandle handle => handle =? h | _ => false end.

Definition is_create_port (e : SrvEvent) : bool :=
  match e with EvSvcCreatePort _ _ => true | _ => false end.

Section ServerNotions.
Context `{RosalinaEnv} `{ServerEnv}.

(** The state after the wait of a round and the arrival of [w]. *)
Definition woken (w : Wakeup) (st : Server) : Server :=
  match received w with
  | Some request =>
      set_service (set_cmdbuf request (service (errDispThreadMain_wait st)))
                  (errDispThreadMain_wait st)
  | None => errDispThreadMain_wait st
  end.

(** What holds between two rounds: a pending reply is for the session
    held, and every wait so far was in order. *)
Definition server_inv (port : Z) (st : Server) : Prop :=
  serverHandle st = port
  /\ (replyTarget st = 0 \/ replyTarget st = sessionHandle st)
  /\ Forall (wait_ok port) (calls st)
  /\ length (List.filter is_create_port (calls st)) = 1%nat.

(** The same, less the pending reply, for a thread that stopped. *)
Definition outcome_ok (port : Z) (o : Outcome) : Prop :=
  match o with
  | Blocked st => server_inv port st
  | Exited st | Panicked st =>
      Forall (wait_ok port) (calls st)
      /\ length (List.filter is_create_port (calls st)) = 1%nat
  | Starved => True
  end.

(** Sessions accepted and handles closed, counted per handle. *)
Definition sessions_balanced (st : Server) : Prop :=
  forall h, h <> 0 ->
    length (List.filter (accepts h) (calls st))
    = (length (List.filter (closes h) (calls st))
       + (if Z.eqb (sessionHandle st) h then 1 else 0))%nat.

End ServerNotions.

(** ** menu.c: waiting for a key combination *)

(** What [hidKeysHeld] reports after the n-th scan of the pad. *)
Class PadEnv := mkPadEnv {
  hidKeysHeld_ret : nat -> Z
}.

Section Combo.
Context `{PadEnv}.

Definition hidKeysHeld : R Z := getsR (fun s => hidKeysHeld_ret (hidScans s)).

Definition scanHeldKeys : R Z :=
  Draw_Lock ;+
  let+ hid := getsR isHidInitialized in
  let+ exit := getsR menuShouldExit in
  let+ keys := (if negb hid || exit then retR 0
                else hidScanInput ;+
                     let+ held := hidKeysHeld in
                     retR (convertHidKeys held)) in
  Draw_Unlock ;+
  retR keys.

(** The first loop of [waitComboWithTimeout], which waits for the pad to
    be released; it returns the counter [n]. *)
Fixpoint waitComboWithTimeout_release (fuel : nat) (msec n : Z) : R Z :=
  match fuel with
  | O => fun _ => None
  | S fuel' =>
      let+ held := scanHeldKeys in
      let+ exit := getsR menuShouldExit in
      let+ hid := getsR isHidInitialized in
      if negb (held =? 0) && negb exit && hid && ((msec <? 0) || (n <? msec)) then
        svcSleepThread (1 * 1000 * 1000) ;+
        waitComboWithTimeout_release fuel' msec (n + 1)
      else retR n
  end.

(** The [for] loop that counts [i] down from 0x10000: it leaves on the
    first scan that differs from [tempKeys], and sets [keys] in its last
    round. *)
Fixpoint waitComboWithTimeout_for (i : nat) (tempKeys keys : Z) : R Z :=
  match i with
  | O => retR keys
  | S i' =>
      let+ held := scanHeldKeys in
      if negb (tempKeys =? held) then retR keys
      else
        let keys := if Nat.eqb i 1 then tempKeys else keys in
        waitComboWithTimeout_for i' tempKeys keys
  end.

(** The do-while loop; [scanHeldKeys] in its condition is called only
    when [keys] is not zero. *)
Fixpoint waitComboWithTimeout_loop (fuel : nat) (msec n keys : Z) : R Z :=
  match fuel with
  | O => fun _ => None
  | S fuel' =>
      svcSleepThread (1 * 1000 * 1000) ;+
      let n := n + 1 in
      let+ tempKeys := scanHeldKeys in
      let+ keys := waitComboWithTimeout_for (Z.to_nat 0x10000) tempKeys keys in
      let+ pending := (if keys =? 0 then retR true
                       else let+ held := scanHeldKeys in
                            retR (negb (held =? 0))) in
      let+ exit := getsR menuShouldExit in
      let+ hid := getsR isHidInitialized in
      if pending && negb exit && hid && ((msec <? 0) || (n <? msec))
      then waitComboWithTimeout_loop fuel' msec n keys
      else retR keys
  end.

Definition waitComboWithTimeout (fuel : nat) (msec : Z) : R Z :=
  let+ n := waitComboWithTimeout_release fuel msec 0 in
  let+ exit := getsR menuShouldExit in
  let+ hid := getsR isHidInitialized in
  if exit || negb hid || negb ((msec <? 0) || (n <? msec)) then retR 0
  else waitComboWithTimeout_loop fuel msec n 0.

Definition waitCombo (fuel : nat) : R Z := waitComboWithTimeout fuel (-1).

(** The keys [scanHeldKeys] sees after the [n]-th scan. *)
Definition held_keys (n : nat) : Z := convertHidKeys (hidKeysHeld_ret n).

(** Between scans [a] and [b] the pad reported [keys] at 0x10001 scans
    in a row. *)
Definition held_steady (keys : Z) (a b : nat) : Prop :=
  exists j, (a < j)%nat /\ (j + Z.to_nat 0x10000 <= b)%nat
            /\ forall m, (j <= m <= j + Z.to_nat 0x10000)%nat -> held_keys m = keys.

(** The pad is in use: initialised, and the menu is not exiting. *)
Definition pad_live (s : RState) : bool :=
  isHidInitialized s && negb (menuShouldExit s).

End Combo.

(** A pad that is free at the first scan, reports A + B from the second
    scan to scan 0x10002, and is free again afterwards. *)
Definition sample_pad : PadEnv :=
  {| hidKeysHeld_ret := fun n =>
       if Z.of_nat n <? 2 then 0 else if Z.of_nat n <? 0x10003 then 3 else 0 |}.

(** ** The draw lock *)

(** How often the draw lock is held after the events [l], when it was
    held [d] times before them; nothing when an unlock finds it free.
    The lock is recursive. *)
Fixpoint lock_depth (d : nat) (l : list UEvent) : option nat :=
  match l with
  | [] => Some d
  | EvDraw_Lock :: rest => lock_depth (S d) rest
  | EvDraw_Unlock :: rest =>
      match d with
      | O => None
      | S d' => lock_depth d' rest
      end
  | _ :: rest => lock_depth d rest
  end.

(** Whenever [c] returns it has taken the lock from depth [d] to depth
    [d'] without ever releasing a lock that was free. *)
Definition locks_at {A} (d d' : nat) (c : R A) : Prop :=
  forall s a s', c s = Some (a, s') ->
    exists l, utrace s' = utrace s ++ l /\ lock_depth d l = Some d'.

(** ** menu.c: the menu loop *)

(** Menus as menu.c uses them: a menu has a title and an array of items;
    an item has a title, an action type with the submenu or the method
    that goes with it, and an optional visibility callback.  The array
    ends with an item of type [MENU_END].  Callbacks are computations of
    the service.  A menu is taken to be a finite tree: no submenu leads
    back to a menu above it. *)
Inductive Menu : Type :=
| mkMenu (title : string) (items : list MenuItem)
with MenuItem : Type :=
| mkMenuItem (title : string) (action : MenuItemAction) (visibility : option (R bool))
with MenuItemAction : Type :=
| METHOD (method : option (R unit))
| MENU (menu : Menu)
| MENU_END.

Definition menu_title (menu : Menu) : string :=
  match menu with mkMenu title _ => title end.

Definition items (menu : Menu) : list MenuItem :=
  match menu with mkMenu _ items => items end.

Definition action (item : MenuItem) : MenuItemAction :=
  match item with mkMenuItem _ action _ => action end.

Definition visibility (item : MenuItem) : option (R bool) :=
  match item with mkMenuItem _ _ visibility => visibility end.

(** [menu->items[i]]; nothing when [i] is outside the array. *)
Definition item_at (menu : Menu) (i : Z) : option MenuItem :=
  if i <? 0 then None else items menu !! Z.to_nat i.

Definition menuItemIsHidden (item : MenuItem) : R bool :=
  match visibility item with
  | None => retR false
  | Some visible => let+ v := visible in retR (negb v)
  end.

(** The loop of [menuCountItems] from item [n] on; it runs off the array
    when no item is of type [MENU_END]. *)
Fixpoint menuCountItems_from (rest : list MenuItem) (n : Z) : option Z :=
  match rest with
  | [] => None
  | item :: rest' =>
      match action item with
      | MENU_END => Some n
      | _ => menuCountItems_from rest' (n + 1)
      end
  end.

Definition menuCountItems (menu : Menu) : option Z :=
  menuCountItems_from (items menu) 0.

(** The locals of [menuShow]; [previous] holds the entries of
    [previousMenus] and [previousSelectedItems] below [nbPreviousMenus],
    the last one pushed first. *)
Record Nav := mkNav {
  selectedItem : Z;
  currentMenu : Menu;
  previous : list (Menu * Z);
  menuComboReleased : bool
}.

Definition set_selectedItem (pos : Z) (nav : Nav) : Nav :=
  mkNav pos (currentMenu nav) (previous nav) (menuComboReleased nav).

Definition set_menuComboReleased (b : bool) (nav : Nav) : Nav :=
  mkNav (selectedItem nav) (currentMenu nav) (previous nav) b.

(** How a round of the loop can end other than by going on: [Trap] is
    [__builtin_trap()]; [Undefined] is an access outside [items] or
    outside the two arrays of 0x80 entries, or a modulo by zero. *)
Inductive Fault : Set := Trap | Undefined.

Inductive Round : Type :=
| Next (nav : Nav)
| Break
| Stop (fault : Fault).

(** The key masks of libctru, the menu combo, and the functions of
    menu.c and libctru that are not modelled: [menuDraw] formats with
    floats, [menuToggleLEDs] talks to the MCU. *)
Class MenuEnv := mkMenuEnv {
  KEY_A : Z;
  KEY_B : Z;
  KEY_DOWN : Z;
  KEY_UP : Z;
  KEY_SELECT : Z;
  menuCombo : Z;
  menuDraw : Menu -> Z -> R unit;
  menuToggleLEDs : R unit;
  hidSetRepeatParameters : Z -> Z -> R unit
}.

Section MenuShow.
Context `{RosalinaEnv} `{PadEnv} `{MenuEnv}.

(** The branches for KEY_DOWN ([displ] 1) and KEY_UP ([displ] -1). *)
Definition menuShow_move (numItems displ : Z) (nav : Nav) : R Round :=
  match menuAdvanceCursor (selectedItem nav) numItems displ with
  | None => retR (Stop Undefined)
  | Some pos =>
      match item_at (currentMenu nav) pos with
      | None => retR (Stop Undefined)
      | Some item =>
          let+ hidden := menuItemIsHidden item in
          if hidden then
            match menuAdvanceCursor pos numItems displ with
            | None => retR (Stop Undefined)
            | Some pos' => retR (Next (set_selectedItem pos' nav))
            end
          else retR (Next (set_selectedItem pos nav))
      end
  end.

Definition clear_screen : R unit :=
  Draw_Lock ;+ Draw_ClearFramebuffer ;+ Draw_FlushFramebuffer ;+ Draw_Unlock.

(** The chain of tests on [pressed] in the loop of [menuShow]. *)
Definition menuShow_keys (pressed numItems : Z) (nav : Nav) : R Round :=
  if negb (Z.land pressed KEY_A =? 0) then
    clear_screen ;+
    let+ r :=
      match item_at (currentMenu nav) (selectedItem nav) with
      | None => retR (Stop Undefined)
      | Some item =>
          match action item with
          | METHOD method =>
              match method with
              | Some f => f ;+ retR (Next nav)
              | None => retR (Next nav)
              end
          | MENU menu =>
              if 0x80 <=? Z.of_nat (length (previous nav)) then retR (Stop Undefined)
              else retR (Next (mkNav 0 menu
                                 ((currentMenu nav, selectedItem nav) :: previous nav)
                                 (menuComboReleased nav)))
          | MENU_END => retR (Stop Trap)
          end
      end in
    match r with
    | Next _ => clear_screen ;+ retR r
    | _ => retR r
    end
  else if negb (Z.land pressed KEY_B =? 0) then
    clear_screen ;+
    match previous nav with
    | (menu, pos) :: rest => retR (Next (mkNav pos menu rest (menuComboReleased nav)))
    | [] => retR Break
    end
  else if negb (Z.land pressed KEY_DOWN =? 0) then menuShow_move numItems 1 nav
  else if negb (Z.land pressed KEY_UP =? 0) then menuShow_move numItems (-1) nav
  else if negb (Z.land pressed KEY_SELECT =? 0) then menuToggleLEDs ;+ retR (Next nav)
  else retR (Next nav).

(** One round of the do-while loop.  A wait of 1000 ms needs at most 1000
    rounds of its own. *)
Definition menuShow_round (nav : Nav) : R Round :=
  let+ pressed := waitInputWithTimeout 1000 1000 in
  match menuCountItems (currentMenu nav) with
  | None => retR (Stop Undefined)
  | Some numItems =>
      let+ nav :=
        (if negb (menuComboReleased nav) then
           let+ held := scanHeldKeys in
           if negb (Z.land held menuCombo =? menuCombo) then
             Draw_Lock ;+ hidSetRepeatParameters 200 100 ;+ Draw_Unlock ;+
             retR (set_menuComboReleased true nav)
           else retR nav
         else retR nav) in
      let+ r := menuShow_keys pressed numItems nav in
      match r with
      | Next nav' =>
          Draw_Lock ;+ menuDraw (currentMenu nav') (selectedItem nav') ;+ Draw_Unlock ;+
          retR r
      | _ => retR r
      end
  end.

(** The do-while loop; it returns the fault that stopped it, if any. *)
Fixpoint menuShow_loop (fuel : nat) (nav : Nav) : R (option Fault) :=
  match fuel with
  | O => fun _ => None
  | S fuel' =>
      let+ r := menuShow_round nav in
      match r with
      | Next nav' =>
          let+ exit := getsR menuShouldExit in
          if negb exit then menuShow_loop fuel' nav' else retR None
      | Break => retR None
      | Stop fault => retR (Some fault)
      end
  end.

Definition menuShow (fuel : nat) (root : Menu) : R (option Fault) :=
  match menuCountItems root with
  | None => retR (Some Undefined)
  | Some numItems =>
      match item_at root 0 with
      | None => retR (Some Undefined)
      | Some first =>
          let+ hidden := menuItemIsHidden first in
          match (if hidden then menuAdvanceCursor 0 numItems 1 else Some 0) with
          | None => retR (Some Undefined)
          | Some selected =>
              Draw_Lock ;+
              Draw_ClearFramebuffer ;+
              Draw_FlushFramebuffer ;+
              hidSetRepeatParameters 0 0 ;+
              menuDraw root selected ;+
              Draw_Unlock ;+
              menuShow_loop fuel (mkNav selected root [] false)
          end
      end
  end.

End MenuShow.

(** The nesting depth of a menu: 1 without submenus. *)
Fixpoint menu_depth (menu : Menu) : nat :=
  match menu with
  | mkMenu _ items =>
      S ((fix deepest (l : list MenuItem) : nat :=
            match l with
            | [] => O
            | mkMenuItem _ (MENU sub) _ :: rest => Nat.max (menu_depth sub) (deepest rest)
            | _ :: rest => deepest rest
            end) items)
  end.

(** A menu whose array is terminated, with at least one item and fewer
    than 2^31 of them, and whose submenus are all such. *)
Fixpoint menu_ok (menu : Menu) : Prop :=
  match menu with
  | mkMenu _ items =>
      (exists n, menuCountItems_from items 0 = Some n /\ 0 < n < 2 ^ 31)
      /\ (fix each (l : list MenuItem) : Prop :=
            match l with
            | [] => True
            | mkMenuItem _ (MENU sub) _ :: rest => menu_ok sub /\ each rest
            | _ :: rest => each rest
            end) items
  end.

(** The cursor is on an item of menu [menu], which with [below] menus
    stacked under it stays within 0x80 stacked menus however deep one goes. *)
Definition level_ok (menu : Menu) (pos : Z) (below : nat) : Prop :=
  menu_ok menu
  /\ (exists n, menuCountItems menu = Some n /\ 0 <= pos < n)
  /\ (below + menu_depth menu <= 0x81)%nat.

Fixpoint previous_ok (stack : list (Menu * Z)) : Prop :=
  match stack with
  | [] => True
  | (menu, pos) :: rest => level_ok menu pos (length rest) /\ previous_ok rest
  end.

Definition nav_ok (nav : Nav) : Prop :=
  level_ok (currentMenu nav) (selectedItem nav) (length (previous nav))
  /\ previous_ok (previous nav).

(** What a round may end with when nothing went wrong. *)
Definition round_ok (r : Round) : Prop :=
  match r with
  | Next nav => nav_ok nav
  | Break => True
  | Stop _ => False
  end.

(** The key masks of libctru; a combo of L + Down + Select; functions
    that do nothing. *)
Definition sample_menv : MenuEnv :=
  {| KEY_A := 0x1; KEY_B := 0x2; KEY_DOWN := 0x80000080; KEY_UP := 0x40000040;
     KEY_SELECT := 0x4; menuCombo := 0x284;
     menuDraw := fun _ _ => retR tt;
     menuToggleLEDs := retR tt;
     hidSetRepeatParameters := fun _ _ => retR tt |}.

Definition sample_method (label : string) : MenuItem :=
  mkMenuItem label (METHOD None) None.

Definition sample_end : MenuItem := mkMenuItem EmptyString MENU_END None.

(** A root menu with a submenu as its second item. *)
Definition sample_submenu : Menu :=
  mkMenu "Sub" [sample_method "One"; sample_method "Two"; sample_end].

Definition sample_menu : Menu :=
  mkMenu "Root" [sample_method "First"; mkMenuItem "More" (MENU sample_submenu) None;
                 sample_method "Last"; sample_end].

(** The service environment of [sample_renv] with another pad. *)
Definition with_hidKeysDown (keys : nat -> Z) (env : RosalinaEnv) : RosalinaEnv :=
  {| IPC_MakeHeader := @IPC_MakeHeader env;
     R_FAILED := @R_FAILED env;
     ERRF_ERRTYPE_LOGGED := @ERRF_ERRTYPE_LOGGED env;
     sizeof_ERRF_FatalErrInfo := @sizeof_ERRF_FatalErrInfo env;
     info_type := @info_type env;
     info_procId := @info_procId env;
     DIRECTIONAL_KEYS := @DIRECTIONAL_KEYS env;
     FB_BOTTOM_SIZE := @FB_BOTTOM_SIZE env;
     SPACING_Y := @SPACING_Y env;
     hidKeysDown_ret := keys;
     hidKeysDownRepeat_ret := @hidKeysDownRepeat_ret env;
     Draw_AllocateFramebufferCache_ret := @Draw_AllocateFramebufferCache_ret env;
     Draw_DrawString_ret := @Draw_DrawString_ret env |}.

(** Down at the first scan, A at the third, B at the fourth and at the
    fifth. *)
Definition sample_keys (n : nat) : Z :=
  match n with
  | 1%nat => 0x80
  | 3%nat => 0x1
  | 4%nat | 5%nat => 0x2
  | _ => 0
  end.

(** ** errdisp.c: the title of the error screen *)


(** ** errdisp.c: the text of the error screen *)

(** [ERRF_FormatError] as text: what [TErrorText] stands for.  The buffer
    is a list of chars; [sprintf] appends to it. *)
Module ErrText.

(** The chars of a string literal. *)
Definition chars (s : string) : list Z :=
  map (fun a => Z.of_N (Ascii.N_of_ascii a)) (list_ascii_of_string s).

Definition nl : list Z := [10].

(** The conversions of [sprintf] that the function uses.  [%s] prints a C
    string; [%-9s] pads with blanks on the right; [%lu] is decimal; [%08lx]
    and [%016llx] are hexadecimal, padded with zeros on the left.  The
    fuel of [digits] is the number of digits an argument of that type can
    have. *)
Definition fmt_s (s : list Z) : list Z := c_string s.

Definition pad_right (width : nat) (s : list Z) : list Z :=
  s ++ repeat 0x20 (width - length s).

Definition pad_zero (width : nat) (s : list Z) : list Z :=
  repeat 0x30 (width - length s) ++ s.

Definition digit_char (d : Z) : Z :=
  if d <? 10 then 0x30 + d else 0x61 + (d - 10).

Fixpoint digits (base : Z) (fuel : nat) (v : Z) : list Z :=
  match fuel with
  | O => []
  | S fuel' =>
      (if v / base =? 0 then [] else digits base fuel' (v / base))
      ++ [digit_char (v mod base)]
  end.

Definition fmt_lu (v : Z) : list Z := digits 10 10 v.

Definition fmt_08lx (v : Z) : list Z := pad_zero 8 (digits 16 8 v).

Definition fmt_016llx (v : Z) : list Z := pad_zero 16 (digits 16 16 v).

(** The eight bytes of a 64-bit value in memory. *)
Definition u64_bytes (v : Z) : list Z :=
  map (fun k => Z.land (Z.shiftr v (8 * Z.of_nat k)) 0xFF) (seq 0 8).

(** The fields of [ERRF_FatalErrInfo] that the function reads; [regs] is
    the array of words found at [data.exception_data.regs], and
    [failure_mesg] the 0x60 chars of [data.failure_mesg]. *)
Record ERRF_FatalErrInfo := mkERRF_FatalErrInfo {
  type : Z;
  resCode : Z;
  pcAddr : Z;
  procId : Z;
  excep_type : Z;
  excep_fsr : Z;
  excep_far : Z;
  excep_fpexc : Z;
  excep_fpinst : Z;
  excep_fpinst2 : Z;
  regs : list Z;
  failure_mesg : list Z
}.

Inductive Event : Type :=
| EvSvcOpenProcess (processId res processHandle : Z)
| EvSvcGetProcessInfo (processHandle type : Z)
| EvSvcCloseHandle (handle : Z).

(** The enumerations of libctru and the answers of the kernel. *)
Class Env := mkEnv {
  ERRF_ERRTYPE_MEM_CORRUPT : Z;
  ERRF_ERRTYPE_CARD_REMOVED : Z;
  ERRF_ERRTYPE_EXCEPTION : Z;
  ERRF_ERRTYPE_FAILURE : Z;
  ERRF_ERRTYPE_LOGGED : Z;
  ERRF_EXCEPTION_PREFETCH_ABORT : Z;
  ERRF_EXCEPTION_DATA_ABORT : Z;
  ERRF_EXCEPTION_VFP : Z;
  R_SUCCEEDED : Z -> bool;
  (* result and handle *)
  svcOpenProcess_ret : Z -> Z * Z;
  (* the 64-bit value written for this handle and type *)
  svcGetProcessInfo_out : Z -> Z -> Z
}.

Definition types : list string :=
  [ "generic (wow, so useful!)"; "corrupted"; "card removed (why)"; "exception";
    "result failure"; "logged (don't log out haha)"; "invalid" ]%string.

Definition exceptionTypes : list string :=
  [ "prefetch abort"; "data abort"; "undefined instruction"; "VFP"; "invalid" ]%string.

Definition registerNames : list string :=
  [ "r0"; "r1"; "r2"; "r3"; "r4"; "r5"; "r6"; "r7"; "r8"; "r9"; "r10"; "r11"; "r12";
    "sp"; "lr"; "pc"; "cpsr" ]%string.

Definition ERRF_FormatRegisterValue (name : string) (value : Z) : list Z :=
  pad_right 9 (chars name) ++ [0x20] ++ fmt_08lx value.

(** The loop over the registers, two to a line, from index [i] on. *)
Fixpoint ERRF_FormatError_registers (fuel : nat) (i : Z) (regs : list Z) : list Z :=
  match fuel with
  | O => []
  | S fuel' =>
      if i <? 17 then
        ERRF_FormatRegisterValue (nth (Z.to_nat i) registerNames EmptyString)
          (nth (Z.to_nat i) regs 0)
        ++ (if negb (i =? 16) then
              chars "          "
              ++ ERRF_FormatRegisterValue (nth (Z.to_nat (i + 1)) registerNames EmptyString)
                   (if i =? 16 then nth 20 regs 0 else nth (Z.to_nat (i + 1)) regs 0)
              ++ nl
            else [])
        ++ ERRF_FormatError_registers fuel' (i + 2) regs
      else []
  end.

Section Functions.
Context `{Env}.

(** The text written to [out] and the calls made; the value returned is
    the length of the text. *)
Definition ERRF_FormatError (info : ERRF_FatalErrInfo) : list Z * list Event :=
  let type_name :=
    if ERRF_ERRTYPE_LOGGED <? type info then nth 6 types EmptyString
    else nth (Z.to_nat (type info)) types EmptyString in
  let out1 :=
    if type info =? ERRF_ERRTYPE_EXCEPTION then
      let exceptionType :=
        if ERRF_EXCEPTION_VFP <? excep_type info then nth 4 exceptionTypes EmptyString
        else nth (Z.to_nat (excep_type info)) exceptionTypes EmptyString in
      chars "Error type:       exception (" ++ chars exceptionType ++ chars ")" ++ nl
    else
      chars "Error type:       " ++ chars type_name ++ nl in
  let '(out2, calls) :=
    if negb (type info =? ERRF_ERRTYPE_CARD_REMOVED) then
      let processId := nl ++ chars "Process ID:       " ++ fmt_lu (procId info) ++ nl in
      let '(res, processHandle) := svcOpenProcess_ret (procId info) in
      if R_SUCCEEDED res then
        let name := u64_bytes (svcGetProcessInfo_out processHandle 0x10000) ++ [0] in
        let titleId := svcGetProcessInfo_out processHandle 0x10001 mod 2 ^ 64 in
        (processId
         ++ chars "Process name:     " ++ fmt_s name ++ nl
         ++ chars "Process title ID: 0x" ++ fmt_016llx titleId ++ nl
         ++ nl,
         [ EvSvcOpenProcess (procId info) res processHandle;
           EvSvcGetProcessInfo processHandle 0x10000;
           EvSvcGetProcessInfo processHandle 0x10001;
           EvSvcCloseHandle processHandle ])
      else
        (processId ++ nl, [EvSvcOpenProcess (procId info) res processHandle])
    else ([], []) in
  let out3 :=
    if type info =? ERRF_ERRTYPE_EXCEPTION then
      ERRF_FormatError_registers 9 0 (regs info)
      ++ (if (excep_type info =? ERRF_EXCEPTION_PREFETCH_ABORT)
             || (excep_type info =? ERRF_EXCEPTION_DATA_ABORT) then
            chars "          "
            ++ ERRF_FormatRegisterValue "far" (excep_far info) ++ nl
            ++ ERRF_FormatRegisterValue "fsr" (excep_fsr info)
          else if excep_type info =? ERRF_EXCEPTION_VFP then
            chars "          "
            ++ ERRF_FormatRegisterValue "fpexc" (excep_fpexc info) ++ nl
            ++ ERRF_FormatRegisterValue "fpinst" (excep_fpinst info)
            ++ chars "          "
            ++ ERRF_FormatRegisterValue "fpinst2" (excep_fpinst2 info) ++ nl
          else [])
      ++ nl
    else if negb (type info =? ERRF_ERRTYPE_CARD_REMOVED) then
      (if negb (type info =? ERRF_ERRTYPE_FAILURE) then
         chars "Address:          0x" ++ fmt_08lx (pcAddr info) ++ nl
       else [])
      ++ chars "Error code:       0x" ++ fmt_08lx (resCode info) ++ nl
    else [] in
  let desc :=
    if type info =? ERRF_ERRTYPE_CARD_REMOVED then
      chars "The card was removed or the app is corrupted."
    else if type info =? ERRF_ERRTYPE_MEM_CORRUPT then
      chars "The System Memory has been damaged (how)."
    else if type info =? ERRF_ERRTYPE_FAILURE then
      <[0x5F%nat := 0]> (failure_mesg info)
    else [] in
  let out4 := if negb (nth 0 desc 0 =? 0) then nl ++ fmt_s desc ++ nl else [] in
  (out1 ++ out2 ++ out3 ++ out4 ++ nl, calls).

End Functions.

(** libctru's values; process 7 is "menu" with title 0004003000008f02. *)
Definition sample_env : Env :=
  {| ERRF_ERRTYPE_MEM_CORRUPT := 1;
     ERRF_ERRTYPE_CARD_REMOVED := 2;
     ERRF_ERRTYPE_EXCEPTION := 3;
     ERRF_ERRTYPE_FAILURE := 4;
     ERRF_ERRTYPE_LOGGED := 5;
     ERRF_EXCEPTION_PREFETCH_ABORT := 0;
     ERRF_EXCEPTION_DATA_ABORT := 1;
     ERRF_EXCEPTION_VFP := 3;
     R_SUCCEEDED := fun res => res <? 0x80000000;
     svcOpenProcess_ret := fun processId =>
       if processId =? 7 then (0, 0x20) else (0xD9001818, 0);
     svcGetProcessInfo_out := fun _ type =>
       if type =? 0x10000 then 0x756E656D else 0x0004003000008F02 |}.

(** A failed result of process 7, with the message "Hi". *)
Definition sample_failure : ERRF_FatalErrInfo :=
  {| type := 4; resCode := 0xC8804478; pcAddr := 0x00100000; procId := 7;
     excep_type := 0; excep_fsr := 0; excep_far := 0; excep_fpexc := 0;
     excep_fpinst := 0; excep_fpinst2 := 0; regs := [];
     failure_mesg := [0x48; 0x69] ++ repeat 0 0x5E |}.

Definition is_open (e : Event) : bool :=
  match e with EvSvcOpenProcess _ _ _ => true | _ => false end.

Definition is_close (e : Event) : bool :=
  match e with EvSvcCloseHandle _ => true | _ => false end.

End ErrText.

(** * Properties *)

(** ** Bytes, words and the call identifier *)

Lemma load_u8_range m a : 0 <= load_u8 m a <= 0xFF.
Proof.
  unfold load_u8. change 0xFF with (Z.ones 8). rewrite Z.land_ones by lia.
  pose proof (Z.mod_pos_bound (m a) (2 ^ 8) eq_refl) as Hb.
  change (Z.ones 8) with 255. change (2 ^ 8) with 256 in *. lia.
Qed.

Lemma load_u32_nonneg m a : 0 <= load_u32 m a.
Proof.
  unfold load_u32.
  pose proof (load_u8_range m a). pose proof (load_u8_range m (a + 1)).
  pose proof (load_u8_range m (a + 2)). pose proof (load_u8_range m (a + 3)).
  repeat (apply Z.lor_nonneg; split); try apply Z.shiftl_nonneg; lia.
Qed.

Lemma svcHook_svcId_nonneg pageEnd s : 0 <= svcHook_svcId pageEnd s.
Proof.
  unfold svcHook_svcId. pose proof (load_u8_range (mem s) (pageEnd - 0xB5)).
  pose proof (load_u32_nonneg (mem s) (pageEnd - 0x110 + 8 * 4)).
  destruct (_ =? _); lia.
Qed.

(** Case analysis on a positive constant, [n] bits deep: enough to reach
    every leaf of a [match] on byte-sized literals. *)
Ltac pos_cases p n :=
  lazymatch n with
  | O => idtac
  | S ?m => destruct p as [p|p|]; [pos_cases p m | pos_cases p m | idtac]
  end.

(** ** Bit masks *)

Lemma land_lnot_clears f m : Z.land (Z.land f (Z.lnot m)) m = 0.
Proof.
  rewrite <- Z.land_assoc, (Z.land_comm (Z.lnot m)), Z.land_lnot_diag.
  apply Z.land_0_r.
Qed.

Lemma land_lnot_testbit f m n :
  Z.testbit m n = false ->
  Z.testbit (Z.land f (Z.lnot m)) n = Z.testbit f n.
Proof.
  intros Hm. destruct (Z.neg_nonneg_cases n) as [Hn | Hn].
  - now rewrite !Z.testbit_neg_r.
  - rewrite Z.land_spec, Z.lnot_spec, Hm by assumption. apply andb_true_r.
Qed.

Lemma land_lnot_disjoint f m a :
  Z.land a m = 0 -> Z.land (Z.land f (Z.lnot m)) a = Z.land f a.
Proof.
  intros Hd. apply Z.bits_inj'. intros n Hn.
  assert (Hb : Z.testbit a n && Z.testbit m n = false)
    by (rewrite <- Z.land_spec, Hd; apply Z.bits_0).
  rewrite !Z.land_spec, Z.lnot_spec by assumption.
  destruct (Z.testbit f n), (Z.testbit a n), (Z.testbit m n); auto.
Qed.

(** ** The pass over the thread list *)

Lemma unlockThreads_map c l : unlockThreads c l = map (unlockThread c) l.
Proof. induction l as [|t l IH]; [reflexivity|]. cbn [unlockThreads map]. now rewrite IH. Qed.

Lemma unlockThread_owner c t : ownerProcess (unlockThread c t) = ownerProcess t.
Proof. unfold unlockThread. now destruct (_ && _). Qed.

Lemma unlockThread_released c t :
  ownerProcess t = c -> Z.land (schedulingMask (unlockThread c t)) 0x20 = 0.
Proof.
  intros Ho. unfold unlockThread. rewrite (proj2 (Z.eqb_eq _ _) Ho). cbn [andb].
  destruct (Z.eqb_spec (Z.land (schedulingMask t) 0x20) 0) as [E|E]; cbn [negb].
  - exact E.
  - cbn [schedulingMask]. apply land_lnot_clears.
Qed.

Lemma unlockThread_other c t : ownerProcess t <> c -> unlockThread c t = t.
Proof.
  intros Ho. unfold unlockThread. now rewrite (proj2 (Z.eqb_neq _ _) Ho).
Qed.

Lemma unlockThread_bits c t n :
  n <> 5 ->
  Z.testbit (schedulingMask (unlockThread c t)) n = Z.testbit (schedulingMask t) n.
Proof.
  intros Hn. unfold unlockThread. destruct (_ && _); [|reflexivity].
  cbn [schedulingMask]. apply land_lnot_testbit.
  change 0x20 with (2 ^ 5). apply Z.pow2_bits_false. congruence.
Qed.

Lemma unlockThread_idem c t : unlockThread c (unlockThread c t) = unlockThread c t.
Proof.
  destruct (Z.eq_dec (ownerProcess t) c) as [Ho|Ho].
  - unfold unlockThread at 1.
    rewrite unlockThread_owner, (proj2 (Z.eqb_eq _ _) Ho).
    now rewrite (unlockThread_released c t Ho).
  - now rewrite !(unlockThread_other c t Ho).
Qed.

Lemma unlockThreads_idem c l : unlockThreads c (unlockThreads c l) = unlockThreads c l.
Proof.
  rewrite !unlockThreads_map, map_map. apply map_ext. intros t. apply unlockThread_idem.
Qed.

Lemma unlockThreads_lookup c (l : list KThread) (i : nat) :
  unlockThreads c l !! i = unlockThread c <$> l !! i.
Proof. rewrite unlockThreads_map. apply list_lookup_fmap. Qed.

Section KernelProps.
Context `{KernelEnv}.

(** Away from call 0x03 the [switch] is the table and the state is kept. *)
Lemma svcHook_other pageEnd s :
  svcHook_svcId pageEnd s <> 3 ->
  svcHook pageEnd s
  = (resolve (svcHook_svcId pageEnd s) (officialSVCs s) (attached s), s).
Proof.
  intros Hne. unfold svcHook, bind, gets, get_currentProcess, attached, debugOfProcess.
  pose proof (svcHook_svcId_nonneg pageEnd s) as Hz.
  generalize dependent (svcHook_svcId pageEnd s). intros z Hne Hz.
  destruct (debug (currentProcessObj s)) as [d|] eqn:Hdbg;
    (destruct z as [|p|p]; [reflexivity| |lia];
     pos_cases p 9%nat;
     first [ reflexivity
           | exfalso; apply Hne; reflexivity
           | cbn; rewrite Hdbg; reflexivity ]).
Qed.

(** Call 0x03: the stock handler, after the release of the threads when
    the process asked for it. *)
Lemma svcHook_exit pageEnd s :
  svcHook_svcId pageEnd s = 3 ->
  svcHook pageEnd s
  = (nth 3 (officialSVCs s) NULL,
     if negb (Z.land (customFlags (currentProcessObj s)) SignalOnExit =? 0)
     then
       let s1 := if PLG_GetStatus_ret s =? PLG_CFG_RUNNING
                 then set_trace (trace s ++ [EvPLG_SignalEvent PLG_CFG_EXIT_EVENT]) s
                 else s in
       set_trace (trace s1 ++ [EvKRecursiveLock__Lock] ++ [EvKRecursiveLock__Unlock])
                 (set_threadList (unlockThreads (currentProcess s) (threadList s1)) s1)
     else s).
Proof.
  intros Hid. unfold svcHook, bind, gets, get_currentProcess. rewrite Hid.
  cbn -[Z.land Z.eqb unlockThreads app].
  destruct (negb _); [|reflexivity].
  unfold PLG_GetStatus. destruct (_ =? PLG_CFG_RUNNING); cbn.
  - unfold set_trace, set_threadList. cbn. now rewrite <- !app_assoc.
  - unfold set_trace, set_threadList. cbn. now rewrite <- !app_assoc.
Qed.

Lemma svcHook_fst pageEnd s :
  fst (svcHook pageEnd s)
  = resolve (svcHook_svcId pageEnd s) (officialSVCs s) (attached s).
Proof.
  destruct (Z.eq_dec (svcHook_svcId pageEnd s) 3) as [Hid|Hid].
  - rewrite (svcHook_exit _ _ Hid), Hid. reflexivity.
  - now rewrite (svcHook_other _ _ Hid).
Qed.

Lemma resolve_cases id table att :
  (id <= 0x7D ->
   (exists f, resolve id table att = FnPtr f)
   \/ resolve id table att = nth (Z.to_nat id) table NULL)
  /\ (0x7D < id -> In id custom_svc_ids -> exists f, resolve id table att = FnPtr f)
  /\ (0x7D < id -> ~ In id custom_svc_ids -> resolve id table att = NULL).
Proof.
  unfold resolve, dispatch_table, custom_svc_ids. cbn [assoc In].
  repeat match goal with
         | |- context [id =? ?k] => destruct (Z.eqb_spec id k) as [->|?]
         end.
  all: split; [intros Hle | split; [intros Hgt Hin | intros Hgt Hnin]].
  all: try lia.
  all: try (left; eexists; reflexivity).
  all: try (eexists; reflexivity).
  all: try (exfalso; apply Hnin; tauto).
  all: try (destruct att; [right; reflexivity | left; eexists; reflexivity]).
  all: try (rewrite (proj2 (Z.leb_le _ _) Hle); now right).
  all: try (now rewrite (proj2 (Z.leb_gt _ _) Hgt)).
Qed.

Lemma new_events_app s s' l : trace s' = trace s ++ l -> new_events s s' = l.
Proof. intros E. unfold new_events. rewrite E. apply drop_app_length. Qed.

Lemma new_events_set_trace s s0 l : new_events s (set_trace (trace s ++ l) s0) = l.
Proof. now apply new_events_app. Qed.

Lemma set_trace_same s : set_trace (trace s) s = s.
Proof. now destruct s. Qed.

End KernelProps.

(** ** The hook resolver *)

(** C1, as stated, fails: call identifier 0x80 lies above the supported
    range 0..0x7D and [svcHook] answers it with [CustomBackdoor], not with
    the null pointer. *)
Lemma svcHook_above_range_not_null :
  let s := sample_state 0 0 None (frame_mem 0x1000 0x80 0) in
  0x7D < @svcHook_svcId 0x1000 s
  /\ fst (@svcHook sample_env 0x1000 s) = FnPtr Fn.CustomBackdoor
  /\ fst (@svcHook sample_env 0x1000 s) <> NULL.
Proof. cbv zeta. split; [reflexivity|]. split; [reflexivity|]. discriminate. Qed.

(** C1, amended: for a call identifier in 0..0x7D [svcHook] returns one of
    the extension's functions or the entry of [officialSVCs] for that
    identifier; above 0x7D it returns one of the extension's functions for
    the identifiers of [custom_svc_ids] (0x80, 0x90-0x94, 0xA0-0xA3,
    0xB0-0xB3) and the null pointer for every other identifier. *)
Theorem svcHook_resolution `{KernelEnv} (pageEnd : Z) (s : KState) :
  (svcHook_svcId pageEnd s <= 0x7D ->
   (exists f, fst (svcHook pageEnd s) = FnPtr f)
   \/ fst (svcHook pageEnd s)
      = nth (Z.to_nat (svcHook_svcId pageEnd s)) (officialSVCs s) NULL)
  /\ (0x7D < svcHook_svcId pageEnd s ->
      In (svcHook_svcId pageEnd s) custom_svc_ids ->
      exists f, fst (svcHook pageEnd s) = FnPtr f)
  /\ (0x7D < svcHook_svcId pageEnd s ->
      ~ In (svcHook_svcId pageEnd s) custom_svc_ids ->
      fst (svcHook pageEnd s) = NULL).
Proof. rewrite svcHook_fst. apply resolve_cases. Qed.

(** Call 0x32 is replaced; the escaped identifier 0x7E has no handler. *)
Lemma svcHook_resolution_witness :
  (fst (@svcHook sample_env 0x1000
          (sample_state 0 0 None (frame_mem 0x1000 0x32 0)))
   = FnPtr Fn.SendSyncRequestHook)
  /\ fst (@svcHook sample_env 0x1000
            (sample_state 0 0 None (frame_mem 0x1000 0xFE 0x7E)))
     = NULL.
Proof.
  split; [reflexivity|].
  apply (proj2 (proj2 (@svcHook_resolution sample_env 0x1000
                         (sample_state 0 0 None (frame_mem 0x1000 0xFE 0x7E))))).
  - reflexivity.
  - vm_compute. intuition discriminate.
Defined.

(** ** Entry and return hooks *)

Lemma signalSvcEntry_run `{KernelEnv} pageEnd s :
  signalSvcEntry pageEnd s
  = (tt, set_trace
           (trace s ++
            if attached s
               && shouldSignalSyscallDebugEvent_ret s (currentProcess s)
                    (signalSvcEntry_svcId pageEnd s)
            then [EvSignalDebugEvent DBGEVENT_OUTPUT_STRING 0xFFFFFFFE
                    (signalSvcEntry_svcId pageEnd s)]
            else []) s).
Proof.
  unfold signalSvcEntry, bind, gets, get_currentProcess, debugOfProcess, attached.
  destruct (debug (currentProcessObj s)); cbn [andb].
  - unfold shouldSignalSyscallDebugEvent. destruct (shouldSignalSyscallDebugEvent_ret _ _ _).
    + reflexivity.
    + cbn. now rewrite app_nil_r, set_trace_same.
  - cbn. now rewrite app_nil_r, set_trace_same.
Qed.

Lemma signalSvcReturn_run `{KernelEnv} pageEnd s :
  signalSvcReturn pageEnd s
  = (tt,
     let flags := customFlags (currentProcessObj s) in
     let dbg :=
       if attached s
          && shouldSignalSyscallDebugEvent_ret s (currentProcess s)
               (signalSvcReturn_svcId pageEnd s)
       then [EvSignalDebugEvent DBGEVENT_OUTPUT_STRING 0xFFFFFFFF
               (signalSvcReturn_svcId pageEnd s)]
       else [] in
     if negb (Z.land flags SignalOnMemLayoutChanges =? 0)
        && negb (Z.land flags MemLayoutChanged =? 0)
     then set_trace
            (trace s ++ dbg
             ++ [EvSignalEvent (onMemoryLayoutChangeEvent (currentProcessObj s))])
            (set_customFlags (Z.land flags (Z.lnot MemLayoutChanged)) s)
     else set_trace (trace s ++ dbg) s).
Proof.
  unfold signalSvcReturn, signalSvcReturn_svcId, bind, gets, get_currentProcess,
    get_customFlags, debugOfProcess, attached, shouldSignalSyscallDebugEvent,
    set_trace, set_customFlags, SignalDebugEvent, SignalEvent, put_customFlags,
    get_onMemoryLayoutChangeEvent, when, emit, set_trace, ret.
  destruct s as [kv tbl cp [fl [d|] ev] tl m tr]; cbn -[Z.land Z.lnot Z.eqb load_u8 load_u32];
    [destruct (shouldSignalSyscallDebugEvent_ret _ _ _)|];
    cbn -[Z.land Z.lnot Z.eqb load_u8 load_u32]; destruct (_ && _);
    cbn -[Z.land Z.lnot Z.eqb load_u8 load_u32];
    rewrite <- ?app_assoc, ?app_nil_r; reflexivity.
Qed.

(** C2: from the same stack frame [signalSvcEntry] and [signalSvcReturn]
    derive the same call identifier: the byte at [pageEnd - 0xB5], or, when
    that byte is the escape value 0xFE, the word saved for r12 at
    [pageEnd - 0xF0]; and the debug events the two hooks raise carry the
    same identifiers. *)
Theorem entry_return_same_svcId `{KernelEnv} (pageEnd : Z) (s : KState) :
  signalSvcEntry_svcId pageEnd s = signalSvcReturn_svcId pageEnd s
  /\ signalSvcReturn_svcId pageEnd s
     = (if load_u8 (mem s) (pageEnd - 0xB5) =? 0xFE
        then load_u32 (mem s) (pageEnd - 0xF0)
        else load_u8 (mem s) (pageEnd - 0xB5))
  /\ debug_event_ids (new_events s (snd (signalSvcEntry pageEnd s)))
     = debug_event_ids (new_events s (snd (signalSvcReturn pageEnd s))).
Proof.
  split; [reflexivity|]. split.
  - unfold signalSvcReturn_svcId. cbv zeta.
    replace (pageEnd - 0x110 + 8 * 4) with (pageEnd - 0xF0) by lia. reflexivity.
  - rewrite signalSvcEntry_run, signalSvcReturn_run. cbn [snd]. cbv zeta.
    change (signalSvcReturn_svcId pageEnd s) with (signalSvcEntry_svcId pageEnd s).
    rewrite new_events_set_trace.
    destruct (negb _ && negb _); rewrite new_events_set_trace;
      now destruct (_ && _).
Qed.

Example direct_path_id :
  let s := sample_state 0 0 (Some 1) (frame_mem 0x1000 0x32 0xABCD) in
  signalSvcEntry_svcId 0x1000 s = 0x32
  /\ signalSvcReturn_svcId 0x1000 s = 0x32
  /\ new_events s (snd (@signalSvcEntry sample_env 0x1000 s))
     = [EvSignalDebugEvent 11 0xFFFFFFFE 0x32]
  /\ new_events s (snd (@signalSvcReturn sample_env 0x1000 s))
     = [EvSignalDebugEvent 11 0xFFFFFFFF 0x32].
Proof. repeat split. Qed.

Example escape_path_id :
  let s := sample_state 0 0 (Some 1) (frame_mem 0x1000 0xFE 0x12345) in
  signalSvcEntry_svcId 0x1000 s = 0x12345
  /\ signalSvcReturn_svcId 0x1000 s = 0x12345
  /\ new_events s (snd (@signalSvcEntry sample_env 0x1000 s))
     = [EvSignalDebugEvent 11 0xFFFFFFFE 0x12345]
  /\ new_events s (snd (@signalSvcReturn sample_env 0x1000 s))
     = [EvSignalDebugEvent 11 0xFFFFFFFF 0x12345].
Proof. repeat split. Qed.

(** ** The extended unmap *)

(** C3: on a kernel whose minor version is below 37, [UnmapProcessMemoryEx]
    gives the result and the final state of the legacy
    [UnmapProcessMemory] called with the same handle, address and size,
    whatever the size, hence in particular up to the legacy maximum. *)
Theorem UnmapProcessMemoryEx_legacy `{KernelEnv}
    (processHandle dst size : Z) (s : KState) :
  GET_VERSION_MINOR (kernelVersion s) < 37 ->
  UnmapProcessMemoryEx processHandle dst size s
  = UnmapProcessMemory processHandle dst size s.
Proof.
  intros Hv. unfold UnmapProcessMemoryEx, bind, gets, get_currentProcess.
  now rewrite (proj2 (Z.ltb_lt _ _) Hv).
Qed.

(** Kernel 2.36, 64 MiB: the extended call is the legacy call. *)
Lemma UnmapProcessMemoryEx_legacy_witness :
  let s := sample_state 0x02240000 0 None (frame_mem 0 0 0) in
  @UnmapProcessMemoryEx sample_env 0x10 0x100000 0x4000000 s
  = @UnmapProcessMemory sample_env 0x10 0x100000 0x4000000 s.
Proof.
  apply (@UnmapProcessMemoryEx_legacy sample_env). vm_compute. reflexivity.
Defined.

(** What [UnmapProcessMemoryEx] does past the version gate. *)
Lemma UnmapProcessMemoryEx_current `{KernelEnv} processHandle dst size s :
  37 <= GET_VERSION_MINOR (kernelVersion s) ->
  processHandle = CUR_PROCESS_HANDLE ->
  let p := currentProcess s in
  let s1 := set_trace (trace s ++ [EvKAutoObject__AddReference p]) s in
  let res := KProcessHwInfo__UnmapProcessMemory_ret s1 p dst (Z.shiftr size 12) in
  UnmapProcessMemoryEx processHandle dst size s
  = (res,
     set_trace
       (trace s ++
        [EvKAutoObject__AddReference p;
         EvKProcessHwInfo__UnmapProcessMemory p dst (Z.shiftr size 12) res;
         EvDecrementReferenceCount p;
         EvInvalidateEntireInstructionCache;
         EvFlushEntireDataCache]) s).
Proof.
  intros Hv Hh. cbv zeta.
  unfold UnmapProcessMemoryEx, bind, gets, get_currentProcess.
  rewrite (proj2 (Z.ltb_ge _ _) Hv), (proj2 (Z.eqb_eq _ _) Hh).
  unfold KAutoObject__AddReference, KProcessHwInfo__UnmapProcessMemory,
    DecrementReferenceCount, invalidateEntireInstructionCache,
    flushEntireDataCache, emit, ret, set_trace.
  cbn -[Z.shiftr]. now rewrite <- !app_assoc.
Qed.

Lemma UnmapProcessMemoryEx_found `{KernelEnv} processHandle dst size s p :
  37 <= GET_VERSION_MINOR (kernelVersion s) ->
  processHandle <> CUR_PROCESS_HANDLE ->
  KProcessHandleTable__ToKProcess_ret s (currentProcess s) processHandle = Some p ->
  let lookup :=
    EvKProcessHandleTable__ToKProcess (currentProcess s) processHandle (Some p) in
  let s1 := set_trace (trace s ++ [lookup]) s in
  let res := KProcessHwInfo__UnmapProcessMemory_ret s1 p dst (Z.shiftr size 12) in
  UnmapProcessMemoryEx processHandle dst size s
  = (res,
     set_trace
       (trace s ++
        [lookup;
         EvKProcessHwInfo__UnmapProcessMemory p dst (Z.shiftr size 12) res;
         EvDecrementReferenceCount p;
         EvInvalidateEntireInstructionCache;
         EvFlushEntireDataCache]) s).
Proof.
  intros Hv Hh Hp. cbv zeta.
  unfold UnmapProcessMemoryEx, bind, gets, get_currentProcess.
  rewrite (proj2 (Z.ltb_ge _ _) Hv), (proj2 (Z.eqb_neq _ _) Hh).
  unfold KProcessHandleTable__ToKProcess. rewrite Hp.
  unfold KProcessHwInfo__UnmapProcessMemory,
    DecrementReferenceCount, invalidateEntireInstructionCache,
    flushEntireDataCache, emit, ret, set_trace.
  cbn -[Z.shiftr]. now rewrite <- !app_assoc.
Qed.

Lemma UnmapProcessMemoryEx_not_found `{KernelEnv} processHandle dst size s :
  37 <= GET_VERSION_MINOR (kernelVersion s) ->
  processHandle <> CUR_PROCESS_HANDLE ->
  KProcessHandleTable__ToKProcess_ret s (currentProcess s) processHandle = None ->
  UnmapProcessMemoryEx processHandle dst size s
  = (0xD8E007F7,
     set_trace
       (trace s ++
        [EvKProcessHandleTable__ToKProcess (currentProcess s) processHandle None])
       s).
Proof.
  intros Hv Hh Hp.
  unfold UnmapProcessMemoryEx, bind, gets, get_currentProcess.
  rewrite (proj2 (Z.ltb_ge _ _) Hv), (proj2 (Z.eqb_neq _ _) Hh).
  unfold KProcessHandleTable__ToKProcess. now rewrite Hp.
Qed.

(** C7, as stated, fails: with kernel minor version 44 and a handle the
    table does not know, [UnmapProcessMemoryEx] runs and returns without
    any cache maintenance; with kernel minor version 36 it hands the unmap
    to the legacy call and returns, again without cache maintenance of its
    own. *)
Lemma UnmapProcessMemoryEx_no_cache_maintenance :
  let s := sample_state 0x022C0000 0 None (frame_mem 0 0 0) in
  let r := @UnmapProcessMemoryEx sample_env 0x20 0x100000 0x1000 s in
  let s_old := sample_state 0x02240000 0 None (frame_mem 0 0 0) in
  let r_old := @UnmapProcessMemoryEx sample_env 0x10 0x100000 0x1000 s_old in
  fst r = 0xD8E007F7
  /\ List.filter is_cache_maintenance (new_events s (snd r)) = []
  /\ new_events s_old (snd r_old) = [EvUnmapProcessMemory 0x10 0x100000 0x1000 0]
  /\ List.filter is_cache_maintenance (new_events s_old (snd r_old)) = [].
Proof. repeat split. Qed.

(** C7, amended: when the kernel minor version is at least 37 and the
    handle resolves to a process, [UnmapProcessMemoryEx] makes exactly five
    calls, in this order: the one that takes the reference, the page-table
    unmap, the release of the reference, the invalidation of the
    instruction cache and the flush of the data cache; it then returns the
    result of the unmap, whatever that result is. *)
Theorem UnmapProcessMemoryEx_cache_maintenance `{KernelEnv}
    (processHandle dst size : Z) (s : KState) (p : Z) :
  37 <= GET_VERSION_MINOR (kernelVersion s) ->
  resolved_process s processHandle = Some p ->
  let r := UnmapProcessMemoryEx processHandle dst size s in
  exists acquire,
    acquires p acquire = true
    /\ new_events s (snd r)
       = [acquire;
          EvKProcessHwInfo__UnmapProcessMemory p dst (Z.shiftr size 12) (fst r);
          EvDecrementReferenceCount p;
          EvInvalidateEntireInstructionCache;
          EvFlushEntireDataCache].
Proof.
  intros Hv Hp. cbv zeta. unfold resolved_process in Hp.
  destruct (Z.eqb_spec processHandle CUR_PROCESS_HANDLE) as [Hh|Hh].
  - injection Hp as <-.
    rewrite (UnmapProcessMemoryEx_current _ _ _ _ Hv Hh). cbn [fst snd].
    eexists. split; [|apply new_events_set_trace].
    cbn. apply Z.eqb_refl.
  - rewrite (UnmapProcessMemoryEx_found _ _ _ _ _ Hv Hh Hp). cbn [fst snd].
    eexists. split; [|apply new_events_set_trace].
    cbn. apply Z.eqb_refl.
Qed.

(** Kernel 2.44, the handle of the current process, three pages. *)
Lemma UnmapProcessMemoryEx_cache_maintenance_witness :
  let s := sample_state 0x022C0000 0 None (frame_mem 0 0 0) in
  let r := @UnmapProcessMemoryEx sample_env 0xFFFF8001 0x100000 0x3000 s in
  exists acquire,
    acquires 0xFFF70000 acquire = true
    /\ new_events s (snd r)
       = [acquire;
          EvKProcessHwInfo__UnmapProcessMemory 0xFFF70000 0x100000 3 (fst r);
          EvDecrementReferenceCount 0xFFF70000;
          EvInvalidateEntireInstructionCache;
          EvFlushEntireDataCache].
Proof.
  apply (@UnmapProcessMemoryEx_cache_maintenance sample_env
           0xFFFF8001 0x100000 0x3000
           (sample_state 0x022C0000 0 None (frame_mem 0 0 0)) 0xFFF70000).
  - vm_compute. discriminate.
  - reflexivity.
Defined.

(** C8: when the kernel minor version is at least 37 and the handle
    resolves to no process, [UnmapProcessMemoryEx] returns 0xD8E007F7; its
    only call is the failed lookup, so it unmaps nothing, holds no
    reference it would have to release, and leaves every kernel object as
    it was. *)
Theorem UnmapProcessMemoryEx_invalid_handle `{KernelEnv}
    (processHandle dst size : Z) (s : KState) :
  37 <= GET_VERSION_MINOR (kernelVersion s) ->
  resolved_process s processHandle = None ->
  let r := UnmapProcessMemoryEx processHandle dst size s in
  fst r = 0xD8E007F7
  /\ new_events s (snd r)
     = [EvKProcessHandleTable__ToKProcess (currentProcess s) processHandle None]
  /\ List.filter is_unmap (new_events s (snd r)) = []
  /\ (forall p,
        length (List.filter (acquires p) (new_events s (snd r)))
        = length (List.filter (releases p) (new_events s (snd r))))
  /\ set_trace (trace s) (snd r) = s.
Proof.
  intros Hv Hp. cbv zeta. unfold resolved_process in Hp.
  destruct (Z.eqb_spec processHandle CUR_PROCESS_HANDLE) as [Hh|Hh]; [discriminate|].
  rewrite (UnmapProcessMemoryEx_not_found _ _ _ _ Hv Hh Hp). cbn [fst snd].
  rewrite new_events_set_trace. repeat split.
  now destruct s.
Qed.

(** Kernel 2.44, a handle the table does not know. *)
Lemma UnmapProcessMemoryEx_invalid_handle_witness :
  let s := sample_state 0x022C0000 0 None (frame_mem 0 0 0) in
  let r := @UnmapProcessMemoryEx sample_env 0x20 0x100000 0x3000 s in
  fst r = 0xD8E007F7
  /\ new_events s (snd r) = [EvKProcessHandleTable__ToKProcess 0xFFF70000 0x20 None]
  /\ List.filter is_unmap (new_events s (snd r)) = []
  /\ (forall p,
        length (List.filter (acquires p) (new_events s (snd r)))
        = length (List.filter (releases p) (new_events s (snd r))))
  /\ set_trace (trace s) (snd r) = s.
Proof.
  apply (@UnmapProcessMemoryEx_invalid_handle sample_env 0x20 0x100000 0x3000
           (sample_state 0x022C0000 0 None (frame_mem 0 0 0))).
  - vm_compute. discriminate.
  - reflexivity.
Defined.

(** ** Process termination *)

(** The state [svcHook] leaves for a termination call of a process that
    asked to be signalled on exit. *)
Lemma svcHook_exit_state `{KernelEnv} pageEnd s :
  svcHook_svcId pageEnd s = 0x03 ->
  Z.land (customFlags (currentProcessObj s)) SignalOnExit <> 0 ->
  let s' := snd (svcHook pageEnd s) in
  threadList s' = unlockThreads (currentProcess s) (threadList s)
  /\ currentProcess s' = currentProcess s
  /\ currentProcessObj s' = currentProcessObj s
  /\ mem s' = mem s
  /\ officialSVCs s' = officialSVCs s
  /\ kernelVersion s' = kernelVersion s.
Proof.
  intros Hid Hf. cbv zeta. rewrite (svcHook_exit _ _ Hid). cbn [snd].
  rewrite (proj2 (Z.eqb_neq _ _) Hf). cbn [negb].
  destruct (_ =? PLG_CFG_RUNNING); repeat split.
Qed.

(** C4: when the current process has "signal on exit" among its custom
    flags and issues call 0x03, then after [svcHook] no thread of the list
    owned by that process has bit 0x20 of its scheduling mask set; the
    list keeps its length and order, threads of other processes are
    untouched, threads of the process keep their owner and all other bits;
    and a second run changes nothing but the log of calls. *)
Theorem exit_releases_held_threads `{KernelEnv} (pageEnd : Z) (s : KState) :
  svcHook_svcId pageEnd s = 0x03 ->
  Z.land (customFlags (currentProcessObj s)) SignalOnExit <> 0 ->
  let s' := snd (svcHook pageEnd s) in
  (forall t, In t (threadList s') ->
             ownerProcess t = currentProcess s ->
             Z.land (schedulingMask t) 0x20 = 0)
  /\ length (threadList s') = length (threadList s)
  /\ (forall (i : nat) t, threadList s !! i = Some t ->
        exists t', threadList s' !! i = Some t'
                   /\ ownerProcess t' = ownerProcess t
                   /\ (ownerProcess t <> currentProcess s -> t' = t)
                   /\ (forall n, n <> 5 ->
                         Z.testbit (schedulingMask t') n
                         = Z.testbit (schedulingMask t) n))
  /\ set_trace (trace s') (snd (svcHook pageEnd s')) = s'.
Proof.
  intros Hid Hf. cbv zeta.
  destruct (svcHook_exit_state pageEnd s Hid Hf) as (Hl & Hc & Ho & Hm & Ht & Hk).
  split; [|split; [|split]].
  - intros t Hin Hown. rewrite Hl, unlockThreads_map in Hin.
    apply in_map_iff in Hin as (t0 & <- & _).
    rewrite unlockThread_owner in Hown. now apply unlockThread_released.
  - rewrite Hl, unlockThreads_map. apply length_map.
  - intros i t Hi. exists (unlockThread (currentProcess s) t).
    rewrite Hl, unlockThreads_lookup, Hi. split; [reflexivity|].
    split; [apply unlockThread_owner|].
    split; [apply unlockThread_other|]. intros n Hn. now apply unlockThread_bits.
  - set (s' := snd (svcHook pageEnd s)) in *.
    assert (Hid' : svcHook_svcId pageEnd s' = 0x03)
      by (unfold svcHook_svcId in *; now rewrite Hm).
    assert (Hf' : Z.land (customFlags (currentProcessObj s')) SignalOnExit <> 0)
      by now rewrite Ho.
    destruct (svcHook_exit_state pageEnd s' Hid' Hf') as (Hl' & Hc' & Ho' & Hm' & Ht' & Hk').
    rewrite Hc, Hl, unlockThreads_idem, <- Hl in Hl'.
    destruct (snd (svcHook pageEnd s')), s'. cbn in *. unfold set_trace. cbn.
    congruence.
Qed.

(** The held thread of the exiting process is released, the held thread
    of the other process is not. *)
Lemma exit_releases_held_threads_witness :
  let s := sample_state 0 0x4 None (frame_mem 0x1000 0x03 0) in
  threadList (snd (@svcHook sample_env 0x1000 s))
  = [mkKThread 0xFFF70000 0x01; mkKThread 0xFFF71000 0x20; mkKThread 0xFFF70000 0x01]
  /\ forall t, In t (threadList (snd (@svcHook sample_env 0x1000 s))) ->
               ownerProcess t = 0xFFF70000 ->
               Z.land (schedulingMask t) 0x20 = 0.
Proof.
  split; [reflexivity|].
  apply (proj1 (@exit_releases_held_threads sample_env 0x1000
                  (sample_state 0 0x4 None (frame_mem 0x1000 0x03 0))
                  eq_refl ltac:(vm_compute; discriminate))).
Defined.

(** C5, as stated, fails: for call 0x03 of a process flagged "signal on
    exit", [svcHook] changes the thread list and logs calls. *)
Lemma svcHook_has_side_effects :
  let s := sample_state 0 0x4 None (frame_mem 0x1000 0x03 0) in
  threadList (snd (@svcHook sample_env 0x1000 s)) <> threadList s
  /\ new_events s (snd (@svcHook sample_env 0x1000 s))
     = [EvPLG_SignalEvent 2; EvKRecursiveLock__Lock; EvKRecursiveLock__Unlock]
  /\ snd (@svcHook sample_env 0x1000 s) <> s.
Proof.
  cbv zeta. split; [vm_compute; discriminate|]. split; [reflexivity|].
  intros Heq. apply (f_equal threadList) in Heq. vm_compute in Heq. discriminate.
Qed.

(** C5, amended: unless the call is 0x03 issued by a process flagged
    "signal on exit", [svcHook] leaves the whole state as it found it; and
    in every case the handler it returns is determined by the call
    identifier, the [officialSVCs] table and whether a debugger is
    attached to the current process. *)
Theorem svcHook_frame `{KernelEnv} (pageEnd : Z) (s : KState) :
  (svcHook_svcId pageEnd s <> 0x03
   \/ Z.land (customFlags (currentProcessObj s)) SignalOnExit = 0 ->
   snd (svcHook pageEnd s) = s)
  /\ (forall pageEnd' s',
        svcHook_svcId pageEnd' s' = svcHook_svcId pageEnd s ->
        officialSVCs s' = officialSVCs s ->
        attached s' = attached s ->
        fst (svcHook pageEnd' s') = fst (svcHook pageEnd s)).
Proof.
  split.
  - intros [Hid|Hf].
    + now rewrite (svcHook_other _ _ Hid).
    + destruct (Z.eq_dec (svcHook_svcId pageEnd s) 3) as [Hid|Hid].
      * rewrite (svcHook_exit _ _ Hid). cbn [snd]. now rewrite Hf.
      * now rewrite (svcHook_other _ _ Hid).
  - intros pageEnd' s' Hid Ht Ha. rewrite !svcHook_fst. congruence.
Qed.

(** Call 0x32 leaves the state alone and resolves alike from another
    frame, flags and kernel version. *)
Lemma svcHook_frame_witness :
  let s := sample_state 0 0x4 None (frame_mem 0x1000 0x32 0) in
  snd (@svcHook sample_env 0x1000 s) = s
  /\ fst (@svcHook sample_env 0x2000
            (sample_state 0x022C0000 0x10006 None (frame_mem 0x2000 0xFE 0x32)))
     = fst (@svcHook sample_env 0x1000 s).
Proof.
  split.
  - apply (proj1 (@svcHook_frame sample_env 0x1000
                    (sample_state 0 0x4 None (frame_mem 0x1000 0x32 0)))).
    left. vm_compute. discriminate.
  - apply (proj2 (@svcHook_frame sample_env 0x1000
                    (sample_state 0 0x4 None (frame_mem 0x1000 0x32 0))));
      reflexivity.
Defined.

(** ** Memory-layout change on return *)

(** C6: on every return, whatever the call, when the custom flags of the
    current process have both "signal on memory-layout changes" and
    "layout changed" set, [signalSvcReturn] clears "layout changed", keeps
    every other flag bit, and signals the process's layout-change event
    once; otherwise it leaves the flags alone and signals no event.  The
    rest of the process object, the threads and memory are never touched. *)
Theorem signalSvcReturn_layout_change `{KernelEnv} (pageEnd : Z) (s : KState) :
  Z.land SignalOnMemLayoutChanges MemLayoutChanged = 0 ->
  let flags := customFlags (currentProcessObj s) in
  let s' := snd (signalSvcReturn pageEnd s) in
  let flags' := customFlags (currentProcessObj s') in
  (Z.land flags SignalOnMemLayoutChanges <> 0 /\ Z.land flags MemLayoutChanged <> 0 ->
   Z.land flags' MemLayoutChanged = 0
   /\ (forall n, Z.testbit MemLayoutChanged n = false ->
                 Z.testbit flags' n = Z.testbit flags n)
   /\ Z.land flags' SignalOnMemLayoutChanges = Z.land flags SignalOnMemLayoutChanges
   /\ signalled_events (new_events s s')
      = [onMemoryLayoutChangeEvent (currentProcessObj s)])
  /\ (Z.land flags SignalOnMemLayoutChanges = 0 \/ Z.land flags MemLayoutChanged = 0 ->
      flags' = flags /\ signalled_events (new_events s s') = [])
  /\ debug (currentProcessObj s') = debug (currentProcessObj s)
  /\ onMemoryLayoutChangeEvent (currentProcessObj s')
     = onMemoryLayoutChangeEvent (currentProcessObj s)
  /\ threadList s' = threadList s
  /\ mem s' = mem s.
Proof.
  intros Hdisj. cbv zeta. rewrite signalSvcReturn_run. cbn [snd]. cbv zeta.
  set (dbg := if attached s && _ then _ else _).
  assert (Hdbg : signalled_events dbg = []) by (subst dbg; now destruct (_ && _)).
  assert (Happ : forall l, signalled_events (dbg ++ l) = signalled_events l).
  { intros l. subst dbg. now destruct (_ && _). }
  split; [|split].
  - intros [Ha Hb].
    rewrite (proj2 (Z.eqb_neq _ _) Ha), (proj2 (Z.eqb_neq _ _) Hb). cbn [negb andb].
    rewrite new_events_set_trace, Happ.
    cbn [set_trace set_customFlags currentProcessObj customFlags].
    split; [apply land_lnot_clears|].
    split; [intros n Hn; now apply land_lnot_testbit|].
    split; [now apply land_lnot_disjoint|reflexivity].
  - intros [Ha|Hb].
    + rewrite Ha. cbn [Z.eqb negb andb]. now rewrite new_events_set_trace.
    + rewrite Hb, andb_false_r. now rewrite new_events_set_trace.
  - destruct (negb _ && negb _); repeat split.
Qed.

(** Flags 0x10006 become 0x6 and event 0x77 is signalled. *)
Lemma signalSvcReturn_layout_change_witness :
  let s := sample_state 0 0x10006 None (frame_mem 0x1000 0x32 0) in
  let s' := snd (@signalSvcReturn sample_env 0x1000 s) in
  customFlags (currentProcessObj s') = 0x6
  /\ Z.land (customFlags (currentProcessObj s')) 0x10000 = 0
  /\ signalled_events (new_events s s') = [0x77].
Proof.
  cbv zeta. split; [reflexivity|].
  pose proof (proj1 (@signalSvcReturn_layout_change sample_env 0x1000
                       (sample_state 0 0x10006 None (frame_mem 0x1000 0x32 0))
                       eq_refl)) as Hc.
  destruct Hc as (Hclear & _ & _ & Hsig).
  - split; vm_compute; discriminate.
  - split; [exact Hclear | exact Hsig].
Defined.

(** * The err:f service *)

(** ** Steps that only log calls *)

Lemma frame_refl s : frame s s [].
Proof. unfold frame. now rewrite app_nil_r. Qed.

Lemma frame_trans s1 s2 s3 l1 l2 :
  frame s1 s2 l1 -> frame s2 s3 l2 -> frame s1 s3 (l1 ++ l2).
Proof.
  unfold frame. intros (T1 & C1 & U1 & M1 & I1) (T2 & C2 & U2 & M2 & I2).
  rewrite T2, T1, app_assoc. repeat split; congruence.
Qed.

Lemma new_uevents_frame s s' l : frame s s' l -> new_uevents s s' = l.
Proof. intros (T & _). unfold new_uevents. rewrite T. apply drop_app_length. Qed.

Lemma quiet_with_weaken {A} (P : list UEvent -> Prop) (c : R A) :
  quiet_with P c -> quiet c.
Proof.
  intros Hc s. destruct (Hc s) as (a & s' & l & E & F & Hs & _). now exists a, s', l.
Qed.

Lemma quiet_retR {A} (a : A) : quiet (retR a).
Proof. intros s. exists a, s, []. repeat split. apply frame_refl. Qed.

Lemma quiet_getsR {A} (f : RState -> A) : quiet (getsR f).
Proof. intros s. exists (f s), s, []. repeat split. apply frame_refl. Qed.

Lemma quiet_emitR e : quiet (emitR e).
Proof. intros s. eexists tt, _, [e]. repeat split. Qed.

Lemma quiet_with_emitR p e : p e = true -> quiet_with (logs p) (emitR e).
Proof.
  intros Hp s. eexists tt, _, [e]. repeat split.
  unfold logs. cbn. now rewrite Hp.
Qed.

Lemma quiet_set_menuRefCount n : quiet (modifyR (set_menuRefCount n)).
Proof. intros s. eexists tt, _, []. repeat split. cbn. now rewrite app_nil_r. Qed.

Lemma quiet_bindR {A B} (c : R A) (k : A -> R B) :
  quiet c -> (forall a, quiet (k a)) -> quiet (bindR c k).
Proof.
  intros Hc Hk s. destruct (Hc s) as (a & s1 & l1 & E1 & F1 & S1 & _).
  destruct (Hk a s1) as (b & s2 & l2 & E2 & F2 & S2 & _).
  exists b, s2, (l1 ++ l2). unfold bindR. rewrite E1, E2.
  repeat split; try congruence. all: try eapply frame_trans; eauto.
Qed.

Lemma quiet_with_bindR_l {A B} p (c : R A) (k : A -> R B) :
  quiet_with (logs p) c -> (forall a, quiet (k a)) -> quiet_with (logs p) (bindR c k).
Proof.
  intros Hc Hk s. destruct (Hc s) as (a & s1 & l1 & E1 & F1 & S1 & P1).
  destruct (Hk a s1) as (b & s2 & l2 & E2 & F2 & S2 & _).
  exists b, s2, (l1 ++ l2). unfold bindR. rewrite E1, E2.
  split; [reflexivity|]. split; [eapply frame_trans; eauto|].
  split; [congruence|]. unfold logs in *. now rewrite existsb_app, P1.
Qed.

Lemma quiet_with_bindR_r {A B} p (c : R A) (k : A -> R B) :
  quiet c -> (forall a, quiet_with (logs p) (k a)) -> quiet_with (logs p) (bindR c k).
Proof.
  intros Hc Hk s. destruct (Hc s) as (a & s1 & l1 & E1 & F1 & S1 & _).
  destruct (Hk a s1) as (b & s2 & l2 & E2 & F2 & S2 & P2).
  exists b, s2, (l1 ++ l2). unfold bindR. rewrite E1, E2.
  split; [reflexivity|]. split; [eapply frame_trans; eauto|].
  split; [congruence|]. unfold logs in *. now rewrite existsb_app, P2, orb_true_r.
Qed.

Create HintDb quiet.
#[export] Hint Resolve quiet_retR quiet_getsR quiet_emitR quiet_set_menuRefCount : quiet.

Ltac quiet_steps :=
  repeat first
    [ apply quiet_bindR; [|intros ?]
    | match goal with |- quiet (if ?b then _ else _) => destruct b end
    | solve [auto with quiet] ].

Section RosalinaProps.
Context `{RosalinaEnv}.

Lemma quiet_Draw_AllocateFramebufferCache size : quiet (Draw_AllocateFramebufferCache size).
Proof. intros s. eexists _, _, [_]. repeat split. Qed.

Lemma quiet_Draw_DrawString x y c t : quiet (Draw_DrawString x y c t).
Proof. intros s. eexists _, _, [_]. repeat split. Qed.

Hint Resolve quiet_Draw_AllocateFramebufferCache quiet_Draw_DrawString : quiet.

Lemma quiet_svcSleepThread ns : quiet (svcSleepThread ns).
Proof. apply quiet_emitR. Qed.

Lemma quiet_svcKernelSetState type arg : quiet (svcKernelSetState type arg).
Proof. apply quiet_emitR. Qed.

Lemma quiet_Draw_Lock : quiet Draw_Lock.
Proof. apply quiet_emitR. Qed.

Lemma quiet_Draw_Unlock : quiet Draw_Unlock.
Proof. apply quiet_emitR. Qed.

Lemma quiet_Draw_ClearFramebuffer : quiet Draw_ClearFramebuffer.
Proof. apply quiet_emitR. Qed.

Lemma quiet_Draw_FlushFramebuffer : quiet Draw_FlushFramebuffer.
Proof. apply quiet_emitR. Qed.

Lemma quiet_Draw_SetupFramebuffer : quiet Draw_SetupFramebuffer.
Proof. apply quiet_emitR. Qed.

Lemma quiet_Draw_RestoreFramebuffer : quiet Draw_RestoreFramebuffer.
Proof. apply quiet_emitR. Qed.

Lemma quiet_Draw_FreeFramebufferCache : quiet Draw_FreeFramebufferCache.
Proof. apply quiet_emitR. Qed.

Hint Resolve quiet_svcSleepThread quiet_svcKernelSetState quiet_Draw_Lock
  quiet_Draw_Unlock quiet_Draw_ClearFramebuffer quiet_Draw_FlushFramebuffer
  quiet_Draw_SetupFramebuffer quiet_Draw_RestoreFramebuffer
  quiet_Draw_FreeFramebufferCache : quiet.

Lemma quiet_menuEnter : quiet menuEnter.
Proof. unfold menuEnter. quiet_steps. Qed.

Lemma quiet_menuLeave : quiet menuLeave.
Proof. unfold menuLeave. quiet_steps. Qed.

Lemma quiet_ERRF_DisplayError info :
  quiet_with (logs is_error_screen) (ERRF_DisplayError info).
Proof.
  unfold ERRF_DisplayError.
  apply quiet_with_bindR_r; [apply quiet_Draw_Lock | intros _].
  apply quiet_with_bindR_r; [apply quiet_getsR | intros user].
  apply quiet_with_bindR_r; [apply quiet_Draw_DrawString | intros posY].
  apply quiet_with_bindR_l; [now apply quiet_with_emitR | intros _].
  quiet_steps.
Qed.

End RosalinaProps.

(** Unfold the primitives of the service down to records. *)
Ltac unfold_service :=
  unfold bindR, svcSleepThread, svcKernelSetState, Draw_Lock, Draw_Unlock,
    hidScanInput, hidKeysDown, hidKeysDownRepeat, put_cmdbuf, ERRF_GetErrInfo,
    emitR, modifyR, getsR, retR,
    set_utrace, set_hidScans, set_cmdbuf, set_userString, set_menuRefCount in *.

(** ** Waiting for the pad *)

Section WaitInput.
Context `{RosalinaEnv}.

(** Whenever the loop returns it has slept one millisecond first, and it
    has kept the frame and the menu reference count. *)
Lemma waitInputWithTimeout_loop_frame fuel : forall msec n s keys s',
  waitInputWithTimeout_loop fuel msec n s = Some (keys, s') ->
  exists l, frame s s' (EvSvcSleepThread (1 * 1000 * 1000) :: l)
            /\ menuRefCount s' = menuRefCount s.
Proof.
  induction fuel as [|fuel IH]; intros msec n s keys s' Hrun; [discriminate|].
  cbn [waitInputWithTimeout_loop] in Hrun. unfold_service.
  destruct s as [cb us ex hid rc sc tr].
  cbn -[Z.mul Z.lor Z.land Z.eqb Z.ltb waitInputWithTimeout_loop] in Hrun.
  destruct (negb hid || ex).
  - injection Hrun as <- <-. eexists. split; [|reflexivity].
    unfold frame. cbn. rewrite <- !app_assoc. repeat split.
  - match type of Hrun with
    | (if ?c then _ else _) _ = _ => destruct c
    end.
    + apply IH in Hrun as (l & (T & C & U & M & I) & Hc). cbn in *.
      eexists. split; [|exact Hc]. unfold frame.
      rewrite T, <- !app_assoc. cbn. repeat split; assumption.
    + injection Hrun as <- <-. eexists. split; [|reflexivity].
      unfold frame. cbn. rewrite <- !app_assoc. repeat split.
Qed.

(** The loop returns as soon as a key is seen: with fuel [S k] when the
    keys of scan number [hidScans s + S k] are not zero. *)
Lemma waitInputWithTimeout_loop_returns k : forall msec n s,
  scanned_keys (hidScans s + S k) <> 0 ->
  exists r, waitInputWithTimeout_loop (S k) msec n s = Some r.
Proof.
  induction k as [|k IH]; intros msec n s Hkey.
  - cbn [waitInputWithTimeout_loop]. unfold_service.
    destruct s as [cb us ex hid rc sc tr].
    cbn -[Z.mul Z.lor Z.land Z.eqb Z.ltb] in *.
    destruct (negb hid || ex); [eauto|].
    replace (sc + 1)%nat with (S sc) in Hkey by lia.
    unfold scanned_keys in Hkey. cbn -[Z.mul Z.lor Z.land Z.eqb Z.ltb].
    rewrite (proj2 (Z.eqb_neq _ _) Hkey). cbn. eauto.
  - remember (S k) as fuel eqn:Hfuel. cbn [waitInputWithTimeout_loop]. unfold_service.
    destruct s as [cb us ex hid rc sc tr].
    cbn -[Z.mul Z.lor Z.land Z.eqb Z.ltb waitInputWithTimeout_loop] in *.
    destruct (negb hid || ex); [eauto|].
    cbn -[Z.mul Z.lor Z.land Z.eqb Z.ltb waitInputWithTimeout_loop].
    match goal with
    | |- exists r, (if ?c then _ else _) _ = _ => destruct c
    end; [|eauto].
    subst fuel. apply IH. cbn [hidScans].
    replace (S sc + S k)%nat with (sc + S (S k))%nat by lia.
    exact Hkey.
Qed.

End WaitInput.

(** ** SetUserString *)

(** C9: a request whose command identifier is 2 but whose header word is
    not [IPC_MakeHeader(2, 1, 2)], or whose static-buffer descriptor does
    not have the expected shape, is answered with the header
    [IPC_MakeHeader(0, 1, 0)] and the code 0xD9001830; the stored user
    string, and everything else but these two words of the command
    buffer, stay as they were. *)
Theorem SetUserString_malformed `{RosalinaEnv} (fuel : nat) (s : RState) :
  Z.shiftr (cmdbuf s 0) 16 = 2 ->
  cmdbuf s 0 <> IPC_MakeHeader 2 1 2 \/ Z.land (cmdbuf s 2) 0x3C0F <> 2 ->
  exists s',
    ERRF_HandleCommands fuel s = Some (tt, s')
    /\ cmdbuf s' 0 = IPC_MakeHeader 0 1 0
    /\ cmdbuf s' 1 = 0xD9001830
    /\ userString s' = userString s
    /\ (forall i, i <> 0 -> i <> 1 -> cmdbuf s' i = cmdbuf s i)
    /\ set_cmdbuf (cmdbuf s) s' = s.
Proof.
  intros Hcmd Hbad.
  unfold ERRF_HandleCommands, bindR at 1, getsR at 1. rewrite Hcmd.
  assert (Hgate : negb (cmdbuf s 0 =? IPC_MakeHeader 2 1 2)
                  || negb (Z.land (cmdbuf s 2) 0x3C0F =? 2) = true).
  { destruct Hbad as [Hb|Hb]; rewrite (proj2 (Z.eqb_neq _ _) Hb); cbn [negb orb];
      [reflexivity | apply orb_true_r]. }
  unfold bindR at 1 2, getsR at 1 2. rewrite Hgate.
  unfold_service. destruct s as [cb us ex hid rc sc tr]. cbn -[Z.eqb].
  eexists. split; [reflexivity|]. cbn -[Z.eqb].
  repeat split.
  intros i H0 H1.
  now rewrite (proj2 (Z.eqb_neq _ _) H1), (proj2 (Z.eqb_neq _ _) H0).
Qed.

(** A header with one translate word instead of two is refused and the stored string
    stays. *)
Lemma SetUserString_malformed_witness :
  exists s',
    @ERRF_HandleCommands sample_renv 0 (sample_rstate [0x00020041; 3; 2; 0x414243] false)
    = Some (tt, s')
    /\ cmdbuf s' 0 = 0x40
    /\ cmdbuf s' 1 = 0xD9001830
    /\ userString s' = [0x48; 0x69] ++ repeat 0 0xFF.
Proof.
  destruct (@SetUserString_malformed sample_renv 0
              (sample_rstate [0x00020041; 3; 2; 0x414243] false))
    as (s' & Hrun & H0 & H1 & Hu & _).
  - reflexivity.
  - left. vm_compute. discriminate.
  - exists s'. repeat split; assumption.
Defined.

(** A well-formed request does replace the string. *)
Example SetUserString_well_formed :
  match @ERRF_HandleCommands sample_renv 0
          (sample_rstate [0x00020042; 3; 2; 0x414243] false) with
  | Some (_, s') =>
      cmdbuf s' 0 = 0x00020040 /\ cmdbuf s' 1 = 0
      /\ c_string (userString s') = [0x43; 0x42; 0x41]
  | None => False
  end.
Proof. vm_compute. repeat split. Qed.

(** ** Throw *)

(** Run the first step of the sequence in [Hr] with the lemma that says
    it is quiet. *)
Ltac step_quiet Hr Hq :=
  match type of Hr with
  | bindR _ _ ?s = _ =>
      let a := fresh "a" in let s1 := fresh "s" in let l := fresh "l" in
      let E := fresh "E" in let F := fresh "F" in let S := fresh "S" in
      let P := fresh "P" in
      destruct (Hq s) as (a & s1 & l & E & F & S & P);
      unfold bindR at 1 in Hr; rewrite E in Hr; clear E
  end.

Section ThrowProps.
Context `{RosalinaEnv}.

(** The error screen, then the wait for the pad, then the way back. *)
Lemma error_screen_run fuel info s r :
  (menuEnter ;+ Draw_Lock ;+ Draw_ClearFramebuffer ;+ Draw_FlushFramebuffer ;+
   ERRF_DisplayError info ;+ waitInput fuel ;+ Draw_Unlock ;+ menuLeave) s = r ->
  exists s1 l1,
    frame s s1 l1 /\ hidScans s1 = hidScans s /\ logs is_error_screen l1
    /\ match waitInput fuel s1 with
       | None => r = None
       | Some (_, s2) => exists s3 l3, r = Some (tt, s3) /\ frame s2 s3 l3
       end.
Proof.
  intros Hr.
  step_quiet Hr quiet_menuEnter.
  step_quiet Hr quiet_Draw_Lock.
  step_quiet Hr quiet_Draw_ClearFramebuffer.
  step_quiet Hr quiet_Draw_FlushFramebuffer.
  step_quiet Hr (quiet_ERRF_DisplayError info).
  exists s4, ((((l ++ l0) ++ l1) ++ l2) ++ l3).
  split; [repeat (eapply frame_trans; [|eassumption]); assumption|].
  split; [congruence|].
  split; [unfold logs in *; rewrite existsb_app, P3; apply orb_true_r|].
  unfold bindR at 1 in Hr. destruct (waitInput fuel s4) as [[k s5]|]; [|now subst r].
  step_quiet Hr quiet_Draw_Unlock.
  destruct (quiet_menuLeave s6) as ([] & s7 & l5 & E & F5 & _). rewrite E in Hr.
  exists s7, (l4 ++ l5). split; [now subst r|]. eapply frame_trans; eassumption.
Qed.

Lemma reply_run (c : R unit) h v s :
  (c ;+ put_cmdbuf 0 h ;+ put_cmdbuf 1 v) s
  = match c s with
    | Some (_, s2) =>
        Some (tt, set_cmdbuf (fun j => if j =? 1 then v
                                       else if j =? 0 then h else cmdbuf s2 j) s2)
    | None => None
    end.
Proof.
  unfold bindR at 1. destruct (c s) as [[[] s2]|]; [|reflexivity].
  unfold_service. now destruct s2.
Qed.

(** C10: a Throw request is always answered with the header
    [IPC_MakeHeader(1, 1, 0)] and status 0.  The error screen is drawn and
    the pad polled exactly when the menu is not exiting and the error type
    is not LOGGED or the process id is 0; otherwise the reply is given at
    once and nothing else is done.  When the screen is shown the reply
    follows the first scan of the pad that reports a key. *)
Theorem Throw_reply (s : RState) :
  Z.shiftr (cmdbuf s 0) 16 = 1 ->
  let info := cmdbuf_bytes (cmdbuf s) 1 sizeof_ERRF_FatalErrInfo in
  let shown :=
    negb (menuShouldExit s)
    && (negb (info_type info =? ERRF_ERRTYPE_LOGGED) || (info_procId info =? 0)) in
  (forall fuel s',
     ERRF_HandleCommands fuel s = Some (tt, s') ->
     cmdbuf s' 0 = IPC_MakeHeader 1 1 0
     /\ cmdbuf s' 1 = 0
     /\ existsb is_error_screen (new_uevents s s') = shown
     /\ existsb is_input_wait (new_uevents s s') = shown)
  /\ (shown = false ->
      forall fuel, exists s',
        ERRF_HandleCommands fuel s = Some (tt, s') /\ new_uevents s s' = [])
  /\ (forall k, scanned_keys (hidScans s + S k) <> 0 ->
      exists s', ERRF_HandleCommands (S k) s = Some (tt, s')).
Proof.
  intros Hcmd info shown.
  assert (Hunf : forall fuel,
    ERRF_HandleCommands fuel s
    = ((if shown then
          menuEnter ;+ Draw_Lock ;+ Draw_ClearFramebuffer ;+ Draw_FlushFramebuffer ;+
          ERRF_DisplayError info ;+ waitInput fuel ;+ Draw_Unlock ;+ menuLeave
        else retR tt) ;+
       put_cmdbuf 0 (IPC_MakeHeader 1 1 0) ;+ put_cmdbuf 1 0) s).
  { intros fuel. unfold ERRF_HandleCommands, bindR at 1, getsR at 1. rewrite Hcmd.
    cbv iota. unfold bindR at 1, ERRF_GetErrInfo, getsR at 1. fold info.
    unfold bindR at 1, getsR at 1. reflexivity. }
  split; [|split].
  - intros fuel s' Hrun. rewrite Hunf in Hrun. rewrite reply_run in Hrun.
    destruct shown.
    + destruct (error_screen_run fuel info s _ eq_refl)
        as (s1 & l1 & F1 & S1 & P1 & Hw).
      destruct (waitInput fuel s1) as [[k s2]|] eqn:Ew;
        [|rewrite Hw in Hrun; discriminate].
      destruct Hw as (s3 & l3 & E3 & F3). rewrite E3 in Hrun.
      injection Hrun as <-.
      unfold waitInput, waitInputWithTimeout in Ew.
      apply waitInputWithTimeout_loop_frame in Ew as (l2 & F2 & _).
      pose proof (frame_trans _ _ _ _ _ (frame_trans _ _ _ _ _ F1 F2) F3) as F.
      cbn [cmdbuf set_cmdbuf].
      change (new_uevents s (set_cmdbuf ?c s3)) with (new_uevents s s3).
      rewrite (new_uevents_frame _ _ _ F).
      split; [reflexivity|]. split; [reflexivity|].
      unfold logs in P1. rewrite !existsb_app, P1. cbn [existsb is_input_wait].
      rewrite Z.eqb_refl. cbn [orb]. now rewrite orb_true_r.
    + cbn [retR] in Hrun. injection Hrun as <-. cbn [cmdbuf set_cmdbuf].
      change (new_uevents s (set_cmdbuf ?c s)) with (new_uevents s s).
      rewrite (new_uevents_frame _ _ _ (frame_refl s)). repeat split.
  - intros Hs fuel. rewrite Hunf, reply_run, Hs. cbn [retR].
    eexists. split; [reflexivity|].
    change (new_uevents s (set_cmdbuf ?c s)) with (new_uevents s s).
    apply new_uevents_frame, frame_refl.
  - intros k Hkey. rewrite Hunf, reply_run. destruct shown; [|cbn [retR]; eauto].
    destruct (error_screen_run (S k) info s _ eq_refl)
      as (s1 & l1 & F1 & S1 & P1 & Hw).
    rewrite <- S1 in Hkey.
    destruct (waitInputWithTimeout_loop_returns k (-1) 0 s1 Hkey) as ([keys s2] & Ew).
    change (waitInputWithTimeout_loop (S k) (-1) 0) with (waitInput (S k)) in Ew.
    rewrite Ew in Hw. destruct Hw as (s3 & l3 & -> & _). eauto.
Qed.

End ThrowProps.

(** A logged error of process 7 is answered at once; a generic error is
    answered once A is pressed, at the third scan. *)
Lemma Throw_reply_witness :
  (exists s',
     @ERRF_HandleCommands sample_renv 0 (sample_rstate [0x00010800; 5; 0; 0; 7] false)
     = Some (tt, s')
     /\ new_uevents (sample_rstate [0x00010800; 5; 0; 0; 7] false) s' = [])
  /\ (exists s',
        @ERRF_HandleCommands sample_renv 3 (sample_rstate [0x00010800; 0; 0; 0; 7] false)
        = Some (tt, s')).
Proof.
  split.
  - apply (proj1 (proj2 (@Throw_reply sample_renv
                           (sample_rstate [0x00010800; 5; 0; 0; 7] false) eq_refl))).
    reflexivity.
  - apply (proj2 (proj2 (@Throw_reply sample_renv
                           (sample_rstate [0x00010800; 0; 0; 0; 7] false) eq_refl)) 2%nat).
    vm_compute. discriminate.
Defined.

(** A logged error of process 7 is acknowledged without a screen; the
    same error of process 0 is shown. *)
Example Throw_logged_runs :
  match @ERRF_HandleCommands sample_renv 0 (sample_rstate [0x00010800; 5; 0; 0; 7] false),
        @ERRF_HandleCommands sample_renv 3 (sample_rstate [0x00010800; 5; 0; 0; 0] false)
  with
  | Some (_, s1), Some (_, s2) =>
      (cmdbuf s1 0, cmdbuf s1 1, utrace s1) = (0x00010040, 0, [])
      /\ (cmdbuf s2 0, cmdbuf s2 1) = (0x00010040, 0)
      /\ existsb is_error_screen (utrace s2) = true
      /\ List.filter is_input_wait (utrace s2)
         = [EvSvcSleepThread 1000000; EvSvcSleepThread 1000000; EvSvcSleepThread 1000000]
  | _, _ => False
  end.
Proof. vm_compute. repeat split. Qed.

(** * Further properties *)

(** ** The kernel hooks *)

(** X1: past the version gate, whatever the handle and whatever the unmap
    returns, [UnmapProcessMemoryEx] drops every reference it takes: for
    each process the calls that take a reference on it and the calls that
    release one are equally many. *)
Theorem UnmapProcessMemoryEx_reference_balance `{KernelEnv}
    (processHandle dst size : Z) (s : KState) (p : Z) :
  37 <= GET_VERSION_MINOR (kernelVersion s) ->
  let evs := new_events s (snd (UnmapProcessMemoryEx processHandle dst size s)) in
  length (List.filter (acquires p) evs) = length (List.filter (releases p) evs).
Proof.
  intros Hv. cbv zeta.
  destruct (Z.eq_dec processHandle CUR_PROCESS_HANDLE) as [Hh|Hh].
  - rewrite (UnmapProcessMemoryEx_current _ _ _ _ Hv Hh). cbn [snd].
    rewrite new_events_set_trace. cbn -[Z.eqb].
    now destruct (currentProcess s =? p).
  - destruct (KProcessHandleTable__ToKProcess_ret s (currentProcess s) processHandle)
      as [q|] eqn:Hq.
    + rewrite (UnmapProcessMemoryEx_found _ _ _ _ _ Hv Hh Hq). cbn [snd].
      rewrite new_events_set_trace. cbn -[Z.eqb]. now destruct (q =? p).
    + rewrite (UnmapProcessMemoryEx_not_found _ _ _ _ Hv Hh Hq). cbn [snd].
      now rewrite new_events_set_trace.
Qed.

Lemma UnmapProcessMemoryEx_reference_balance_witness :
  let s := sample_state 0x022C0000 0 None (frame_mem 0 0 0) in
  let evs := new_events s (snd (@UnmapProcessMemoryEx sample_env 0x10 0x100000 0x3000 s)) in
  length (List.filter (acquires 0xFFF70000) evs) = 1%nat
  /\ length (List.filter (acquires 0xFFF70000) evs)
     = length (List.filter (releases 0xFFF70000) evs).
Proof.
  split; [reflexivity|].
  apply (@UnmapProcessMemoryEx_reference_balance sample_env 0x10 0x100000 0x3000
           (sample_state 0x022C0000 0 None (frame_mem 0 0 0)) 0xFFF70000).
  vm_compute. discriminate.
Defined.

(** X2: an attached debugger changes the handler [svcHook] returns for
    the break call 0x3C only: with a debugger the stock handler, without
    one [Break]; for every other call the handler is the same with and
    without a debugger. *)
Theorem svcHook_debugger_gate `{KernelEnv} (pageEnd : Z) (s : KState) (dbg : option Z) :
  (svcHook_svcId pageEnd s <> 0x3C ->
   fst (svcHook pageEnd (with_debug dbg s)) = fst (svcHook pageEnd s))
  /\ (svcHook_svcId pageEnd s = 0x3C ->
      fst (svcHook pageEnd s)
      = if attached s then nth 0x3C (officialSVCs s) NULL else FnPtr Fn.Break).
Proof.
  rewrite !svcHook_fst.
  change (svcHook_svcId pageEnd (with_debug dbg s)) with (svcHook_svcId pageEnd s).
  change (officialSVCs (with_debug dbg s)) with (officialSVCs s).
  generalize (attached (with_debug dbg s)) (attached s). intros a b.
  split.
  - intros Hne. unfold resolve, dispatch_table. cbn [assoc].
    repeat match goal with
           | |- context [?x =? ?k] =>
               destruct (Z.eqb_spec x k) as [?|?]; [try reflexivity; try contradiction|]
           end.
    reflexivity.
  - intros ->. reflexivity.
Qed.

Lemma svcHook_debugger_gate_witness :
  let s := sample_state 0 0 None (frame_mem 0x1000 0x3C 0) in
  fst (@svcHook sample_env 0x1000 s) = FnPtr Fn.Break
  /\ fst (@svcHook sample_env 0x1000 (with_debug (Some 1) s)) = KernelPtr 0xFFF000F0.
Proof.
  split.
  - apply (proj2 (@svcHook_debugger_gate sample_env 0x1000
                    (sample_state 0 0 None (frame_mem 0x1000 0x3C 0)) None)).
    reflexivity.
  - apply (proj2 (@svcHook_debugger_gate sample_env 0x1000
                    (with_debug (Some 1)
                       (sample_state 0 0 None (frame_mem 0x1000 0x3C 0))) None)).
    reflexivity.
Defined.

(** X3: a call identifier read from the call byte itself is at most 0xFF;
    an identifier above 0xFF can only come from the saved r12 of the
    escape encoding, and [svcHook] gives it no handler and leaves the
    state alone. *)
Theorem svcHook_extended_ids_unsupported `{KernelEnv} (pageEnd : Z) (s : KState) :
  (load_u8 (mem s) (pageEnd - 0xB5) <> 0xFE -> svcHook_svcId pageEnd s <= 0xFF)
  /\ (0xFF < svcHook_svcId pageEnd s ->
      load_u8 (mem s) (pageEnd - 0xB5) = 0xFE
      /\ svcHook pageEnd s = (NULL, s)).
Proof.
  split.
  - intros Hne. unfold svcHook_svcId. cbv zeta.
    rewrite (proj2 (Z.eqb_neq _ _) Hne). apply load_u8_range.
  - intros Hgt. split.
    + unfold svcHook_svcId in Hgt. cbv zeta in Hgt.
      destruct (Z.eqb_spec (load_u8 (mem s) (pageEnd - 0xB5)) 0xFE) as [E|E]; [exact E|].
      pose proof (load_u8_range (mem s) (pageEnd - 0xB5)). lia.
    + rewrite svcHook_other by lia. f_equal.
      destruct (resolve_cases (svcHook_svcId pageEnd s) (officialSVCs s) (attached s))
        as (_ & _ & Hnull).
      apply Hnull; [lia|]. unfold custom_svc_ids. cbn [In]. lia.
Qed.

Lemma svcHook_extended_ids_unsupported_witness :
  @svcHook sample_env 0x1000 (sample_state 0 0 None (frame_mem 0x1000 0xFE 0x132))
  = (NULL, sample_state 0 0 None (frame_mem 0x1000 0xFE 0x132)).
Proof.
  apply (proj2 (@svcHook_extended_ids_unsupported sample_env 0x1000
                  (sample_state 0 0 None (frame_mem 0x1000 0xFE 0x132)))).
  reflexivity.
Defined.

(** X4: the entry hook only notifies: it changes no kernel object, logs
    at most one call, a debug event tagged 0xFFFFFFFE, and logs nothing
    when no debugger is attached to the current process. *)
Theorem signalSvcEntry_advisory `{KernelEnv} (pageEnd : Z) (s : KState) :
  let s' := snd (signalSvcEntry pageEnd s) in
  set_trace (trace s) s' = s
  /\ (new_events s s' = []
      \/ new_events s s'
         = [EvSignalDebugEvent DBGEVENT_OUTPUT_STRING 0xFFFFFFFE
              (signalSvcEntry_svcId pageEnd s)])
  /\ (debug (currentProcessObj s) = None -> new_events s s' = []).
Proof.
  cbv zeta. rewrite signalSvcEntry_run. cbn [snd]. rewrite new_events_set_trace.
  split; [now destruct s|]. split.
  - destruct (_ && _); auto.
  - intros Hd. unfold attached. now rewrite Hd.
Qed.

Lemma signalSvcEntry_advisory_witness :
  new_events (sample_state 0 0 None (frame_mem 0x1000 0x32 0))
    (snd (@signalSvcEntry sample_env 0x1000
            (sample_state 0 0 None (frame_mem 0x1000 0x32 0))))
  = [].
Proof.
  apply (proj2 (proj2 (@signalSvcEntry_advisory sample_env 0x1000
                         (sample_state 0 0 None (frame_mem 0x1000 0x32 0))))).
  reflexivity.
Defined.

(** ** The err:f requests *)

Lemma length_cmdbuf_bytes c from n : length (cmdbuf_bytes c from n) = Z.to_nat n.
Proof. unfold cmdbuf_bytes. now rewrite length_map, length_seq. Qed.

Lemma lookup_cmdbuf_bytes c from n (k : nat) :
  (k < Z.to_nat n)%nat ->
  cmdbuf_bytes c from n !! k = Some (cmdbuf_byte c from (Z.of_nat k)).
Proof.
  intros Hk. unfold cmdbuf_bytes. rewrite list_lookup_fmap, lookup_seq_lt by assumption.
  reflexivity.
Qed.

Lemma c_string_length_le bytes (n : nat) :
  bytes !! n = Some 0 -> (length (c_string bytes) <= n)%nat.
Proof.
  revert n. induction bytes as [|b bytes IH]; intros n Hn; [discriminate|].
  cbn [c_string]. destruct (Z.eqb_spec b 0) as [->|Hb]; cbn [length]; [lia|].
  destruct n as [|n]; [cbn in Hn; congruence|].
  cbn in Hn. specialize (IH n Hn). lia.
Qed.

(** X5: a well-formed SetUserString request stores the first
    [min(cmdbuf[1], 0x100)] bytes found from [cmdbuf + 3] on, writes a NUL
    right behind them and leaves the rest of the array as it was; the
    array keeps its 0x101 bytes, the stored C string has at most 0x100
    characters, and the reply is [IPC_MakeHeader(2, 1, 0)] with status 0. *)
Theorem SetUserString_stores `{RosalinaEnv} (fuel : nat) (s : RState) :
  Z.shiftr (IPC_MakeHeader 2 1 2) 16 = 2 ->
  cmdbuf s 0 = IPC_MakeHeader 2 1 2 ->
  Z.land (cmdbuf s 2) 0x3C0F = 2 ->
  0 <= cmdbuf s 1 ->
  length (userString s) = 0x101%nat ->
  let sz := Z.min (cmdbuf s 1) 0x100 in
  exists s',
    ERRF_HandleCommands fuel s = Some (tt, s')
    /\ length (userString s') = 0x101%nat
    /\ (forall k : nat, Z.of_nat k < sz ->
          userString s' !! k = Some (cmdbuf_byte (cmdbuf s) 3 (Z.of_nat k)))
    /\ userString s' !! Z.to_nat sz = Some 0
    /\ (forall k : nat, sz < Z.of_nat k ->
          userString s' !! k = userString s !! k)
    /\ (length (c_string (userString s')) <= Z.to_nat sz)%nat
    /\ cmdbuf s' 0 = IPC_MakeHeader 2 1 0
    /\ cmdbuf s' 1 = 0.
Proof.
  intros Hhdr Hcmd Hdesc Hsz Hlen sz.
  unfold ERRF_HandleCommands, bindR at 1, getsR at 1. rewrite Hcmd, Hhdr.
  unfold bindR at 1 2, getsR at 1 2. rewrite Hcmd, Hdesc, !Z.eqb_refl.
  cbn [negb orb].
  unfold bindR, getsR, modifyR, put_cmdbuf, retR. 
  destruct s as [cb us ex hid rc sc tr]. cbn -[Z.eqb Z.leb cmdbuf_bytes memcpy] in *.
  assert (Hmin : (if cb 1 <=? 0x100 then cb 1 else 0x100) = sz).
  { subst sz. destruct (Z.leb_spec (cb 1) 0x100); lia. }
  rewrite Hmin.
  assert (Hsz' : 0 <= sz <= 0x100) by (subst sz; lia).
  set (n := Z.to_nat sz) in *.
  assert (Hn : (n <= 0x100)%nat) by (subst n; lia).
  set (stored := <[n:=0]> (memcpy us (cmdbuf_bytes cb 3 sz) sz)).
  assert (Hcopy : length (memcpy us (cmdbuf_bytes cb 3 sz) sz) = 0x101%nat).
  { unfold memcpy. rewrite length_app, length_take, length_drop, length_cmdbuf_bytes.
    fold n. lia. }
  eexists. split; [reflexivity|]. cbn -[Z.eqb cmdbuf_bytes memcpy].
  fold stored.
  split; [subst stored; now rewrite length_insert|].
  split.
  { intros k Hk. assert (Hkn : (k < n)%nat) by (subst n; lia).
    subst stored. rewrite list_lookup_insert_ne by lia.
    unfold memcpy. rewrite lookup_app_l by (rewrite length_take, length_cmdbuf_bytes; lia).
    rewrite lookup_take_lt by lia. apply lookup_cmdbuf_bytes. fold n. lia. }
  split; [subst stored; apply list_lookup_insert_eq; lia|].
  split.
  { intros k Hk. assert (Hkn : (n < k)%nat) by (subst n; lia).
    subst stored. rewrite list_lookup_insert_ne by lia.
    unfold memcpy. rewrite lookup_app_r by (rewrite length_take, length_cmdbuf_bytes; lia).
    rewrite length_take, length_cmdbuf_bytes. fold n.
    rewrite lookup_drop. f_equal. lia. }
  split; [apply c_string_length_le; subst stored; apply list_lookup_insert_eq; lia|].
  split; reflexivity.
Qed.

Lemma SetUserString_stores_witness :
  exists s',
    @ERRF_HandleCommands sample_renv 0
      (sample_rstate [0x00020042; 300; 2; 0x44434241] false) = Some (tt, s')
    /\ length (userString s') = 0x101%nat
    /\ userString s' !! 0%nat = Some 0x41
    /\ userString s' !! 0x100%nat = Some 0.
Proof.
  destruct (@SetUserString_stores sample_renv 0
              (sample_rstate [0x00020042; 300; 2; 0x44434241] false))
    as (s' & Hrun & Hlen & Hcopy & Hnul & _); try reflexivity.
  - vm_compute. discriminate.
  - exists s'. split; [exact Hrun|]. split; [exact Hlen|]. split.
    + apply (Hcopy 0%nat). reflexivity.
    + exact Hnul.
Defined.

(** X6: a request whose command identifier is neither 1 nor 2 is not
    answered: the handler returns with the command buffer and everything
    else as it found them. *)
Theorem ERRF_HandleCommands_unknown `{RosalinaEnv} (fuel : nat) (s : RState) :
  Z.shiftr (cmdbuf s 0) 16 <> 1 ->
  Z.shiftr (cmdbuf s 0) 16 <> 2 ->
  ERRF_HandleCommands fuel s = Some (tt, s).
Proof.
  intros H1 H2. unfold ERRF_HandleCommands, bindR at 1, getsR at 1.
  destruct (Z.shiftr (cmdbuf s 0) 16) as [|p|p]; try reflexivity.
  destruct p as [p|p|]; try reflexivity; [|contradiction].
  destruct p; try reflexivity. contradiction.
Qed.

Lemma ERRF_HandleCommands_unknown_witness :
  @ERRF_HandleCommands sample_renv 0 (sample_rstate [0x00030040; 7] false)
  = Some (tt, sample_rstate [0x00030040; 7] false).
Proof.
  apply (@ERRF_HandleCommands_unknown sample_renv); vm_compute; discriminate.
Defined.

(** ** Waiting for the pad, continued *)

Section WaitInputMore.
Context `{RosalinaEnv}.

(** With the pad in use, a return of the loop after [k] more scans means:
    the scans before the last saw no key, the result is what the last scan
    saw, and a result of zero is a timeout. *)
Lemma waitInputWithTimeout_loop_scans fuel : forall msec n s keys s',
  isHidInitialized s = true ->
  menuShouldExit s = false ->
  waitInputWithTimeout_loop fuel msec n s = Some (keys, s') ->
  (hidScans s < hidScans s')%nat
  /\ keys = scanned_keys (hidScans s')
  /\ (forall j, (hidScans s < j < hidScans s')%nat -> scanned_keys j = 0)
  /\ (keys = 0 -> 0 <= msec <= n + Z.of_nat (hidScans s' - hidScans s))
  /\ (0 <= msec -> Z.of_nat (hidScans s' - hidScans s) <= Z.max 1 (msec - n)).
Proof.
  induction fuel as [|fuel IH]; intros msec n s keys s' Hhid Hexit Hrun; [discriminate|].
  cbn [waitInputWithTimeout_loop] in Hrun. unfold_service.
  destruct s as [cb us ex hid rc sc tr]. cbn [isHidInitialized menuShouldExit] in *.
  subst hid ex.
  cbn -[Z.mul Z.lor Z.land Z.eqb Z.ltb waitInputWithTimeout_loop] in Hrun.
  fold (scanned_keys (S sc)) in Hrun.
  destruct (Z.eqb_spec (scanned_keys (S sc)) 0) as [Hk|Hk];
    cbn -[Z.ltb waitInputWithTimeout_loop] in Hrun.
  - destruct ((msec <? 0) || (n + 1 <? msec)) eqn:Hcont.
    + apply IH in Hrun as (Hlt & Hkeys & Hzero & Htime & Hmax); [|reflexivity..].
      cbn [hidScans] in *. split; [lia|]. split; [exact Hkeys|].
      split; [|split].
      * intros j Hj. destruct (Nat.eq_dec j (S sc)) as [->|Hne]; [exact Hk|].
        apply Hzero. lia.
      * intros Hz. specialize (Htime Hz). lia.
      * intros Hm. specialize (Hmax Hm).
        apply orb_true_iff in Hcont as [Hc|Hc]; [apply Z.ltb_lt in Hc; lia|].
        apply Z.ltb_lt in Hc. lia.
    + injection Hrun as <- <-. cbn [hidScans].
      apply orb_false_iff in Hcont as [Hc1 Hc2].
      apply Z.ltb_ge in Hc1, Hc2.
      split; [lia|]. split; [now rewrite Hk|]. split; [intros j Hj; lia|].
      split; [intros _; lia|]. intros _. lia.
  - injection Hrun as <- <-. cbn [hidScans].
    split; [lia|]. split; [reflexivity|]. split; [intros j Hj; lia|].
    split; [intros Hz; contradiction|]. intros _. lia.
Qed.

(** With a timeout the loop needs no more rounds than milliseconds left. *)
Lemma waitInputWithTimeout_loop_timeout fuel : forall msec n s,
  0 <= msec ->
  Z.max 1 (msec - n) <= Z.of_nat fuel ->
  exists r, waitInputWithTimeout_loop fuel msec n s = Some r.
Proof.
  induction fuel as [|fuel IH]; intros msec n s Hm Hfuel; [lia|].
  cbn [waitInputWithTimeout_loop]. unfold_service.
  destruct s as [cb us ex hid rc sc tr].
  cbn -[Z.mul Z.lor Z.land Z.eqb Z.ltb waitInputWithTimeout_loop].
  destruct (negb hid || ex); [eauto|].
  cbn -[Z.mul Z.lor Z.land Z.eqb Z.ltb waitInputWithTimeout_loop].
  match goal with
  | |- exists r, (if ?c then _ else _) _ = _ => destruct c eqn:Hc
  end; [|eauto].
  apply IH; [exact Hm|].
  apply andb_true_iff in Hc as [_ Hc]. apply orb_true_iff in Hc as [Hc|Hc];
    apply Z.ltb_lt in Hc; lia.
Qed.

(** Without the pad, or while the menu is exiting, one round is enough:
    the loop returns 0 and does not scan. *)
Lemma waitInputWithTimeout_loop_idle fuel msec n s keys s' :
  isHidInitialized s && negb (menuShouldExit s) = false ->
  waitInputWithTimeout_loop fuel msec n s = Some (keys, s') ->
  keys = 0 /\ hidScans s' = hidScans s.
Proof.
  intros Hidle Hrun. destruct fuel as [|fuel]; [discriminate|].
  cbn [waitInputWithTimeout_loop] in Hrun. unfold_service.
  destruct s as [cb us ex hid rc sc tr]. cbn [isHidInitialized menuShouldExit] in *.
  cbn -[Z.mul Z.lor Z.land Z.eqb Z.ltb waitInputWithTimeout_loop] in Hrun.
  destruct hid, ex; try discriminate Hidle;
    cbn -[Z.mul Z.lor Z.land Z.eqb Z.ltb waitInputWithTimeout_loop] in Hrun;
    injection Hrun as <- <-; split; reflexivity.
Qed.

(** X7: [waitInput] returns the first key press: with the pad in use and
    the menu not exiting, its result is not zero, it is what the last
    scan saw, and every scan before saw nothing.  Without the pad, or
    while the menu is exiting, it returns 0 without scanning. *)
Theorem waitInput_first_key (fuel : nat) (s : RState) (keys : Z) (s' : RState) :
  waitInput fuel s = Some (keys, s') ->
  if isHidInitialized s && negb (menuShouldExit s) then
    keys <> 0
    /\ keys = scanned_keys (hidScans s')
    /\ (hidScans s < hidScans s')%nat
    /\ (forall j, (hidScans s < j < hidScans s')%nat -> scanned_keys j = 0)
  else keys = 0 /\ hidScans s' = hidScans s.
Proof.
  unfold waitInput, waitInputWithTimeout. intros Hrun.
  destruct (isHidInitialized s && negb (menuShouldExit s)) eqn:Hc.
  - apply andb_true_iff in Hc as [Hhid Hexit]. apply negb_true_iff in Hexit.
    destruct (waitInputWithTimeout_loop_scans _ _ _ _ _ _ Hhid Hexit Hrun)
      as (Hlt & Hkeys & Hzero & Htime & _).
    split; [intros Hz; specialize (Htime Hz); lia|]. auto.
  - eapply waitInputWithTimeout_loop_idle; eassumption.
Qed.

(** X8: with a timeout of [msec] milliseconds, [msec] rounds (one when
    [msec] is 0) are enough for [waitInputWithTimeout] to return; it scans
    the pad at most that often, and with the pad in use a result of 0
    means that it did scan that often and never saw a key. *)
Theorem waitInputWithTimeout_times_out (msec : Z) (s : RState) :
  0 <= msec ->
  let rounds := Z.to_nat (Z.max 1 msec) in
  exists keys s',
    waitInputWithTimeout rounds msec s = Some (keys, s')
    /\ (hidScans s <= hidScans s' <= hidScans s + rounds)%nat
    /\ (isHidInitialized s && negb (menuShouldExit s) = true ->
        keys = scanned_keys (hidScans s')
        /\ (forall j, (hidScans s < j < hidScans s')%nat -> scanned_keys j = 0)
        /\ (keys = 0 -> hidScans s' = (hidScans s + rounds)%nat)).
Proof.
  intros Hm rounds. unfold waitInputWithTimeout.
  destruct (waitInputWithTimeout_loop_timeout rounds msec 0 s Hm) as ([keys s'] & Hrun);
    [subst rounds; lia|].
  exists keys, s'. split; [exact Hrun|].
  destruct (isHidInitialized s && negb (menuShouldExit s)) eqn:Hc.
  - apply andb_true_iff in Hc as [Hhid Hexit]. apply negb_true_iff in Hexit.
    destruct (waitInputWithTimeout_loop_scans _ _ _ _ _ _ Hhid Hexit Hrun)
      as (Hlt & Hkeys & Hzero & Htime & Hmax).
    specialize (Hmax Hm). rewrite Z.sub_0_r in Hmax.
    split; [subst rounds; lia|]. intros _.
    split; [exact Hkeys|]. split; [exact Hzero|].
    intros Hz. specialize (Htime Hz). subst rounds. lia.
  - destruct (waitInputWithTimeout_loop_idle _ _ _ _ _ _ Hc Hrun) as [_ Hs].
    split; [lia|]. discriminate.
Qed.

End WaitInputMore.

Lemma waitInput_first_key_witness :
  exists keys s',
    @waitInput sample_renv 5 (sample_rstate [] false) = Some (keys, s')
    /\ keys <> 0
    /\ keys = @scanned_keys sample_renv (hidScans s').
Proof.
  destruct (@waitInput sample_renv 5 (sample_rstate [] false)) as [[keys s']|] eqn:Hrun;
    [|vm_compute in Hrun; discriminate].
  exists keys, s'. split; [reflexivity|].
  pose proof (@waitInput_first_key sample_renv 5 (sample_rstate [] false) keys s' Hrun)
    as Hfirst.
  cbn [sample_rstate isHidInitialized menuShouldExit andb negb] in Hfirst.
  split; [exact (proj1 Hfirst) | exact (proj1 (proj2 Hfirst))].
Defined.

Lemma waitInputWithTimeout_times_out_witness :
  exists keys s',
    @waitInputWithTimeout sample_renv 2 2 (sample_rstate [] false) = Some (keys, s')
    /\ (hidScans s' <= 2)%nat.
Proof.
  destruct (@waitInputWithTimeout_times_out sample_renv 2 (sample_rstate [] false))
    as (keys & s' & Hrun & Hscans & _); [lia|].
  exists keys, s'. split; [exact Hrun|]. cbn in Hscans. lia.
Defined.

(** ** Entering and leaving the menu *)

(** X9: [menuEnter] followed by [menuLeave] always returns, and the pair
    keeps [menuRefCount] only when it did set the framebuffer up: then
    the count was 0, is 0 again, and the framebuffer is restored.  In
    every other case (menu exiting, menu already entered, cache not
    allocated) the pair leaves the count one lower than it found it. *)
Theorem menuEnter_menuLeave_count `{RosalinaEnv} (s : RState) :
  exists s',
    (menuEnter ;+ menuLeave) s = Some (tt, s')
    /\ (In EvDraw_SetupFramebuffer (new_uevents s s') ->
        menuShouldExit s = false
        /\ menuRefCount s = 0
        /\ menuRefCount s' = 0
        /\ In EvDraw_RestoreFramebuffer (new_uevents s s'))
    /\ (~ In EvDraw_SetupFramebuffer (new_uevents s s') ->
        menuRefCount s' = menuRefCount s - 1).
Proof.
  unfold menuEnter, menuLeave, Draw_AllocateFramebufferCache, Draw_SetupFramebuffer,
    Draw_RestoreFramebuffer, Draw_FreeFramebufferCache, new_uevents.
  unfold_service. destruct s as [cb us ex hid rc sc tr].
  cbn -[Z.mul Z.lor Z.eqb Z.sub Z.add].
  destruct ex; cbn -[Z.mul Z.lor Z.eqb Z.sub Z.add].
  - destruct (rc - 1 =? 0); cbn -[Z.mul Z.lor Z.eqb Z.sub Z.add];
      (eexists; split; [reflexivity|]);
      cbn -[Z.mul Z.lor Z.eqb Z.sub Z.add];
      rewrite <- ?app_assoc, drop_app_length; cbn;
      (split; [intros Hin; exfalso; intuition discriminate | reflexivity]).
  - destruct (Z.eqb_spec rc 0) as [->|Hrc]; cbn -[Z.mul Z.lor Z.eqb Z.sub Z.add].
    + destruct (R_FAILED _); cbn -[Z.mul Z.lor Z.eqb Z.sub Z.add];
        (eexists; split; [reflexivity|]);
        cbn -[Z.mul Z.lor Z.eqb Z.sub Z.add];
        rewrite <- ?app_assoc, drop_app_length; cbn.
      * split; [intros Hin; exfalso; intuition discriminate | reflexivity].
      * split; [intros _; repeat split; tauto | intros Hn; exfalso; apply Hn; tauto].
    + destruct (rc - 1 =? 0); cbn -[Z.mul Z.lor Z.eqb Z.sub Z.add];
        (eexists; split; [reflexivity|]);
        cbn -[Z.mul Z.lor Z.eqb Z.sub Z.add];
        rewrite <- ?app_assoc, drop_app_length; cbn;
        (split; [intros Hin; exfalso; intuition discriminate | reflexivity]).
Qed.

Lemma menuEnter_menuLeave_count_witness :
  exists s',
    (@menuEnter sample_renv ;+ menuLeave) (sample_rstate [] false)
    = Some (tt, s')
    /\ menuRefCount s' = 0
    /\ In EvDraw_RestoreFramebuffer (new_uevents (sample_rstate [] false) s').
Proof.
  destruct (@menuEnter_menuLeave_count sample_renv (sample_rstate [] false))
    as (s' & Hrun & Hbal & _).
  exists s'. split; [exact Hrun|].
  assert (Hin : In EvDraw_SetupFramebuffer (new_uevents (sample_rstate [] false) s')).
  { vm_compute in Hrun. injection Hrun as <-. vm_compute. tauto. }
  destruct (Hbal Hin) as (_ & _ & Hc & Hr). split; assumption.
Defined.

(** ** ntp.c *)

(** ** Bytes and words *)

Lemma land_disjoint_mul_pow2 a c k :
  0 <= k -> 0 <= a < 2 ^ k -> Z.land a (c * 2 ^ k) = 0.
Proof.
  intros Hk Ha. apply Z.bits_inj'. intros n Hn. rewrite Z.land_spec, Z.bits_0.
  destruct (Z.lt_ge_cases n k) as [Hlt|Hge].
  - rewrite Z.mul_pow2_bits_low by assumption. apply andb_false_r.
  - destruct (Z.eq_dec a 0) as [->|Hnz]; [now rewrite Z.bits_0|].
    assert (Hlog : Z.log2 a < k) by (apply Z.log2_lt_pow2; lia).
    rewrite (Z.bits_above_log2 a n) by lia. reflexivity.
Qed.

Lemma lor_add_mul_pow2 a c k :
  0 <= k -> 0 <= a < 2 ^ k -> Z.lor a (c * 2 ^ k) = a + c * 2 ^ k.
Proof.
  intros Hk Ha. pose proof (land_disjoint_mul_pow2 a c k Hk Ha) as Hd.
  rewrite <- Z.lxor_lor by exact Hd. symmetry. now apply Z.add_nocarry_lxor.
Qed.

(** Four bytes, lowest first, as one word. *)
Lemma lor_bytes b0 b1 b2 b3 :
  0 <= b0 <= 0xFF -> 0 <= b1 <= 0xFF -> 0 <= b2 <= 0xFF -> 0 <= b3 <= 0xFF ->
  Z.lor b0 (Z.lor (Z.shiftl b1 8) (Z.lor (Z.shiftl b2 16) (Z.shiftl b3 24)))
  = b0 + b1 * 2 ^ 8 + b2 * 2 ^ 16 + b3 * 2 ^ 24.
Proof.
  intros H0 H1 H2 H3. rewrite !Z.shiftl_mul_pow2 by lia.
  rewrite (lor_add_mul_pow2 (b2 * 2 ^ 16) b3 24) by lia.
  replace (b2 * 2 ^ 16 + b3 * 2 ^ 24) with ((b2 + b3 * 2 ^ 8) * 2 ^ 16) by lia.
  rewrite (lor_add_mul_pow2 (b1 * 2 ^ 8) (b2 + b3 * 2 ^ 8) 16) by lia.
  replace (b1 * 2 ^ 8 + (b2 + b3 * 2 ^ 8) * 2 ^ 16)
    with ((b1 + b2 * 2 ^ 8 + b3 * 2 ^ 16) * 2 ^ 8) by lia.
  rewrite (lor_add_mul_pow2 b0 _ 8) by lia. lia.
Qed.

Lemma htonl_bytes b0 b1 b2 b3 :
  0 <= b0 <= 0xFF -> 0 <= b1 <= 0xFF -> 0 <= b2 <= 0xFF -> 0 <= b3 <= 0xFF ->
  Ntp.htonl (b0 + b1 * 2 ^ 8 + b2 * 2 ^ 16 + b3 * 2 ^ 24) = Ntp.be32 b0 b1 b2 b3.
Proof.
  intros H0 H1 H2 H3. unfold Ntp.htonl, Ntp.be32.
  set (x := b0 + b1 * 2 ^ 8 + b2 * 2 ^ 16 + b3 * 2 ^ 24).
  change 0xFF with (Z.ones 8). rewrite !Z.land_ones, !Z.shiftr_div_pow2 by lia.
  assert (E0 : x mod 2 ^ 8 = b0) by (subst x; Z.div_mod_to_equations; lia).
  assert (E1 : (x / 2 ^ 8) mod 2 ^ 8 = b1) by (subst x; Z.div_mod_to_equations; lia).
  assert (E2 : (x / 2 ^ 16) mod 2 ^ 8 = b2) by (subst x; Z.div_mod_to_equations; lia).
  assert (E3 : (x / 2 ^ 24) mod 2 ^ 8 = b3) by (subst x; Z.div_mod_to_equations; lia).
  rewrite E0, E1, E2, E3.
  rewrite (Z.lor_comm (Z.shiftl b2 8)), (Z.lor_comm (Z.shiftl b1 16)),
    (Z.lor_comm (Z.shiftl b0 24)).
  rewrite !Z.shiftl_mul_pow2 by lia.
  rewrite (lor_add_mul_pow2 b3 b2 8) by lia.
  replace (b1 * 2 ^ 16) with ((b1 * 2 ^ 0) * 2 ^ 16) by lia.
  rewrite (lor_add_mul_pow2 (b3 + b2 * 2 ^ 8) _ 16) by lia.
  rewrite (lor_add_mul_pow2 _ b0 24) by lia. lia.
Qed.

(** X10: [NUM2BCD] packs a number up to 99 into two decimal digits, one
    per nibble, and saturates at 0x99: read back as decimal digits the
    byte gives [min n 99], and both nibbles are at most 9. *)
Theorem NUM2BCD_round_trip (n : Z) :
  0 <= n ->
  Ntp.bcd_value (Ntp.NUM2BCD n) = Z.min n 99
  /\ Z.shiftr (Ntp.NUM2BCD n) 4 <= 9
  /\ Z.land (Ntp.NUM2BCD n) 0xF <= 9.
Proof.
  intros Hn. destruct (Z.lt_ge_cases n 99) as [Hlt|Hge].
  - assert (Hall : forallb (fun k =>
                     let b := Ntp.NUM2BCD (Z.of_nat k) in
                     (Ntp.bcd_value b =? Z.of_nat k)
                     && (Z.shiftr b 4 <=? 9) && (Z.land b 0xF <=? 9))
                     (seq 0 99) = true) by (vm_compute; reflexivity).
    rewrite forallb_forall in Hall.
    assert (Hin : In (Z.to_nat n) (seq 0 99)) by (apply in_seq; lia).
    specialize (Hall _ Hin). rewrite Z2Nat.id in Hall by lia. cbv zeta in Hall.
    apply andb_true_iff in Hall as [Hall Hlo].
    apply andb_true_iff in Hall as [Hval Hhi].
    apply Z.eqb_eq in Hval. apply Z.leb_le in Hhi, Hlo.
    rewrite Z.min_l by lia. auto.
  - unfold Ntp.NUM2BCD. rewrite (proj2 (Z.ltb_ge _ _) Hge).
    rewrite Z.min_r by lia. repeat split; vm_compute; congruence.
Qed.

Lemma NUM2BCD_round_trip_witness :
  Ntp.NUM2BCD 59 = 0x59 /\ Ntp.bcd_value (Ntp.NUM2BCD 59) = 59
  /\ Ntp.bcd_value (Ntp.NUM2BCD 250) = 99.
Proof.
  split; [reflexivity|]. split.
  - apply (proj1 (NUM2BCD_round_trip 59 ltac:(lia))).
  - apply (proj1 (NUM2BCD_round_trip 250 ltac:(lia))).
Defined.

(** [ntohl] undoes [htonl] on every 32-bit word. *)
Lemma ntohl_htonl (x : Z) :
  0 <= x < 2 ^ 32 -> Ntp.ntohl (Ntp.htonl x) = x.
Proof.
  intros Hx. unfold Ntp.ntohl.
  set (b0 := x mod 2 ^ 8). set (b1 := (x / 2 ^ 8) mod 2 ^ 8).
  set (b2 := (x / 2 ^ 16) mod 2 ^ 8). set (b3 := (x / 2 ^ 24) mod 2 ^ 8).
  assert (Hb : 0 <= b0 <= 0xFF /\ 0 <= b1 <= 0xFF /\ 0 <= b2 <= 0xFF /\ 0 <= b3 <= 0xFF).
  { subst b0 b1 b2 b3. repeat split; Z.div_mod_to_equations; lia. }
  destruct Hb as (H0 & H1 & H2 & H3).
  assert (Ex : x = b0 + b1 * 2 ^ 8 + b2 * 2 ^ 16 + b3 * 2 ^ 24).
  { subst b0 b1 b2 b3. Z.div_mod_to_equations. lia. }
  rewrite Ex at 1. rewrite htonl_bytes by assumption. unfold Ntp.be32.
  replace (b0 * 2 ^ 24 + b1 * 2 ^ 16 + b2 * 2 ^ 8 + b3)
    with (b3 + b2 * 2 ^ 8 + b1 * 2 ^ 16 + b0 * 2 ^ 24) by lia.
  rewrite htonl_bytes by assumption. unfold Ntp.be32. lia.
Qed.

Example ntohl_htonl_NTP_IP : Ntp.ntohl (Ntp.htonl Ntp.NTP_IP) = Ntp.NTP_IP.
Proof. apply ntohl_htonl. vm_compute. split; [discriminate|reflexivity]. Qed.

Section NtpProps.
Context `{Ntp.Env}.

(** X11: when the socket layer starts, the socket opens and the three
    transfers succeed, [ntpGetTimeStamp] connects to 51.137.137.111 port
    123, sends the 48-byte request that starts with 0x1b, returns 0 and
    stores the Unix time of the reply: the big-endian transmit seconds at
    bytes 40..43 minus 2208988800. *)
Theorem ntpGetTimeStamp_value (outTimestamp : Z) (b0 b1 b2 b3 : Z) :
  Ntp.R_FAILED Ntp.miniSocInit_ret = false ->
  -10000 <= Ntp.socSocket_ret ->
  0 <= Ntp.socConnect_ret -> 0 <= Ntp.socSend_ret -> 0 <= Ntp.socRecv_ret ->
  Ntp.socRecv_data !! 40%nat = Some b0 -> Ntp.socRecv_data !! 41%nat = Some b1 ->
  Ntp.socRecv_data !! 42%nat = Some b2 -> Ntp.socRecv_data !! 43%nat = Some b3 ->
  0 <= b0 <= 0xFF -> 0 <= b1 <= 0xFF -> 0 <= b2 <= 0xFF -> 0 <= b3 <= 0xFF ->
  exists evs,
    Ntp.ntpGetTimeStamp outTimestamp
    = (0, Ntp.be32 b0 b1 b2 b3 - 2208988800, evs)
    /\ In (Ntp.EvSocConnect Ntp.socSocket_ret
             (51 + 137 * 2 ^ 8 + 137 * 2 ^ 16 + 111 * 2 ^ 24) (123 * 2 ^ 8)) evs
    /\ In (Ntp.EvSocSend Ntp.socSocket_ret (0x1b :: repeat 0 47)) evs.
Proof.
  intros Hinit Hsock Hconn Hsend Hrecv E0 E1 E2 E3 R0 R1 R2 R3.
  unfold Ntp.ntpGetTimeStamp. rewrite Hinit.
  rewrite (proj2 (Z.ltb_ge _ _) Hsock), (proj2 (Z.ltb_ge _ _) Hconn),
    (proj2 (Z.ltb_ge _ _) Hsend), (proj2 (Z.ltb_ge _ _) Hrecv).
  cbv zeta. eexists. split; [|split].
  - f_equal. f_equal.
    assert (Hnth : forall i b, Ntp.socRecv_data !! i = Some b ->
              nth i (Ntp.socRecv_data
                     ++ drop (length Ntp.socRecv_data) (0x1b :: repeat 0 47)) 0 = b).
    { intros i b Hi. apply nth_lookup_Some with (d := 0).
      now apply lookup_app_l_Some. }
    unfold Ntp.field_u32. cbn [Nat.add].
    rewrite (Hnth _ _ E0), (Hnth _ _ E1), (Hnth _ _ E2), (Hnth _ _ E3).
    unfold Ntp.ntohl. rewrite lor_bytes, htonl_bytes by assumption.
    unfold Ntp.to_s64, Ntp.NTP_TIMESTAMP_DELTA, Ntp.be32.
    assert (Hr : 0 <= b0 * 2 ^ 24 + b1 * 2 ^ 16 + b2 * 2 ^ 8 + b3 < 2 ^ 32) by lia.
    set (t := b0 * 2 ^ 24 + b1 * 2 ^ 16 + b2 * 2 ^ 8 + b3) in *.
    destruct (Z.ltb_spec ((t - 2208988800) mod 2 ^ 64) (2 ^ 63));
      Z.div_mod_to_equations; lia.
  - cbn. right. right. left. reflexivity.
  - cbn. right. right. right. left. reflexivity.
Qed.

(** X12: [ntpGetTimeStamp] stores a time only when it returns 0.  Once it
    holds a socket it closes it and shuts the socket layer down exactly
    once, as its last calls, whether the exchange worked or failed with
    -1; when [socSocket] answers below -10000 it returns that value at
    once and neither closes anything nor shuts the socket layer down; when
    the socket layer does not start, that is its only call. *)
Theorem ntpGetTimeStamp_cleanup_once (outTimestamp : Z) :
  let '(res, out, evs) := Ntp.ntpGetTimeStamp outTimestamp in
  (res <> 0 -> out = outTimestamp)
  /\ if Ntp.R_FAILED Ntp.miniSocInit_ret then
       res = Ntp.miniSocInit_ret /\ evs = [Ntp.EvMiniSocInit]
     else if Ntp.socSocket_ret <? -10000 then
       res = Ntp.socSocket_ret
       /\ List.filter Ntp.is_close evs = []
       /\ List.filter Ntp.is_miniSocExit evs = []
     else
       (res = 0 \/ res = -1)
       /\ List.filter Ntp.is_close evs = [Ntp.EvSocClose Ntp.socSocket_ret]
       /\ List.filter Ntp.is_miniSocExit evs = [Ntp.EvMiniSocExit]
       /\ exists before,
            evs = before ++ [Ntp.EvSocSetsockopt_SO_LINGER Ntp.socSocket_ret 1 0;
                             Ntp.EvSocClose Ntp.socSocket_ret; Ntp.EvMiniSocExit].
Proof.
  unfold Ntp.ntpGetTimeStamp, Ntp.ntpGetTimeStamp_cleanup.
  destruct (Ntp.R_FAILED Ntp.miniSocInit_ret).
  - repeat split.
  - destruct (Ntp.socSocket_ret <? -10000).
    + repeat split.
    + cbv zeta.
      destruct (Ntp.socConnect_ret <? 0); [|destruct (Ntp.socSend_ret <? 0);
        [|destruct (Ntp.socRecv_ret <? 0)]];
        (split; [try reflexivity; intros Hres; congruence|]);
        (split; [auto|]); (split; [reflexivity|]); (split; [reflexivity|]);
        eexists; reflexivity.
Qed.

(** X13: handed the time [ntpGetTimeStamp] computes for NTP second [n],
    whatever 32-bit [n], [ntpSetTimeDate] passes [PTMSYSM_SetUserTime]
    exactly [(n - 3155673600) * 1000], the milliseconds since 2000-01-01,
    without any wrap-around, between one [ptmSysmInit] and one
    [ptmSysmExit], and returns what that call returns. *)
Theorem ntpSetTimeDate_milliseconds (n : Z) :
  0 <= n < 2 ^ 32 ->
  Ntp.R_FAILED Ntp.ptmSysmInit_ret = false ->
  let msY2k := (n - 3155673600) * 1000 in
  Ntp.ntpSetTimeDate (Ntp.to_s64 (n - Ntp.NTP_TIMESTAMP_DELTA))
  = (Ntp.PTMSYSM_SetUserTime_ret msY2k,
     [Ntp.EvPtmSysmInit; Ntp.EvPTMSYSM_SetUserTime msY2k; Ntp.EvPtmSysmExit]).
Proof.
  intros Hn Hinit msY2k. unfold Ntp.ntpSetTimeDate. rewrite Hinit. cbv zeta.
  assert (Hms : Ntp.to_s64
                  ((Ntp.to_s64 (n - Ntp.NTP_TIMESTAMP_DELTA) - 946684800) * 1000)
                = msY2k).
  { subst msY2k. unfold Ntp.to_s64, Ntp.NTP_TIMESTAMP_DELTA.
    assert (Ht : (if (n - 2208988800) mod 2 ^ 64 <? 2 ^ 63
                  then (n - 2208988800) mod 2 ^ 64
                  else (n - 2208988800) mod 2 ^ 64 - 2 ^ 64) = n - 2208988800).
    { destruct (Z.ltb_spec ((n - 2208988800) mod 2 ^ 64) (2 ^ 63));
        Z.div_mod_to_equations; lia. }
    rewrite Ht.
    destruct (Z.ltb_spec (((n - 2208988800 - 946684800) * 1000) mod 2 ^ 64) (2 ^ 63));
      Z.div_mod_to_equations; lia. }
  now rewrite Hms.
Qed.

(** X14: [ntpNullifyUserTimeOffset] closes what it opened on every path:
    [ptmSysmExit] is called once exactly when [ptmSysmInit] succeeded and
    [cfguExit] once exactly when both initialisations succeeded.  The
    configuration is saved only after the offset was cleared and the RTC
    set, and then the result is that of the save. *)
Theorem ntpNullifyUserTimeOffset_balance :
  let '(res, evs) := Ntp.ntpNullifyUserTimeOffset in
  length (List.filter Ntp.is_ptmSysmExit evs)
  = (if Ntp.R_FAILED Ntp.ptmSysmInit_ret then 0 else 1)%nat
  /\ length (List.filter Ntp.is_cfguExit evs)
     = (if Ntp.R_FAILED Ntp.ptmSysmInit_ret || Ntp.R_FAILED Ntp.cfguInit_ret
        then 0 else 1)%nat
  /\ (In Ntp.EvCFG_UpdateConfigSavegame evs ->
      res = Ntp.CFG_UpdateConfigSavegame_ret
      /\ Ntp.R_FAILED Ntp.CFG_SetConfigInfoBlk4_ret = false
      /\ In (Ntp.EvCFG_SetConfigInfoBlk4 8 0x30001 0) evs
      /\ In (Ntp.EvPTMSYSM_SetRtcTime
               (Ntp.to_s64 (Ntp.osGetTime_ret - 3155673600000))) evs
      /\ Ntp.R_FAILED
           (Ntp.PTMSYSM_SetRtcTime_ret
              (Ntp.to_s64 (Ntp.osGetTime_ret - 3155673600000))) = false).
Proof.
  unfold Ntp.ntpNullifyUserTimeOffset.
  destruct (Ntp.R_FAILED Ntp.ptmSysmInit_ret); cbn [orb].
  { split; [reflexivity|]. split; [reflexivity|].
    cbn. intros Hin. exfalso. intuition discriminate. }
  destruct (Ntp.R_FAILED Ntp.cfguInit_ret).
  { split; [reflexivity|]. split; [reflexivity|].
    cbn. intros Hin. exfalso. intuition discriminate. }
  cbv zeta. destruct (Ntp.R_FAILED Ntp.CFG_SetConfigInfoBlk4_ret).
  { split; [reflexivity|]. split; [reflexivity|].
    cbn. intros Hin. exfalso. intuition discriminate. }
  destruct (Ntp.R_FAILED (Ntp.PTMSYSM_SetRtcTime_ret _)) eqn:Hrtc.
  { split; [reflexivity|]. split; [reflexivity|].
    cbn. intros Hin. exfalso. intuition discriminate. }
  split; [reflexivity|]. split; [reflexivity|]. intros _.
  split; [reflexivity|]. split; [reflexivity|].
  split; [cbn; tauto|]. split; [cbn; tauto|]. reflexivity.
Qed.

End NtpProps.

Lemma ntpGetTimeStamp_value_witness :
  exists evs,
    @Ntp.ntpGetTimeStamp Ntp.sample_env 0 = (0, 0xE0000000 - 2208988800, evs).
Proof.
  destruct (@ntpGetTimeStamp_value Ntp.sample_env 0 0xE0 0 0 0)
    as (evs & Hrun & _); try reflexivity; try (vm_compute; discriminate);
    try lia.
  exists evs. exact Hrun.
Defined.

Lemma ntpSetTimeDate_milliseconds_witness :
  @Ntp.ntpSetTimeDate Ntp.sample_env (0xE0000000 - 2208988800)
  = (0, [Ntp.EvPtmSysmInit; Ntp.EvPTMSYSM_SetUserTime 602422784000;
         Ntp.EvPtmSysmExit]).
Proof.
  apply (@ntpSetTimeDate_milliseconds Ntp.sample_env 0xE0000000); [lia|reflexivity].
Defined.

(** ** The server thread *)

Section ServerProps.
Context `{RosalinaEnv} `{ServerEnv}.

Lemma server_inv_call port e st :
  server_inv port st -> wait_ok port e -> is_create_port e = false ->
  server_inv port (call e st).
Proof.
  intros (Hp & Hr & Hw & Hc) He Hn. unfold server_inv, call. cbn.
  repeat split; try assumption.
  - apply Forall_app. split; [assumption|]. now constructor.
  - rewrite List.filter_app, length_app. cbn. rewrite Hn. cbn. lia.
Qed.

Lemma server_inv_wait port st :
  server_inv port st -> server_inv port (errDispThreadMain_wait st).
Proof.
  intros Hinv. pose proof Hinv as (Hp & Hr & Hw & Hc).
  unfold errDispThreadMain_wait.
  assert (Hset : forall r, server_inv port (set_service r st)) by (intros r; exact Hinv).
  set (st1 := if replyTarget st =? 0 then _ else st).
  assert (H1 : server_inv port st1 /\ sessionHandle st1 = sessionHandle st
               /\ replyTarget st1 = replyTarget st /\ serverHandle st1 = serverHandle st).
  { subst st1. destruct (replyTarget st =? 0); repeat split; auto. }
  destruct H1 as (Hinv1 & Hs1 & Hr1 & Hp1).
  apply server_inv_call; [exact Hinv1| |reflexivity].
  cbn. rewrite Hr1, Hs1, Hp.
  destruct (Z.eqb_spec (sessionHandle st) 0) as [Hz|Hnz]; cbn.
  - left. split; [reflexivity|]. destruct Hr as [Hr|Hr]; congruence.
  - right. exists (sessionHandle st). repeat split; auto.
Qed.

Lemma outcome_ok_exit port st :
  server_inv port st -> outcome_ok port (errDispThreadMain_exit st).
Proof.
  intros (Hp & Hr & Hw & Hc). cbn. split.
  - rewrite !Forall_app. repeat split; try assumption; now repeat constructor.
  - rewrite !List.filter_app, !length_app. cbn. lia.
Qed.

Lemma outcome_ok_break port st :
  server_inv port st -> outcome_ok port (svcBreak st).
Proof.
  intros (Hp & Hr & Hw & Hc). cbn. split.
  - rewrite Forall_app. split; [assumption|]. now repeat constructor.
  - rewrite List.filter_app, length_app. cbn. lia.
Qed.

Lemma errDispThreadMain_loop_ok port fuel script : forall st,
  server_inv port st -> outcome_ok port (errDispThreadMain_loop fuel script st).
Proof.
  induction script as [|w rest IH]; intros st Hinv;
    apply server_inv_wait in Hinv; cbn [errDispThreadMain_loop].
  - exact Hinv.
  - set (st1 := errDispThreadMain_wait st) in *.
    set (st2 := match received w with Some _ => _ | None => st1 end).
    assert (Hinv2 : server_inv port st2) by (subst st2; now destruct (received w)).
    clearbody st2. clear Hinv st1.
    assert (Hnext : forall st', server_inv port st' ->
              outcome_ok port (if terminating w then errDispThreadMain_exit st'
                               else errDispThreadMain_loop fuel rest st')).
    { intros st' Hst'. destruct (terminating w);
        [now apply outcome_ok_exit | now apply IH]. }
    destruct (R_FAILED (reply_res w)).
    + destruct (reply_res w =? 0xC920181A); [|now apply outcome_ok_break].
      apply Hnext. destruct Hinv2 as (Hp & Hr & Hw & Hc).
      unfold server_inv. cbn. repeat split; auto.
      * apply Forall_app. split; [assumption|]. now repeat constructor.
      * rewrite List.filter_app, length_app. cbn. lia.
    + destruct (reply_index w =? 0); [now apply outcome_ok_exit|].
      destruct (reply_index w =? 1).
      * assert (Hacc : server_inv port
                         (call (EvSvcAcceptSession (serverHandle st2) (accepted w)) st2))
          by (apply server_inv_call; [assumption|exact I|reflexivity]).
        destruct (R_FAILED (accept_res w)); [now apply outcome_ok_break|].
        cbn [sessionHandle call].
        destruct (Z.eqb_spec (sessionHandle st2) 0) as [Hz|Hnz].
        -- apply Hnext. destruct Hacc as (Hp & Hr & Hw & Hc).
           unfold server_inv. cbn in *. repeat split; auto.
           left. destruct Hr as [Hr|Hr]; congruence.
        -- apply Hnext. apply server_inv_call; [assumption|exact I|reflexivity].
      * destruct (ERRF_HandleCommands fuel (service st2)) as [[[] r]|]; [|exact I].
        apply Hnext. destruct Hinv2 as (Hp & Hr & Hw & Hc).
        unfold server_inv. cbn. repeat split; auto.
Qed.

(** X15: in every run of [errDispThreadMain] the port is created once;
    every wait lists the termination event, the port and, when a session
    is held, that session and no other; and a reply is only ever sent to
    the session that is waited on. *)
Theorem errDispThreadMain_waits (fuel : nat) (script : list Wakeup) (r : RState) :
  let o := errDispThreadMain fuel script r in
  Forall (wait_ok svcCreatePort_server) (calls_of o)
  /\ (o <> Starved -> length (List.filter is_create_port (calls_of o)) = 1%nat).
Proof.
  cbv zeta. unfold errDispThreadMain.
  set (st := mkServer _ _ _ _ _ _).
  assert (Hinv : server_inv svcCreatePort_server st).
  { unfold server_inv. subst st. cbn. repeat split; auto. now repeat constructor. }
  assert (Hok : outcome_ok svcCreatePort_server
                  (if R_FAILED svcCreatePort_ret then svcBreak st
                   else errDispThreadMain_loop fuel script st)).
  { destruct (R_FAILED svcCreatePort_ret);
      [now apply outcome_ok_break | now apply errDispThreadMain_loop_ok]. }
  destruct (if R_FAILED svcCreatePort_ret then _ else _) as [st'|st'|st'|];
    cbn in *.
  - destruct Hok as (_ & _ & Hw & Hc). auto.
  - destruct Hok. auto.
  - destruct Hok. auto.
  - split; [constructor|congruence].
Qed.

Lemma sessions_balanced_wait st :
  sessions_balanced st -> sessions_balanced (errDispThreadMain_wait st).
Proof.
  intros Hb h Hh. specialize (Hb h Hh). unfold errDispThreadMain_wait.
  destruct (replyTarget st =? 0); cbn -[Z.eqb];
    rewrite !List.filter_app, !length_app; cbn -[Z.eqb]; lia.
Qed.

Lemma errDispThreadMain_loop_balanced fuel script : forall st,
  sessions_balanced st ->
  match errDispThreadMain_loop fuel script st with
  | Blocked st' => sessions_balanced st'
  | Exited st' =>
      forall h, h <> 0 -> h <> serverHandle st -> h <> clientHandle st ->
        length (List.filter (accepts h) (calls st'))
        = length (List.filter (closes h) (calls st'))
  | _ => True
  end.
Proof.
  induction script as [|w rest IH]; intros st Hb.
  { cbn [errDispThreadMain_loop]. now apply sessions_balanced_wait. }
  cbn [errDispThreadMain_loop].
  assert (Hsrv : serverHandle (errDispThreadMain_wait st) = serverHandle st
                 /\ clientHandle (errDispThreadMain_wait st) = clientHandle st).
  { unfold errDispThreadMain_wait. now destruct (replyTarget st =? 0). }
  apply sessions_balanced_wait in Hb. revert Hsrv Hb.
  generalize (errDispThreadMain_wait st). intros st1 [Hs1 Hc1] Hb.
  set (st2 := match received w with Some _ => _ | None => st1 end).
  assert (H2 : sessions_balanced st2 /\ serverHandle st2 = serverHandle st
               /\ clientHandle st2 = clientHandle st).
  { subst st2. now destruct (received w). }
  clearbody st2. destruct H2 as (Hb2 & Hs2 & Hc2). clear Hb st1 Hs1 Hc1.
  assert (Hexit : forall st', sessions_balanced st' ->
            serverHandle st' = serverHandle st -> clientHandle st' = clientHandle st ->
            forall h, h <> 0 -> h <> serverHandle st -> h <> clientHandle st ->
              length (List.filter (accepts h)
                        (calls (svcCloseHandle (serverHandle st')
                                  (svcCloseHandle (clientHandle st')
                                     (svcCloseHandle (sessionHandle st') st')))))
              = length (List.filter (closes h)
                          (calls (svcCloseHandle (serverHandle st')
                                    (svcCloseHandle (clientHandle st')
                                       (svcCloseHandle (sessionHandle st') st')))))).
  { intros st' Hb' Hs' Hc' h Hh Hns Hnc. specialize (Hb' h Hh). cbn -[Z.eqb].
    rewrite !List.filter_app, !length_app. cbn -[Z.eqb]. rewrite Hs', Hc'.
    rewrite (proj2 (Z.eqb_neq (serverHandle st) h)) by congruence.
    rewrite (proj2 (Z.eqb_neq (clientHandle st) h)) by congruence.
    destruct (sessionHandle st' =? h); cbn -[Z.eqb]; lia. }
  assert (Hnext : forall st', sessions_balanced st' ->
            serverHandle st' = serverHandle st -> clientHandle st' = clientHandle st ->
            match (if terminating w then errDispThreadMain_exit st'
                   else errDispThreadMain_loop fuel rest st') with
            | Blocked st'' => sessions_balanced st''
            | Exited st'' =>
                forall h, h <> 0 -> h <> serverHandle st -> h <> clientHandle st ->
                  length (List.filter (accepts h) (calls st''))
                  = length (List.filter (closes h) (calls st''))
            | _ => True
            end).
  { intros st' Hb' Hs' Hc'. destruct (terminating w).
    - unfold errDispThreadMain_exit. now apply Hexit.
    - specialize (IH st' Hb'). rewrite Hs', Hc' in IH. exact IH. }
  destruct (R_FAILED (reply_res w)).
  - destruct (reply_res w =? 0xC920181A); [|exact I].
    apply Hnext; [|assumption..].
    intros h Hh. specialize (Hb2 h Hh). cbn -[Z.eqb].
    rewrite !List.filter_app, !length_app. cbn -[Z.eqb].
    rewrite (proj2 (Z.eqb_neq 0 h)) by congruence.
    destruct (sessionHandle st2 =? h); cbn -[Z.eqb]; lia.
  - destruct (reply_index w =? 0); [unfold errDispThreadMain_exit; now apply Hexit|].
    destruct (reply_index w =? 1).
    + destruct (R_FAILED (accept_res w)); [exact I|]. cbn [sessionHandle call].
      destruct (Z.eqb_spec (sessionHandle st2) 0) as [Hz|Hnz].
      * apply Hnext; [|assumption..].
        intros h Hh. specialize (Hb2 h Hh). cbn -[Z.eqb].
        rewrite !List.filter_app, !length_app. cbn -[Z.eqb].
        rewrite Hz, (proj2 (Z.eqb_neq 0 h)) in Hb2 by congruence.
        destruct (accepted w =? h); cbn -[Z.eqb]; lia.
      * apply Hnext; [|assumption..].
        intros h Hh. specialize (Hb2 h Hh). cbn -[Z.eqb].
        rewrite !List.filter_app, !length_app. cbn -[Z.eqb].
        destruct (accepted w =? h); cbn -[Z.eqb]; lia.
    + destruct (ERRF_HandleCommands fuel (service st2)) as [[[] r]|]; [|exact I].
      apply Hnext; [|assumption..].
      intros h Hh. specialize (Hb2 h Hh). cbn -[Z.eqb]. exact Hb2.
Qed.

(** X16: the thread closes every session it accepts.  While it is
    blocked, each handle other than 0 has been accepted as often as it has
    been closed, plus once if it is the session held; when the thread
    returns, every handle other than 0 and the two port handles has been
    closed as often as it was accepted. *)
Theorem errDispThreadMain_sessions_closed
    (fuel : nat) (script : list Wakeup) (r : RState) :
  match errDispThreadMain fuel script r with
  | Blocked st =>
      forall h, h <> 0 ->
        length (List.filter (accepts h) (calls st))
        = (length (List.filter (closes h) (calls st))
           + (if Z.eqb (sessionHandle st) h then 1 else 0))%nat
  | Exited st =>
      forall h, h <> 0 -> h <> svcCreatePort_server -> h <> svcCreatePort_client ->
        length (List.filter (accepts h) (calls st))
        = length (List.filter (closes h) (calls st))
  | _ => True
  end.
Proof.
  unfold errDispThreadMain. destruct (R_FAILED svcCreatePort_ret); [exact I|].
  set (st := mkServer _ _ _ _ _ _).
  assert (Hb : sessions_balanced st).
  { intros h Hh. subst st. cbn -[Z.eqb]. now rewrite (proj2 (Z.eqb_neq 0 h)) by congruence. }
  exact (errDispThreadMain_loop_balanced fuel script st Hb).
Qed.

Lemma errDispThreadMain_loop_closed fuel w rest st :
  R_FAILED (reply_res w) = true ->
  reply_res w = 0xC920181A ->
  terminating w = false ->
  errDispThreadMain_loop fuel (w :: rest) st
  = errDispThreadMain_loop fuel rest
      (set_session 0 0 (svcCloseHandle (sessionHandle (woken w st)) (woken w st))).
Proof.
  intros Hf Hres Ht. cbn [errDispThreadMain_loop]. fold (woken w st).
  now rewrite Hf, Hres, Ht.
Qed.

Lemma errDispThreadMain_loop_connect fuel w rest st :
  R_FAILED (reply_res w) = false ->
  reply_index w = 1 ->
  R_FAILED (accept_res w) = false ->
  terminating w = false ->
  sessionHandle st = 0 ->
  errDispThreadMain_loop fuel (w :: rest) st
  = errDispThreadMain_loop fuel rest
      (set_session (accepted w) (replyTarget (woken w st))
         (call (EvSvcAcceptSession (serverHandle (woken w st)) (accepted w))
               (woken w st))).
Proof.
  intros Hf Hidx Ha Ht Hs. cbn [errDispThreadMain_loop]. fold (woken w st).
  rewrite Hf, Hidx, Ha, Ht. cbn [Z.eqb Pos.eqb sessionHandle call].
  assert (Hw : sessionHandle (woken w st) = 0).
  { unfold woken, errDispThreadMain_wait.
    destruct (received w), (replyTarget st =? 0); exact Hs. }
  now rewrite Hw.
Qed.

Lemma woken_fields w st :
  serverHandle (woken w st) = serverHandle st
  /\ sessionHandle (woken w st) = sessionHandle st
  /\ replyTarget (woken w st) = replyTarget st
  /\ calls (woken w st)
     = calls st
       ++ [EvSvcReplyAndReceive
             (take (Z.to_nat (1 + (if sessionHandle st =? 0 then 1 else 2)))
                   [preTerminationEvent; serverHandle st; sessionHandle st])
             (replyTarget st)].
Proof.
  unfold woken, errDispThreadMain_wait.
  destruct (received w), (replyTarget st =? 0); repeat split.
Qed.

(** X17: when the remote end closes the session, the thread closes its
    handle, waits again on the termination event and the same port with
    nobody to reply to, and takes the next connection as its session. *)
Theorem errDispThreadMain_recovers
    (fuel : nat) (st : Server) (closed connect : Wakeup) (rest : list Wakeup) :
  R_FAILED (reply_res closed) = true ->
  reply_res closed = 0xC920181A ->
  terminating closed = false ->
  R_FAILED (reply_res connect) = false ->
  reply_index connect = 1 ->
  R_FAILED (accept_res connect) = false ->
  terminating connect = false ->
  exists st' handles,
    errDispThreadMain_loop fuel (closed :: connect :: rest) st
    = errDispThreadMain_loop fuel rest st'
    /\ sessionHandle st' = accepted connect
    /\ replyTarget st' = 0
    /\ serverHandle st' = serverHandle st
    /\ calls st'
       = calls st
         ++ [EvSvcReplyAndReceive handles (replyTarget st);
             EvSvcCloseHandle (sessionHandle st);
             EvSvcReplyAndReceive [preTerminationEvent; serverHandle st] 0;
             EvSvcAcceptSession (serverHandle st) (accepted connect)].
Proof.
  intros Hf Hres Ht Hf' Hidx Ha Ht'.
  rewrite (errDispThreadMain_loop_closed _ _ _ _ Hf Hres Ht).
  rewrite (errDispThreadMain_loop_connect _ _ _
             (set_session 0 0 (svcCloseHandle (sessionHandle (woken closed st))
                                 (woken closed st)))
             Hf' Hidx Ha Ht' eq_refl).
  destruct (woken_fields closed st) as (Hs1 & Hh1 & Hr1 & Hc1).
  set (st1 := set_session 0 0 (svcCloseHandle (sessionHandle (woken closed st))
                                 (woken closed st))) in *.
  destruct (woken_fields connect st1) as (Hs2 & Hh2 & Hr2 & Hc2).
  eexists _, _. split; [reflexivity|].
  cbn [sessionHandle replyTarget serverHandle calls set_session call].
  rewrite Hr2, Hs2, Hc2. subst st1.
  cbn [sessionHandle replyTarget serverHandle calls set_session call svcCloseHandle].
  rewrite Hs1, Hh1, Hc1. cbn [Z.eqb].
  repeat split. rewrite <- !app_assoc. reflexivity.
Qed.

End ServerProps.

Lemma errDispThreadMain_recovers_witness :
  exists st',
    @errDispThreadMain_loop sample_renv sample_senv 0
      [mkWakeup 0xC920181A 0 None 0 0 false; mkWakeup 0 1 None 0 0x31 false]
      (mkServer (sample_rstate [] false) 0x20 0x21 0x30 0x30 [])
    = Blocked st'
    /\ sessionHandle st' = 0x31
    /\ replyTarget st' = 0.
Proof.
  destruct (@errDispThreadMain_recovers sample_renv sample_senv 0
              (mkServer (sample_rstate [] false) 0x20 0x21 0x30 0x30 [])
              (mkWakeup 0xC920181A 0 None 0 0 false)
              (mkWakeup 0 1 None 0 0x31 false) [])
    as (st' & handles & Hrun & Hs & Hr & _); try reflexivity.
  eexists. split; [rewrite Hrun; reflexivity|].
  unfold errDispThreadMain_wait. rewrite Hr. cbn [Z.eqb sessionHandle replyTarget
    set_service call]. split; [exact Hs | exact Hr].
Defined.

(** One client: it connects, sends an unknown command, hangs up, and the
    thread is told to stop. *)
Example errDispThreadMain_run :
  calls_of
    (@errDispThreadMain sample_renv sample_senv 0
       [mkWakeup 0 1 None 0 0x30 false;
        mkWakeup 0 2 (Some (cmdbuf_of [0x00030040])) 0 0 false;
        mkWakeup 0xC920181A 0 None 0 0 false;
        mkWakeup 0 0 None 0 0 false]
       (sample_rstate [] false))
  = [EvSvcCreatePort "err:f" 1;
     EvSvcReplyAndReceive [0x10; 0x20] 0;
     EvSvcAcceptSession 0x20 0x30;
     EvSvcReplyAndReceive [0x10; 0x20; 0x30] 0;
     EvSvcReplyAndReceive [0x10; 0x20; 0x30] 0x30;
     EvSvcCloseHandle 0x30;
     EvSvcReplyAndReceive [0x10; 0x20] 0;
     EvSvcCloseHandle 0; EvSvcCloseHandle 0x21; EvSvcCloseHandle 0x20].
Proof. reflexivity. Qed.

(** ** The menu cursor *)

(** X18: for a menu with at least one item [menuAdvanceCursor] returns a
    position inside the menu, whatever the position and displacement it
    is given; for an empty menu the remainder is undefined. *)
Theorem menuAdvanceCursor_in_range (pos numItems displ : Z) :
  0 <= numItems ->
  (numItems = 0 -> menuAdvanceCursor pos numItems displ = None)
  /\ (0 < numItems ->
      exists next, menuAdvanceCursor pos numItems displ = Some next
                   /\ 0 <= next < numItems).
Proof.
  intros Hn. unfold menuAdvanceCursor. split.
  - intros ->. reflexivity.
  - intros Hpos. rewrite (proj2 (Z.eqb_neq _ _)) by lia.
    eexists. split; [reflexivity|]. apply Z.mod_pos_bound. lia.
Qed.

Lemma menuAdvanceCursor_in_range_witness :
  exists next, menuAdvanceCursor 4 5 1 = Some next /\ 0 <= next < 5.
Proof. apply (proj2 (menuAdvanceCursor_in_range 4 5 1 ltac:(lia))). lia. Defined.

Lemma menuAdvanceCursor_down pos numItems :
  0 <= pos < numItems -> pos + numItems + 1 < 2 ^ 32 ->
  menuAdvanceCursor pos numItems 1
  = Some (if pos + 1 =? numItems then 0 else pos + 1).
Proof.
  intros Hp Hw. unfold menuAdvanceCursor. rewrite (proj2 (Z.eqb_neq _ _)) by lia.
  f_equal. rewrite (Z.mod_small (pos + numItems + 1)) by lia.
  replace (pos + numItems + 1) with (pos + 1 + 1 * numItems) by lia.
  rewrite Z.mod_add by lia.
  destruct (Z.eqb_spec (pos + 1) numItems) as [->|Hne].
  - apply Z.mod_same. lia.
  - apply Z.mod_small. lia.
Qed.

Lemma menuAdvanceCursor_up pos numItems :
  0 <= pos < numItems -> pos + numItems <= 2 ^ 32 ->
  menuAdvanceCursor pos numItems (-1)
  = Some (if pos =? 0 then numItems - 1 else pos - 1).
Proof.
  intros Hp Hw. unfold menuAdvanceCursor. rewrite (proj2 (Z.eqb_neq _ _)) by lia.
  f_equal. rewrite (Z.mod_small (pos + numItems + -1)) by lia.
  destruct (Z.eqb_spec pos 0) as [->|Hne].
  - apply Z.mod_small. lia.
  - replace (pos + numItems + -1) with (pos - 1 + 1 * numItems) by lia.
    rewrite Z.mod_add by lia. apply Z.mod_small. lia.
Qed.

(** X19: in a menu of fewer than 2^31 items, a step
    down goes to the next item and from the last item to the first, a
    step up goes to the previous item and from the first to the last, and
    a step down followed by a step up, or the reverse, comes back to the
    same item. *)
Theorem menuAdvanceCursor_steps (pos numItems : Z) :
  0 <= pos < numItems ->
  numItems < 2 ^ 31 ->
  menuAdvanceCursor pos numItems 1
  = Some (if pos + 1 =? numItems then 0 else pos + 1)
  /\ menuAdvanceCursor pos numItems (-1)
     = Some (if pos =? 0 then numItems - 1 else pos - 1)
  /\ (menuAdvanceCursor pos numItems 1
        ≫= fun down => menuAdvanceCursor down numItems (-1)) = Some pos
  /\ (menuAdvanceCursor pos numItems (-1)
        ≫= fun up => menuAdvanceCursor up numItems 1) = Some pos.
Proof.
  intros Hp Hw. change (2 ^ 31) with 2147483648 in Hw.
  assert (H32 : 2 ^ 32 = 4294967296) by reflexivity.
  rewrite menuAdvanceCursor_down, menuAdvanceCursor_up by (assumption || lia).
  split; [reflexivity|]. split; [reflexivity|]. cbn [mbind option_bind].
  split.
  - destruct (Z.eqb_spec (pos + 1) numItems) as [E|E].
    + rewrite menuAdvanceCursor_up by lia. cbn. f_equal. lia.
    + rewrite menuAdvanceCursor_up by lia.
      rewrite (proj2 (Z.eqb_neq _ _)) by lia. f_equal. lia.
  - destruct (Z.eqb_spec pos 0) as [E|E].
    + rewrite menuAdvanceCursor_down by lia.
      rewrite (proj2 (Z.eqb_eq _ _)) by lia. f_equal. lia.
    + rewrite menuAdvanceCursor_down by lia.
      rewrite (proj2 (Z.eqb_neq _ _)) by lia. f_equal. lia.
Qed.

Lemma menuAdvanceCursor_steps_witness :
  menuAdvanceCursor 4 5 1 = Some 0 /\ menuAdvanceCursor 0 5 (-1) = Some 4.
Proof.
  split.
  - apply (proj1 (menuAdvanceCursor_steps 4 5 ltac:(lia) ltac:(lia))).
  - apply (proj1 (proj2 (menuAdvanceCursor_steps 0 5 ltac:(lia) ltac:(lia)))).
Defined.

(** ** Waiting for a key combination *)

Section ComboProps.
Context `{PadEnv}.

(** One call of [scanHeldKeys]: it always returns; with the pad in use it
    scans once and reports that scan, otherwise it reports 0 and does not
    scan. *)
Lemma scanHeldKeys_run s :
  exists s' l,
    scanHeldKeys s
    = Some (if pad_live s then held_keys (S (hidScans s)) else 0, s')
    /\ frame s s' l
    /\ menuRefCount s' = menuRefCount s
    /\ hidScans s' = if pad_live s then S (hidScans s) else hidScans s.
Proof.
  unfold scanHeldKeys, hidKeysHeld, pad_live, held_keys. unfold_service.
  destruct s as [cb us ex hid rc sc tr]. cbn.
  destruct hid, ex; cbn; eexists _, _; (split; [reflexivity|]);
    unfold frame; cbn; rewrite <- ?app_assoc; repeat split.
Qed.

Lemma pad_live_frame s s' l : frame s s' l -> pad_live s' = pad_live s.
Proof. intros (_ & _ & _ & E & I). unfold pad_live. now rewrite E, I. Qed.

(** The counting loop always returns and scans at most [i] times.  Its
    result is the old [keys], or it is [tempKeys] and then every one of
    its [i] scans reported [tempKeys]. *)
Lemma waitComboWithTimeout_for_run i : forall tempKeys keys s,
  exists k' s' l,
    waitComboWithTimeout_for i tempKeys keys s = Some (k', s')
    /\ frame s s' l
    /\ (hidScans s <= hidScans s' <= hidScans s + i)%nat
    /\ (k' = keys
        \/ k' = tempKeys
           /\ if pad_live s
              then hidScans s' = (hidScans s + i)%nat
                   /\ forall m, (hidScans s < m <= hidScans s + i)%nat ->
                                held_keys m = tempKeys
              else tempKeys = 0).
Proof.
  induction i as [|i IH]; intros tempKeys keys s.
  - exists keys, s, []. cbn [waitComboWithTimeout_for retR].
    split; [reflexivity|]. split; [apply frame_refl|]. split; [lia|]. now left.
  - cbn [waitComboWithTimeout_for].
    destruct (scanHeldKeys_run s) as (s1 & l1 & E1 & F1 & _ & S1).
    unfold bindR at 1. rewrite E1.
    set (held := if pad_live s then held_keys (S (hidScans s)) else 0) in *.
    destruct (Z.eqb_spec tempKeys held) as [Heq|Hne]; cbn [negb].
    + destruct (IH tempKeys (if Nat.eqb (S i) 1 then tempKeys else keys) s1)
        as (k' & s' & l & E & F & Hb & Hk).
      exists k', s', (l1 ++ l). split; [exact E|].
      split; [eapply frame_trans; eassumption|].
      pose proof (pad_live_frame _ _ _ F1) as Hlive. rewrite Hlive in Hk.
      subst held. destruct (pad_live s) eqn:Els.
      * rewrite S1 in Hb, Hk. split; [lia|].
        destruct Hk as [Hk|(Hk & Hs & Hw)].
        -- destruct i as [|i]; cbn [Nat.eqb] in Hk; [|now left].
           right. split; [exact Hk|]. split; [lia|].
           intros m Hm. replace m with (S (hidScans s)) by lia. now symmetry.
        -- right. split; [exact Hk|]. split; [lia|].
           intros m Hm. destruct (Nat.eq_dec m (S (hidScans s))) as [->|Hm'];
             [now symmetry | apply Hw; lia].
      * rewrite S1 in Hb. split; [lia|].
        destruct Hk as [Hk|(Hk & Hz)]; [|now right].
        destruct i as [|i]; cbn [Nat.eqb] in Hk; [now right | now left].
    + exists keys, s1, l1. cbn [retR]. split; [reflexivity|].
      split; [exact F1|]. split; [destruct (pad_live s); lia|]. now left.
Qed.

(** With the pad in use and [tempKeys] reported at each of the next [i]
    scans, the counting loop returns [tempKeys] after exactly [i] scans. *)
Lemma waitComboWithTimeout_for_steady i : forall tempKeys keys s,
  pad_live s = true -> (1 <= i)%nat ->
  (forall m, (hidScans s < m <= hidScans s + i)%nat -> held_keys m = tempKeys) ->
  exists s' l,
    waitComboWithTimeout_for i tempKeys keys s = Some (tempKeys, s')
    /\ frame s s' l /\ hidScans s' = (hidScans s + i)%nat.
Proof.
  intros tempKeys keys s Hlive Hi Hw.
  destruct (waitComboWithTimeout_for_run i tempKeys keys s)
    as (k' & s' & l & E & F & Hb & Hk).
  revert keys k' s' l E F Hb Hk. revert s Hlive Hw.
  induction i as [|i IH]; intros s Hlive Hw keys k' s' l E F Hb Hk; [lia|].
  cbn [waitComboWithTimeout_for] in *.
  destruct (scanHeldKeys_run s) as (s1 & l1 & E1 & F1 & _ & S1).
  unfold bindR at 1 in E. unfold bindR at 1. rewrite E1 in *. rewrite Hlive in *.
  rewrite (Hw (S (hidScans s))) in * by lia. rewrite Z.eqb_refl in *. cbn [negb] in *.
  destruct i as [|i].
  - cbn [Nat.eqb waitComboWithTimeout_for retR] in *. injection E as <- <-.
    exists s1, l. split; [reflexivity|]. split; [exact F|]. lia.
  - cbn [Nat.eqb] in *.
    destruct (waitComboWithTimeout_for_run (S i) tempKeys keys s1)
      as (k2 & s2 & l2 & E2 & F2 & Hb2 & Hk2).
    destruct (IH ltac:(lia) s1) with (keys := keys) (k' := k2) (s' := s2) (l := l2)
      as (s3 & l3 & E3 & F3 & S3); try assumption.
    + now rewrite (pad_live_frame _ _ _ F1).
    + intros m Hm. apply Hw. lia.
    + exists s3, (l1 ++ l3). split; [exact E3|].
      split; [eapply frame_trans; eassumption|]. lia.
Qed.

Lemma bindR_run {A B} (c : R A) (k : A -> R B) s a s1 :
  c s = Some (a, s1) -> bindR c k s = k a s1.
Proof. intros E. unfold bindR. now rewrite E. Qed.

Lemma held_steady_mono keys a b a' b' :
  held_steady keys a b -> (a' <= a)%nat -> (b <= b')%nat -> held_steady keys a' b'.
Proof. intros (j & Ha & Hb & Hw) Ha' Hb'. exists j. repeat split; [lia|lia|exact Hw]. Qed.

(** What the flags read after a step that keeps the frame are. *)
Lemma pad_live_flags s :
  pad_live s = true -> menuShouldExit s = false /\ isHidInitialized s = true.
Proof. unfold pad_live. destruct (isHidInitialized s), (menuShouldExit s); now intros. Qed.

Lemma pad_dead_flags s :
  pad_live s = false -> menuShouldExit s || negb (isHidInitialized s) = true.
Proof. unfold pad_live. destruct (isHidInitialized s), (menuShouldExit s); now intros. Qed.

(** The first loop scans at least once.  With the pad in use it comes back
    before the timeout only after a scan that found the pad free. *)
Lemma waitComboWithTimeout_release_run fuel : forall msec n s n' s',
  waitComboWithTimeout_release fuel msec n s = Some (n', s') ->
  exists l,
    frame s s' l
    /\ (pad_live s = false -> hidScans s' = hidScans s)
    /\ (pad_live s = true -> (msec <? 0) || (n' <? msec) = true ->
        (hidScans s < hidScans s')%nat /\ held_keys (hidScans s') = 0).
Proof.
  induction fuel as [|fuel IH]; intros msec n s n' s' Hrun; [discriminate|].
  cbn [waitComboWithTimeout_release] in Hrun.
  destruct (scanHeldKeys_run s) as (s1 & l1 & E1 & F1 & _ & S1).
  unfold bindR at 1 in Hrun. rewrite E1 in Hrun.
  unfold bindR at 1 2, getsR in Hrun.
  pose proof F1 as (_ & _ & _ & Hex & Hhid). rewrite Hex, Hhid in Hrun.
  destruct (pad_live s) eqn:Hlive.
  - destruct (pad_live_flags _ Hlive) as (Hx & Hh). rewrite Hx, Hh in Hrun.
    cbn [negb andb] in Hrun. rewrite !andb_true_r in Hrun.
    destruct (negb (held_keys (S (hidScans s)) =? 0) && ((msec <? 0) || (n <? msec)))
      eqn:Hcond.
    + unfold bindR at 1, svcSleepThread, emitR, modifyR in Hrun.
      apply IH in Hrun as (l & F & _ & Hb).
      assert (F2 : frame s1 (set_utrace (utrace s1 ++ [EvSvcSleepThread (1 * 1000 * 1000)]) s1)
                     [EvSvcSleepThread (1 * 1000 * 1000)]).
      { unfold frame. now destruct s1. }
      exists (l1 ++ [EvSvcSleepThread (1 * 1000 * 1000)] ++ l).
      split; [eapply frame_trans; [exact F1|]; eapply frame_trans; eassumption|].
      split; [discriminate|]. intros _ Htm.
      rewrite (pad_live_frame _ _ _ F2), (pad_live_frame _ _ _ F1) in Hb.
      specialize (Hb Hlive Htm).
      replace (hidScans (set_utrace (utrace s1 ++ [EvSvcSleepThread (1 * 1000 * 1000)]) s1))
        with (hidScans s1) in Hb by now destruct s1.
      rewrite S1 in Hb. split; [lia|]. apply Hb.
    + cbn [retR] in Hrun. injection Hrun as <- <-. exists l1.
      split; [exact F1|]. split; [discriminate|]. intros _ Htm.
      rewrite Htm, andb_true_r in Hcond. apply negb_false_iff, Z.eqb_eq in Hcond.
      rewrite S1. split; [lia | exact Hcond].
  - assert (Hoff : negb (menuShouldExit s) && isHidInitialized s = false).
    { unfold pad_live in Hlive. destruct (isHidInitialized s), (menuShouldExit s);
        now try discriminate. }
    rewrite <- andb_assoc, <- andb_assoc in Hrun.
    rewrite (andb_assoc (negb (menuShouldExit s))), Hoff in Hrun.
    cbn [andb negb retR] in Hrun. rewrite andb_false_r in Hrun.
    injection Hrun as <- <-. exists l1.
    split; [exact F1|]. split; [now intros _|discriminate].
Qed.

(** One round of the do-while loop keeps this: [keys] is 0 or was held
    steady since scan [lo].  When there is no timeout the loop comes back
    only with keys that are not 0 and after a scan that found the pad
    free. *)
Lemma waitComboWithTimeout_loop_run fuel : forall msec n keys s k' s' (lo : nat),
  waitComboWithTimeout_loop fuel msec n keys s = Some (k', s') ->
  pad_live s = true -> (lo <= hidScans s)%nat ->
  (keys = 0 \/ held_steady keys lo (hidScans s)) ->
  (k' = 0 \/ held_steady k' lo (hidScans s'))
  /\ (msec < 0 -> k' <> 0 /\ held_keys (hidScans s') = 0).
Proof.
  induction fuel as [|fuel IH]; intros msec n keys s k' s' lo Hrun Hlive Hlo Hkeys;
    [discriminate|].
  cbn [waitComboWithTimeout_loop] in Hrun.
  step_quiet Hrun (quiet_svcSleepThread (1 * 1000 * 1000)). rename S into Hs0.
  destruct (scanHeldKeys_run s0) as (s1 & l1 & E1 & F1 & _ & S1).
  unfold bindR at 1 in Hrun. rewrite E1 in Hrun.
  assert (Hlive0 : pad_live s0 = true) by (rewrite (pad_live_frame _ _ _ F); exact Hlive).
  rewrite Hlive0 in Hrun, S1.
  assert (Hlive1 : pad_live s1 = true) by (rewrite (pad_live_frame _ _ _ F1); exact Hlive0).
  destruct (waitComboWithTimeout_for_run (Z.to_nat 0x10000)
              (held_keys (S (hidScans s0))) keys s1)
    as (k1 & s2 & l2 & E2 & F2 & Hb2 & Hk2).
  rewrite (bindR_run _ _ _ _ _ E2) in Hrun. cbv beta in Hrun. rewrite Hlive1 in Hk2.
  assert (Hlive2 : pad_live s2 = true) by (rewrite (pad_live_frame _ _ _ F2); exact Hlive1).
  assert (Hk1 : k1 = 0 \/ held_steady k1 lo (hidScans s2)).
  { destruct Hk2 as [->|(-> & Hs2 & Hw)].
    - destruct Hkeys as [?|Hst]; [left; assumption|right].
      eapply held_steady_mono; [exact Hst|lia|lia].
    - right. exists (hidScans s1). split; [lia|]. split; [lia|].
      intros m Hm. destruct (Nat.eq_dec m (hidScans s1)) as [->|Hne];
        [rewrite S1; reflexivity | apply Hw; lia]. }
  destruct (Z.eqb_spec k1 0) as [Hz|Hnz].
  - unfold bindR at 1, retR at 1 in Hrun. unfold bindR at 1 2, getsR in Hrun.
    destruct (pad_live_flags _ Hlive2) as (Hx & Hh). rewrite Hx, Hh in Hrun.
    cbn [negb andb] in Hrun.
    destruct ((msec <? 0) || (n + 1 <? msec)) eqn:Htm.
    + apply (IH _ _ _ _ _ _ lo) in Hrun; [exact Hrun|exact Hlive2|lia|exact Hk1].
    + cbn [retR] in Hrun. injection Hrun as <- <-. split; [exact Hk1|].
      intros Hneg. apply Z.ltb_lt in Hneg. rewrite Hneg in Htm. discriminate Htm.
  - destruct (scanHeldKeys_run s2) as (s3 & l3 & E3 & F3 & _ & S3).
    unfold bindR at 1 2 in Hrun. rewrite E3 in Hrun. rewrite Hlive2 in Hrun, S3.
    unfold retR at 1 in Hrun. unfold bindR at 1 2, getsR in Hrun.
    assert (Hlive3 : pad_live s3 = true) by (rewrite (pad_live_frame _ _ _ F3); exact Hlive2).
    destruct (pad_live_flags _ Hlive3) as (Hx & Hh). rewrite Hx, Hh in Hrun.
    cbn [negb andb] in Hrun. rewrite !andb_true_r in Hrun.
    assert (Hk3 : k1 = 0 \/ held_steady k1 lo (hidScans s3)).
    { destruct Hk1 as [?|Hst]; [left; assumption|right].
      eapply held_steady_mono; [exact Hst|lia|lia]. }
    destruct (negb (held_keys (S (hidScans s2)) =? 0) && ((msec <? 0) || (n + 1 <? msec)))
      eqn:Hcond.
    + apply (IH _ _ _ _ _ _ lo) in Hrun; [exact Hrun|exact Hlive3|lia|exact Hk3].
    + cbn [retR] in Hrun. injection Hrun as <- <-. split; [exact Hk3|].
      intros Hneg. apply Z.ltb_lt in Hneg. rewrite Hneg in Hcond.
      cbn [orb] in Hcond. rewrite andb_true_r in Hcond.
      apply negb_false_iff, Z.eqb_eq in Hcond. rewrite S3. split; assumption.
Qed.

(** A pad that is free at the first scan, reports [keys] at the 0x10001
    scans that follow and is free at the scan after them: one round of
    each loop is enough. *)
Lemma waitComboWithTimeout_accepts_run (msec : Z) (s : RState) (keys : Z) :
  pad_live s = true -> msec <> 0 -> keys <> 0 ->
  held_keys (hidScans s + 1) = 0 ->
  (forall m, (hidScans s + 2 <= m <= hidScans s + 2 + Z.to_nat 0x10000)%nat ->
             held_keys m = keys) ->
  held_keys (hidScans s + 3 + Z.to_nat 0x10000) = 0 ->
  exists s',
    waitComboWithTimeout 1 msec s = Some (keys, s')
    /\ hidScans s' = (hidScans s + 3 + Z.to_nat 0x10000)%nat.
Proof.
  intros Hlive Hmsec Hkeys Hfree Hheld Hfree'.
  assert (Htm : forall n, n = 0 \/ n = 1 -> (msec <? 0) || (n <? msec) = (n <? msec) || (msec <? 0))
    by (intros; apply orb_comm).
  unfold waitComboWithTimeout. cbn [waitComboWithTimeout_release].
  (* the first loop *)
  destruct (scanHeldKeys_run s) as (s1 & l1 & E1 & F1 & _ & S1).
  rewrite Hlive in E1, S1.
  replace (S (hidScans s)) with (hidScans s + 1)%nat in E1 by lia. rewrite Hfree in E1.
  assert (Hlive1 : pad_live s1 = true) by (rewrite (pad_live_frame _ _ _ F1); exact Hlive).
  destruct (pad_live_flags _ Hlive1) as (Hx1 & Hh1).
  assert (E0 : (let+ held := scanHeldKeys in
                let+ exit := getsR menuShouldExit in
                let+ hid := getsR isHidInitialized in
                if negb (held =? 0) && negb exit && hid && ((msec <? 0) || (0 <? msec))
                then svcSleepThread (1 * 1000 * 1000) ;+
                     waitComboWithTimeout_release 0 msec (0 + 1)
                else retR 0) s = Some (0, s1)).
  { rewrite (bindR_run _ _ _ _ _ E1). reflexivity. }
  rewrite (bindR_run _ _ _ _ _ E0). unfold bindR at 1 2, getsR at 1 2.
  rewrite Hx1, Hh1. cbn [negb orb].
  assert (Hgo : (msec <? 0) || (0 <? msec) = true).
  { destruct (Z.ltb_spec msec 0); [reflexivity|]. cbn [orb]. apply Z.ltb_lt. lia. }
  rewrite Hgo. cbn [negb].
  (* the second loop *)
  cbn [waitComboWithTimeout_loop].
  destruct (quiet_svcSleepThread (1 * 1000 * 1000) s1) as ([] & s2 & l2 & E2 & F2 & S2 & _).
  rewrite (bindR_run _ _ _ _ _ E2).
  assert (Hlive2 : pad_live s2 = true) by (rewrite (pad_live_frame _ _ _ F2); exact Hlive1).
  destruct (scanHeldKeys_run s2) as (s3 & l3 & E3 & F3 & _ & S3).
  rewrite Hlive2 in E3, S3.
  assert (Hlive3 : pad_live s3 = true) by (rewrite (pad_live_frame _ _ _ F3); exact Hlive2).
  rewrite (Hheld (S (hidScans s2))) in E3 by lia.
  rewrite (bindR_run _ _ _ _ _ E3).
  destruct (waitComboWithTimeout_for_steady (Z.to_nat 0x10000) keys 0 s3 Hlive3)
    as (s4 & l4 & E4 & F4 & S4); [lia| |].
  { intros m Hm. apply Hheld. lia. }
  rewrite (bindR_run _ _ _ _ _ E4).
  assert (Hlive4 : pad_live s4 = true) by (rewrite (pad_live_frame _ _ _ F4); exact Hlive3).
  rewrite (proj2 (Z.eqb_neq _ _) Hkeys).
  destruct (scanHeldKeys_run s4) as (s5 & l5 & E5 & F5 & _ & S5).
  rewrite Hlive4 in E5, S5.
  replace (S (hidScans s4)) with (hidScans s + 3 + Z.to_nat 0x10000)%nat in E5 by lia.
  rewrite Hfree' in E5.
  assert (E6 : (let+ held := scanHeldKeys in retR (negb (held =? 0))) s4 = Some (false, s5)).
  { rewrite (bindR_run _ _ _ _ _ E5). reflexivity. }
  rewrite (bindR_run _ _ _ _ _ E6). unfold bindR, getsR, retR. cbn [andb].
  exists s5. split; [reflexivity|lia].
Qed.

(** X20: [waitComboWithTimeout] debounces.  Keys it returns were reported by
    0x10001 scans in a row, after a scan that found the pad free; without
    a timeout it comes back only with such keys and once the pad is free
    again; when the pad is not in use it returns 0 without scanning.  And
    keys that are held for exactly that long after the pad was free are
    returned as soon as the pad is free again. *)
Theorem waitComboWithTimeout_debounced (msec : Z) (s : RState) :
  (forall fuel keys s',
     waitComboWithTimeout fuel msec s = Some (keys, s') ->
     (keys <> 0 ->
        pad_live s = true
        /\ exists free, (hidScans s < free)%nat /\ held_keys free = 0
                        /\ held_steady keys free (hidScans s'))
     /\ (pad_live s = true -> msec < 0 -> keys <> 0 /\ held_keys (hidScans s') = 0)
     /\ (pad_live s = false -> keys = 0 /\ hidScans s' = hidScans s))
  /\ (forall keys,
       pad_live s = true -> msec <> 0 -> keys <> 0 ->
       held_keys (hidScans s + 1) = 0 ->
       (forall m, (hidScans s + 2 <= m <= hidScans s + 2 + Z.to_nat 0x10000)%nat ->
                  held_keys m = keys) ->
       held_keys (hidScans s + 3 + Z.to_nat 0x10000) = 0 ->
       exists s',
         waitComboWithTimeout 1 msec s = Some (keys, s')
         /\ hidScans s' = (hidScans s + 3 + Z.to_nat 0x10000)%nat).
Proof.
  split; [|intros keys; apply waitComboWithTimeout_accepts_run].
  intros fuel keys s' Hrun.
  unfold waitComboWithTimeout in Hrun. unfold bindR at 1 in Hrun.
  destruct (waitComboWithTimeout_release fuel msec 0 s) as [[n1 s1]|] eqn:E0;
    [|discriminate].
  apply waitComboWithTimeout_release_run in E0 as (l1 & F1 & Hdead & Hfree).
  unfold bindR at 1 2, getsR in Hrun.
  pose proof (pad_live_frame _ _ _ F1) as Hl1.
  destruct (pad_live s) eqn:Hlive.
  - destruct (pad_live_flags _ Hl1) as (Hx & Hh). rewrite Hx, Hh in Hrun.
    cbn [negb orb] in Hrun.
    destruct ((msec <? 0) || (n1 <? msec)) eqn:Htm; cbn [negb] in Hrun.
    + destruct (Hfree eq_refl eq_refl) as (Hlt & Hz).
      apply (waitComboWithTimeout_loop_run _ _ _ _ _ _ _ (hidScans s1)) in Hrun
        as (Hst & Hneg); [|exact Hl1|lia|left; reflexivity].
      split; [|split; [intros _; exact Hneg | discriminate]].
      intros Hk. split; [reflexivity|]. exists (hidScans s1).
      destruct Hst as [?|Hst]; [contradiction|]. repeat split; assumption.
    + cbn [retR] in Hrun. injection Hrun as <- <-.
      split; [intros Hk; contradiction|]. split; [|discriminate].
      intros _ Hneg. apply Z.ltb_lt in Hneg. rewrite Hneg in Htm. discriminate Htm.
  - rewrite (pad_dead_flags _ Hl1) in Hrun. cbn [orb retR] in Hrun.
    injection Hrun as <- <-.
    split; [intros Hk; contradiction|]. split; [discriminate|].
    intros _. split; [reflexivity | apply Hdead; reflexivity].
Qed.

End ComboProps.

(** A + B, held from the second scan to scan 0x10002, is returned at scan
    0x10003. *)
Lemma waitComboWithTimeout_debounced_witness :
  exists s',
    @waitComboWithTimeout sample_pad 1 (-1) (sample_rstate [] false)
    = Some (3, s')
    /\ @held_steady sample_pad 3 1 (hidScans s').
Proof.
  destruct (proj2 (@waitComboWithTimeout_debounced sample_pad (-1)
                     (sample_rstate [] false)) 3) as (s' & Hrun & Hs').
  - reflexivity.
  - lia.
  - lia.
  - reflexivity.
  - intros m Hm. cbn [sample_rstate hidScans] in Hm.
    unfold held_keys, convertHidKeys, sample_pad, hidKeysHeld_ret.
    destruct (Z.ltb_spec (Z.of_nat m) 2) as [?|_]; [lia|].
    destruct (Z.ltb_spec (Z.of_nat m) 0x10003) as [_|?]; [reflexivity|lia].
  - vm_compute. reflexivity.
  - exists s'. split; [exact Hrun|].
    destruct (proj1 (@waitComboWithTimeout_debounced sample_pad (-1)
                       (sample_rstate [] false)) _ _ _ Hrun)
      as (Hk & _ & _).
    destruct (Hk ltac:(lia)) as (_ & free & Hlt & _ & Hst).
    eapply held_steady_mono; [exact Hst| |apply Nat.le_refl].
    cbn [sample_rstate hidScans] in Hlt. lia.
Defined.

(** ** The draw lock *)

Lemma lock_depth_app l1 : forall d d1 l2,
  lock_depth d l1 = Some d1 -> lock_depth d (l1 ++ l2) = lock_depth d1 l2.
Proof.
  induction l1 as [|e l1 IH]; intros d d1 l2 H1.
  - cbn in H1. injection H1 as <-. reflexivity.
  - destruct e; cbn [lock_depth app] in *; try (now apply IH).
    destruct d as [|d]; [discriminate|]. now apply IH.
Qed.

Lemma locks_bindR {A B} d d1 d2 (c : R A) (k : A -> R B) :
  locks_at d d1 c -> (forall a, locks_at d1 d2 (k a)) -> locks_at d d2 (bindR c k).
Proof.
  intros Hc Hk s b s' Hrun. unfold bindR in Hrun.
  destruct (c s) as [[a s1]|] eqn:E1; [|discriminate].
  destruct (Hc _ _ _ E1) as (l1 & T1 & D1). destruct (Hk a _ _ _ Hrun) as (l2 & T2 & D2).
  exists (l1 ++ l2). split; [rewrite T2, T1; apply eq_sym, app_assoc|].
  now rewrite (lock_depth_app _ _ _ _ D1).
Qed.

Lemma locks_retR {A} d (a : A) : locks_at d d (retR a).
Proof.
  intros s b s' E. unfold retR in E. inversion E; subst. exists []. now rewrite app_nil_r.
Qed.

Lemma locks_getsR {A} d (f : RState -> A) : locks_at d d (getsR f).
Proof.
  intros s b s' E. unfold getsR in E. inversion E; subst. exists []. now rewrite app_nil_r.
Qed.

Lemma locks_modifyR d (f : RState -> RState) :
  (forall s, utrace (f s) = utrace s) -> locks_at d d (modifyR f).
Proof.
  intros Hf s b s' E. unfold modifyR in E. inversion E; subst.
  exists []. now rewrite Hf, app_nil_r.
Qed.

Lemma locks_emitR d e :
  e <> EvDraw_Lock -> e <> EvDraw_Unlock -> locks_at d d (emitR e).
Proof.
  intros Hl Hu s b s' E. unfold emitR, modifyR in E. inversion E; subst.
  exists [e]. split; [now destruct s|].
  destruct e; try reflexivity; contradiction.
Qed.

Lemma locks_Draw_Lock d : locks_at d (S d) Draw_Lock.
Proof.
  intros s b s' E. unfold Draw_Lock, emitR, modifyR in E. inversion E; subst.
  exists [EvDraw_Lock]. split; [now destruct s|reflexivity].
Qed.

Lemma locks_Draw_Unlock d : locks_at (S d) d Draw_Unlock.
Proof.
  intros s b s' E. unfold Draw_Unlock, emitR, modifyR in E. inversion E; subst.
  exists [EvDraw_Unlock]. split; [now destruct s|reflexivity].
Qed.

Section Locks.
Context `{RosalinaEnv}.

Lemma locks_Draw_DrawString d x y c t : locks_at d d (Draw_DrawString x y c t).
Proof.
  intros s b s' E. unfold Draw_DrawString in E. inversion E; subst.
  eexists [_]. split; [now destruct s|reflexivity].
Qed.

Lemma locks_Draw_AllocateFramebufferCache d size :
  locks_at d d (Draw_AllocateFramebufferCache size).
Proof.
  intros s b s' E. unfold Draw_AllocateFramebufferCache in E. inversion E; subst.
  eexists [_]. split; [now destruct s|reflexivity].
Qed.

End Locks.

(** Walk through a sequence of calls, keeping track of the depth. *)
Ltac locks_step :=
  first
    [ apply locks_retR
    | apply locks_getsR
    | apply locks_Draw_Lock
    | apply locks_Draw_Unlock
    | apply locks_Draw_DrawString
    | apply locks_Draw_AllocateFramebufferCache
    | apply locks_emitR; discriminate
    | apply locks_modifyR; intros []; reflexivity ].

Ltac locks_steps :=
  repeat first
    [ locks_step
    | eapply locks_bindR; [|intros ?]
    | match goal with |- locks_at _ _ (if ?b then _ else _) => destruct b end ].

Section LockProps.
Context `{RosalinaEnv} `{PadEnv}.

Lemma locks_hidScanInput d : locks_at d d hidScanInput.
Proof. unfold hidScanInput. locks_steps. Qed.

Lemma locks_menuEnter d : locks_at d d menuEnter.
Proof.
  unfold menuEnter, svcKernelSetState, svcSleepThread, Draw_SetupFramebuffer.
  locks_steps.
Qed.

Lemma locks_menuLeave d : locks_at d d menuLeave.
Proof.
  unfold menuLeave, svcKernelSetState, svcSleepThread, Draw_RestoreFramebuffer,
    Draw_FreeFramebufferCache.
  locks_steps.
Qed.

Lemma locks_scanHeldKeys d : locks_at d d scanHeldKeys.
Proof.
  unfold scanHeldKeys, hidKeysHeld.
  eapply locks_bindR; [apply locks_Draw_Lock|intros _].
  eapply locks_bindR; [apply locks_getsR|intros hid].
  eapply locks_bindR; [apply locks_getsR|intros exit].
  eapply locks_bindR with (d1 := S d).
  - destruct (negb hid || exit); [apply locks_retR|].
    eapply locks_bindR; [apply locks_hidScanInput|intros _]. locks_steps.
  - intros keys. locks_steps.
Qed.

Lemma locks_waitInputWithTimeout_loop fuel : forall d msec n,
  locks_at d d (waitInputWithTimeout_loop fuel msec n).
Proof.
  induction fuel as [|fuel IH]; intros d msec n; [intros s a s' [=]|].
  cbn [waitInputWithTimeout_loop]. unfold svcSleepThread, hidKeysDown, hidKeysDownRepeat.
  eapply locks_bindR; [locks_step|intros _].
  eapply locks_bindR; [locks_step|intros _].
  eapply locks_bindR; [locks_step|intros hid].
  eapply locks_bindR; [locks_step|intros exit].
  destruct (negb hid || exit); [locks_steps|].
  eapply locks_bindR; [apply locks_hidScanInput|intros _].
  eapply locks_bindR; [locks_step|intros down].
  eapply locks_bindR; [locks_step|intros rep].
  eapply locks_bindR; [locks_step|intros _].
  eapply locks_bindR; [locks_step|intros exit'].
  eapply locks_bindR; [locks_step|intros hid'].
  match goal with |- locks_at _ _ (if ?b then _ else _) => destruct b end;
    [apply IH | apply locks_retR].
Qed.

Lemma locks_ERRF_DisplayError d info : locks_at d d (ERRF_DisplayError info).
Proof.
  unfold ERRF_DisplayError, ERRF_FormatError, Draw_FlushFramebuffer. locks_steps.
Qed.

Lemma locks_waitComboWithTimeout_release fuel : forall d msec n,
  locks_at d d (waitComboWithTimeout_release fuel msec n).
Proof.
  induction fuel as [|fuel IH]; intros d msec n; [intros s a s' [=]|].
  cbn [waitComboWithTimeout_release]. unfold svcSleepThread.
  eapply locks_bindR; [apply locks_scanHeldKeys|intros held].
  eapply locks_bindR; [locks_step|intros exit].
  eapply locks_bindR; [locks_step|intros hid].
  match goal with |- locks_at _ _ (if ?b then _ else _) => destruct b end;
    [|apply locks_retR].
  eapply locks_bindR; [locks_step|intros _]. apply IH.
Qed.

Lemma locks_waitComboWithTimeout_for i : forall d tempKeys keys,
  locks_at d d (waitComboWithTimeout_for i tempKeys keys).
Proof.
  induction i as [|i IH]; intros d tempKeys keys; [apply locks_retR|].
  cbn [waitComboWithTimeout_for].
  eapply locks_bindR; [apply locks_scanHeldKeys|intros held].
  destruct (negb (tempKeys =? held)); [apply locks_retR | apply IH].
Qed.

Lemma locks_waitComboWithTimeout_loop fuel : forall d msec n keys,
  locks_at d d (waitComboWithTimeout_loop fuel msec n keys).
Proof.
  induction fuel as [|fuel IH]; intros d msec n keys; [intros s a s' [=]|].
  cbn [waitComboWithTimeout_loop]. unfold svcSleepThread.
  eapply locks_bindR; [locks_step|intros _].
  eapply locks_bindR; [apply locks_scanHeldKeys|intros tempKeys].
  eapply locks_bindR; [apply locks_waitComboWithTimeout_for|intros keys'].
  eapply locks_bindR with (d1 := d).
  - destruct (keys' =? 0); [apply locks_retR|].
    eapply locks_bindR; [apply locks_scanHeldKeys|intros held]. apply locks_retR.
  - intros pending.
    eapply locks_bindR; [locks_step|intros exit].
    eapply locks_bindR; [locks_step|intros hid].
    match goal with |- locks_at _ _ (if ?b then _ else _) => destruct b end;
      [apply IH | apply locks_retR].
Qed.

Lemma locks_waitComboWithTimeout fuel d msec :
  locks_at d d (waitComboWithTimeout fuel msec).
Proof.
  unfold waitComboWithTimeout.
  eapply locks_bindR; [apply locks_waitComboWithTimeout_release|intros n].
  eapply locks_bindR; [locks_step|intros exit].
  eapply locks_bindR; [locks_step|intros hid].
  match goal with |- locks_at _ _ (if ?b then _ else _) => destruct b end;
    [apply locks_retR | apply locks_waitComboWithTimeout_loop].
Qed.

Lemma locks_put_cmdbuf d i v : locks_at d d (put_cmdbuf i v).
Proof. unfold put_cmdbuf. locks_step. Qed.

Lemma locks_reply d i v j w : locks_at d d (put_cmdbuf i v ;+ put_cmdbuf j w).
Proof. eapply locks_bindR; [apply locks_put_cmdbuf|intros _]. apply locks_put_cmdbuf. Qed.

Lemma locks_ERRF_HandleCommands fuel d : locks_at d d (ERRF_HandleCommands fuel).
Proof.
  unfold ERRF_HandleCommands.
  eapply locks_bindR; [locks_step|intros cmd0].
  assert (Hthrow : locks_at d d
    (let+ info := ERRF_GetErrInfo 1 sizeof_ERRF_FatalErrInfo in
     let+ exit := getsR menuShouldExit in
     (if negb exit
         && (negb (info_type info =? ERRF_ERRTYPE_LOGGED) || (info_procId info =? 0))
      then
        menuEnter ;+ Draw_Lock ;+ Draw_ClearFramebuffer ;+ Draw_FlushFramebuffer ;+
        ERRF_DisplayError info ;+ waitInput fuel ;+ Draw_Unlock ;+ menuLeave
      else retR tt) ;+
     put_cmdbuf 0 (IPC_MakeHeader 1 1 0) ;+ put_cmdbuf 1 0)).
  { unfold ERRF_GetErrInfo.
    eapply locks_bindR; [locks_step|intros info].
    eapply locks_bindR; [locks_step|intros exit].
    eapply locks_bindR with (d1 := d); [|intros _; apply locks_reply].
    match goal with |- locks_at _ _ (if ?b then _ else _) => destruct b end;
      [|apply locks_retR].
    eapply locks_bindR; [apply locks_menuEnter|intros _].
    eapply locks_bindR; [apply locks_Draw_Lock|intros _].
    unfold Draw_ClearFramebuffer, Draw_FlushFramebuffer.
    eapply locks_bindR; [locks_step|intros _].
    eapply locks_bindR; [locks_step|intros _].
    eapply locks_bindR; [apply locks_ERRF_DisplayError|intros _].
    eapply locks_bindR; [apply locks_waitInputWithTimeout_loop|intros _].
    eapply locks_bindR; [apply locks_Draw_Unlock|intros _].
    apply locks_menuLeave. }
  assert (Hset : locks_at d d
    (let+ cmd0 := getsR (fun s => cmdbuf s 0) in
     let+ cmd2 := getsR (fun s => cmdbuf s 2) in
     if negb (cmd0 =? IPC_MakeHeader 2 1 2) || negb (Z.land cmd2 0x3C0F =? 2) then
       put_cmdbuf 0 (IPC_MakeHeader 0 1 0) ;+ put_cmdbuf 1 0xD9001830
     else
       let+ cmd1 := getsR (fun s => cmdbuf s 1) in
       let sz := if cmd1 <=? 0x100 then cmd1 else 0x100 in
       let+ src := getsR (fun s => cmdbuf_bytes (cmdbuf s) 3 sz) in
       modifyR (fun s => set_userString (memcpy (userString s) src sz) s) ;+
       modifyR (fun s => set_userString (<[Z.to_nat sz := 0]> (userString s)) s) ;+
       put_cmdbuf 0 (IPC_MakeHeader 2 1 0) ;+ put_cmdbuf 1 0)).
  { eapply locks_bindR; [locks_step|intros c0].
    eapply locks_bindR; [locks_step|intros c2].
    match goal with |- locks_at _ _ (if ?b then _ else _) => destruct b end;
      [apply locks_reply|].
    eapply locks_bindR; [locks_step|intros c1].
    eapply locks_bindR; [locks_step|intros src].
    eapply locks_bindR; [locks_step|intros _].
    eapply locks_bindR; [locks_step|intros _].
    apply locks_reply. }
  destruct (Z.shiftr cmd0 16) as [|p|p]; try apply locks_retR.
  destruct p as [p|p|]; [apply locks_retR| |exact Hthrow].
  destruct p; [apply locks_retR..|exact Hset].
Qed.

(** X21: the code releases the draw lock as often as it takes it, and
    never releases it while it is free: over every call of
    [ERRF_HandleCommands], [waitInputWithTimeout], [waitComboWithTimeout],
    [scanHeldKeys], [menuEnter] and [menuLeave] that returns, the lock is
    back at the depth it had, however the call went. *)
Theorem draw_lock_released (fuel : nat) (msec : Z) (s s' : RState) :
  (forall a, ERRF_HandleCommands fuel s = Some (a, s') ->
             lock_depth 0 (new_uevents s s') = Some 0%nat)
  /\ (forall a, waitInputWithTimeout fuel msec s = Some (a, s') ->
                lock_depth 0 (new_uevents s s') = Some 0%nat)
  /\ (forall a, waitComboWithTimeout fuel msec s = Some (a, s') ->
                lock_depth 0 (new_uevents s s') = Some 0%nat)
  /\ (forall a, scanHeldKeys s = Some (a, s') ->
                lock_depth 0 (new_uevents s s') = Some 0%nat)
  /\ (forall a, menuEnter s = Some (a, s') ->
                lock_depth 0 (new_uevents s s') = Some 0%nat)
  /\ (forall a, menuLeave s = Some (a, s') ->
                lock_depth 0 (new_uevents s s') = Some 0%nat).
Proof.
  assert (Hnew : forall A (c : R A), locks_at 0 0 c ->
            forall a, c s = Some (a, s') -> lock_depth 0 (new_uevents s s') = Some 0%nat).
  { intros A c Hc a Hrun. destruct (Hc _ _ _ Hrun) as (l & T & D).
    unfold new_uevents. rewrite T, drop_app_length. exact D. }
  repeat split; apply Hnew.
  - apply locks_ERRF_HandleCommands.
  - apply locks_waitInputWithTimeout_loop.
  - apply locks_waitComboWithTimeout.
  - apply locks_scanHeldKeys.
  - apply locks_menuEnter.
  - apply locks_menuLeave.
Qed.

End LockProps.

(** The error screen of a generic error: the lock is taken twice over,
    and free at the end. *)
Lemma draw_lock_released_witness :
  exists s',
    @ERRF_HandleCommands sample_renv 3 (sample_rstate [0x00010800; 0; 0; 0; 7] false)
    = Some (tt, s')
    /\ lock_depth 0 (new_uevents (sample_rstate [0x00010800; 0; 0; 0; 7] false) s')
       = Some 0%nat
    /\ lock_depth 0 (take 10 (new_uevents (sample_rstate [0x00010800; 0; 0; 0; 7] false) s'))
       = Some 2%nat.
Proof.
  destruct (@ERRF_HandleCommands sample_renv 3
              (sample_rstate [0x00010800; 0; 0; 0; 7] false)) as [[[] s']|] eqn:Hrun.
  - exists s'. split; [reflexivity|]. split.
    + exact (proj1 (@draw_lock_released sample_renv sample_pad 3 0 _ s') tt Hrun).
    + vm_compute in Hrun. injection Hrun as <-. reflexivity.
  - vm_compute in Hrun. discriminate Hrun.
Defined.

(** ** The menu loop *)

Lemma bindR_inv {A B} (c : R A) (k : A -> R B) s r :
  bindR c k s = Some r -> exists a s1, c s = Some (a, s1) /\ k a s1 = Some r.
Proof.
  unfold bindR. destruct (c s) as [[a s1]|]; [|discriminate]. intros Hk. now exists a, s1.
Qed.

Lemma retR_inv {A} (a : A) s r s' : retR a s = Some (r, s') -> r = a.
Proof. unfold retR. now intros [= <- _]. Qed.

(** [menuCountItems_from] stops at the first item of type [MENU_END]:
    every item before it is there and of another type. *)
Lemma menuCountItems_from_spec rest : forall n0 n,
  menuCountItems_from rest n0 = Some n <->
  n0 <= n
  /\ (exists item, rest !! Z.to_nat (n - n0) = Some item /\ action item = MENU_END)
  /\ (forall k : nat, Z.of_nat k < n - n0 ->
        exists item, rest !! k = Some item /\ action item <> MENU_END).
Proof.
  induction rest as [|item rest IH]; intros n0 n; cbn [menuCountItems_from].
  - split; [discriminate|]. intros (_ & (item & Hi & _) & _). discriminate.
  - assert (Hstep : action item <> MENU_END ->
      (menuCountItems_from rest (n0 + 1) = Some n <->
       n0 <= n
       /\ (exists last, (item :: rest) !! Z.to_nat (n - n0) = Some last
                        /\ action last = MENU_END)
       /\ (forall k : nat, Z.of_nat k < n - n0 ->
             exists it, (item :: rest) !! k = Some it /\ action it <> MENU_END))).
    { intros Hne. rewrite IH. split.
      - intros (Hle & (last & Hl & Hend) & Hbefore). split; [lia|]. split.
        + exists last. split; [|exact Hend].
          replace (Z.to_nat (n - n0)) with (S (Z.to_nat (n - (n0 + 1)))) by lia.
          exact Hl.
        + intros [|k] Hk; [exists item; now split|]. apply (Hbefore k). lia.
      - intros (Hle & (last & Hl & Hend) & Hbefore).
        assert (Hlt : n0 < n).
        { destruct (Z.eq_dec n n0) as [->|]; [|lia].
          rewrite Z.sub_diag in Hl. cbn in Hl. injection Hl as <-. contradiction. }
        split; [lia|]. split.
        + exists last. split; [|exact Hend].
          replace (Z.to_nat (n - n0)) with (S (Z.to_nat (n - (n0 + 1)))) in Hl by lia.
          exact Hl.
        + intros k Hk. apply (Hbefore (S k)). lia. }
    destruct (action item) eqn:Ea; [apply Hstep; discriminate..|].
    split.
    + intros [= <-]. split; [lia|]. split.
      * exists item. rewrite Z.sub_diag. now split.
      * intros k Hk. lia.
    + intros (Hle & (last & Hl & Hend) & Hbefore).
      destruct (Z.eq_dec n n0) as [->|Hne]; [reflexivity|].
      destruct (Hbefore 0%nat) as (first & Hf & Hnot); [lia|].
      cbn in Hf. injection Hf as <-. contradiction.
Qed.

Lemma menuCountItems_from_None rest : forall n0,
  menuCountItems_from rest n0 = None ->
  Forall (fun item => action item <> MENU_END) rest.
Proof.
  induction rest as [|item rest IH]; intros n0 Hnone; [constructor|].
  cbn [menuCountItems_from] in Hnone.
  destruct (action item) eqn:Ea; try discriminate;
    (constructor; [rewrite Ea; discriminate | eapply IH; eassumption]).
Qed.

Lemma item_at_lookup menu (k : nat) : item_at menu (Z.of_nat k) = items menu !! k.
Proof.
  unfold item_at. destruct (Z.ltb_spec (Z.of_nat k) 0); [lia|]. now rewrite Nat2Z.id.
Qed.

(** Below the count every item is there and none is the end marker. *)
Lemma menuCountItems_item menu n pos :
  menuCountItems menu = Some n -> 0 <= pos < n ->
  exists item, item_at menu pos = Some item /\ action item <> MENU_END.
Proof.
  intros Hn Hpos. apply menuCountItems_from_spec in Hn as (_ & _ & Hbefore).
  destruct (Hbefore (Z.to_nat pos)) as (item & Hi & Hne); [lia|].
  exists item. split; [|exact Hne].
  rewrite <- (Z2Nat.id pos) by lia. now rewrite item_at_lookup.
Qed.

(** X22: [menuCountItems] returns the index of the first item of type
    [MENU_END]: that item is there, and every item before it is there and
    of another type.  Without such an item the loop runs off the array. *)
Theorem menuCountItems_first_end (menu : Menu) :
  match menuCountItems menu with
  | Some n =>
      0 <= n
      /\ (exists item, item_at menu n = Some item /\ action item = MENU_END)
      /\ (forall k, 0 <= k < n ->
            exists item, item_at menu k = Some item /\ action item <> MENU_END)
  | None => Forall (fun item => action item <> MENU_END) (items menu)
  end.
Proof.
  destruct (menuCountItems menu) as [n|] eqn:Hn.
  - pose proof Hn as Hn'. apply menuCountItems_from_spec in Hn' as (Hle & (last & Hl & Hend) & _).
    split; [exact Hle|]. split.
    + exists last. split; [|exact Hend].
      rewrite <- (Z2Nat.id n) by lia. rewrite item_at_lookup.
      now rewrite Z.sub_0_r in Hl.
    + intros k Hk. eapply menuCountItems_item; eassumption.
  - eapply menuCountItems_from_None. exact Hn.
Qed.

Example menuCountItems_sample :
  menuCountItems sample_menu = Some 3 /\ menuCountItems sample_submenu = Some 2
  /\ menuCountItems (mkMenu "Open" [sample_method "One"]) = None.
Proof. repeat split. Qed.

(** ** Menus that are well formed *)

Lemma menu_ok_count menu :
  menu_ok menu -> exists n, menuCountItems menu = Some n /\ 0 < n < 2 ^ 31.
Proof. destruct menu as [title l]. intros (Hn & _). exact Hn. Qed.

Lemma menu_ok_submenu l : forall title item sub,
  menu_ok (mkMenu title l) -> In item l -> action item = MENU sub ->
  menu_ok sub /\ (menu_depth sub < menu_depth (mkMenu title l))%nat.
Proof.
  intros title item sub (_ & Heach) Hin Ha. cbn [menu_depth].
  induction l as [|[t a v] l IH]; [contradiction|].
  destruct Hin as [<-|Hin].
  - cbn [action] in Ha. subst a. destruct Heach as (Hsub & _).
    split; [exact Hsub|]. lia.
  - assert (Hrest : (fix each (l : list MenuItem) : Prop :=
                       match l with
                       | [] => True
                       | mkMenuItem _ (MENU sub) _ :: rest => menu_ok sub /\ each rest
                       | _ :: rest => each rest
                       end) l).
    { destruct a; [exact Heach | exact (proj2 Heach) | exact Heach]. }
    destruct (IH Hrest Hin) as (Hok & Hd). split; [exact Hok|].
    destruct a; lia.
Qed.

Lemma menu_ok_item_at menu pos item sub :
  menu_ok menu -> item_at menu pos = Some item -> action item = MENU sub ->
  menu_ok sub /\ (menu_depth sub < menu_depth menu)%nat.
Proof.
  destruct menu as [title l]. intros Hok Hi Ha.
  unfold item_at in Hi. destruct (pos <? 0); [discriminate|]. cbn [items] in Hi.
  eapply menu_ok_submenu; [exact Hok| |exact Ha].
  eapply list_elem_of_In, list_elem_of_lookup_2, Hi.
Qed.

Lemma menu_depth_pos menu : (1 <= menu_depth menu)%nat.
Proof. destruct menu. cbn [menu_depth]. lia. Qed.

Lemma menuAdvanceCursor_bound (pos numItems displ : Z) :
  0 < numItems ->
  exists next, menuAdvanceCursor pos numItems displ = Some next /\ 0 <= next < numItems.
Proof.
  intros Hn. unfold menuAdvanceCursor. rewrite (proj2 (Z.eqb_neq _ _)) by lia.
  eexists. split; [reflexivity|]. apply Z.mod_pos_bound. exact Hn.
Qed.

Lemma nav_ok_set_selectedItem nav n pos :
  nav_ok nav -> menuCountItems (currentMenu nav) = Some n -> 0 <= pos < n ->
  nav_ok (set_selectedItem pos nav).
Proof.
  intros ((Hok & _ & Hd) & Hprev) Hn Hpos. split; [|exact Hprev].
  split; [exact Hok|]. split; [|exact Hd]. exists n. now split.
Qed.

Lemma nav_ok_set_menuComboReleased nav b :
  nav_ok nav -> nav_ok (set_menuComboReleased b nav).
Proof. intros H. exact H. Qed.

Section MenuShowProps.
Context `{RosalinaEnv} `{PadEnv} `{MenuEnv}.

Lemma quiet_clear_screen : quiet clear_screen.
Proof.
  unfold clear_screen.
  apply quiet_bindR; [apply quiet_Draw_Lock|intros _].
  apply quiet_bindR; [apply quiet_Draw_ClearFramebuffer|intros _].
  apply quiet_bindR; [apply quiet_Draw_FlushFramebuffer|intros _].
  apply quiet_Draw_Unlock.
Qed.

Lemma menuShow_move_ok numItems displ nav s r s' :
  nav_ok nav -> menuCountItems (currentMenu nav) = Some numItems ->
  menuShow_move numItems displ nav s = Some (r, s') -> round_ok r.
Proof.
  intros Hnav Hn Hrun.
  destruct (menu_ok_count _ (proj1 (proj1 Hnav))) as (n & Hn' & Hpos).
  rewrite Hn in Hn'. injection Hn' as <-.
  unfold menuShow_move in Hrun.
  destruct (menuAdvanceCursor_bound (selectedItem nav) numItems displ)
    as (pos & Hadv0 & Hp); [lia|].
  rewrite Hadv0 in Hrun.
  destruct (menuCountItems_item _ _ _ Hn Hp) as (item & Hi & _). rewrite Hi in Hrun.
  apply bindR_inv in Hrun as ([] & s1 & _ & Hrun).
  - destruct (menuAdvanceCursor_bound pos numItems displ) as (pos' & Hadv & Hp'); [lia|].
    rewrite Hadv in Hrun. apply retR_inv in Hrun as ->.
    eapply nav_ok_set_selectedItem; eassumption.
  - apply retR_inv in Hrun as ->. eapply nav_ok_set_selectedItem; eassumption.
Qed.

Lemma menuShow_keys_ok pressed numItems nav s r s' :
  nav_ok nav -> menuCountItems (currentMenu nav) = Some numItems ->
  menuShow_keys pressed numItems nav s = Some (r, s') -> round_ok r.
Proof.
  intros Hnav Hn Hrun. unfold menuShow_keys in Hrun.
  destruct (negb (Z.land pressed KEY_A =? 0)).
  { apply bindR_inv in Hrun as (_ & s1 & _ & Hrun).
    apply bindR_inv in Hrun as (r1 & s2 & Hact & Hrun).
    assert (Hr1 : round_ok r1).
    { destruct Hnav as ((Hok & (n & Hn' & Hsel) & Hd) & Hprev).
      destruct (menuCountItems_item _ _ _ Hn' Hsel) as (item & Hi & Hne).
      rewrite Hi in Hact. destruct (action item) as [method|sub|] eqn:Ea; [| |contradiction].
      - assert (Hsame : r1 = Next nav).
        { destruct method as [f|].
          - apply bindR_inv in Hact as (_ & s3 & _ & Hact). now apply retR_inv in Hact.
          - now apply retR_inv in Hact. }
        subst r1. repeat split; try assumption. now exists n.
      - destruct (menu_ok_item_at _ _ _ _ Hok Hi Ea) as (Hsub & Hdepth).
        pose proof (menu_depth_pos sub) as Hone.
        destruct (Z.leb_spec 0x80 (Z.of_nat (length (previous nav)))) as [Hfull|_]; [lia|].
        apply retR_inv in Hact as ->. cbn [round_ok].
        destruct (menu_ok_count _ Hsub) as (m & Hm & Hmpos).
        split; cbn [currentMenu selectedItem previous length].
        + split; [exact Hsub|]. split; [exists m; split; [exact Hm|lia]|lia].
        + split; [|exact Hprev]. split; [exact Hok|]. split; [now exists n|exact Hd]. }
    destruct r1 as [nav1| |f]; [|now apply retR_inv in Hrun as ->..].
    apply bindR_inv in Hrun as (_ & s3 & _ & Hrun). now apply retR_inv in Hrun as ->. }
  destruct (negb (Z.land pressed KEY_B =? 0)).
  { apply bindR_inv in Hrun as (_ & s1 & _ & Hrun).
    destruct Hnav as (_ & Hprev).
    destruct (previous nav) as [|[menu pos] rest]; apply retR_inv in Hrun as ->;
      [exact I|].
    destruct Hprev as (Hlevel & Hrest). split; assumption. }
  destruct (negb (Z.land pressed KEY_DOWN =? 0)); [eapply menuShow_move_ok; eassumption|].
  destruct (negb (Z.land pressed KEY_UP =? 0)); [eapply menuShow_move_ok; eassumption|].
  destruct (negb (Z.land pressed KEY_SELECT =? 0)).
  - apply bindR_inv in Hrun as (_ & s1 & _ & Hrun). now apply retR_inv in Hrun as ->.
  - now apply retR_inv in Hrun as ->.
Qed.

Lemma menuShow_round_ok nav s r s' :
  nav_ok nav -> menuShow_round nav s = Some (r, s') -> round_ok r.
Proof.
  intros Hnav Hrun. unfold menuShow_round in Hrun.
  apply bindR_inv in Hrun as (pressed & s1 & _ & Hrun).
  destruct (menu_ok_count _ (proj1 (proj1 Hnav))) as (n & Hn & _). rewrite Hn in Hrun.
  apply bindR_inv in Hrun as (nav1 & s2 & Hrel & Hrun).
  assert (Hnav1 : nav_ok nav1 /\ currentMenu nav1 = currentMenu nav).
  { destruct (negb (menuComboReleased nav)).
    - apply bindR_inv in Hrel as (held & s3 & _ & Hrel).
      destruct (negb (Z.land held menuCombo =? menuCombo)).
      + apply bindR_inv in Hrel as (_ & s4 & _ & Hrel).
        apply bindR_inv in Hrel as (_ & s5 & _ & Hrel).
        apply bindR_inv in Hrel as (_ & s6 & _ & Hrel).
        apply retR_inv in Hrel as ->. now split.
      + apply retR_inv in Hrel as ->. now split.
    - apply retR_inv in Hrel as ->. now split. }
  destruct Hnav1 as (Hnav1 & Hcur). rewrite <- Hcur in Hn.
  apply bindR_inv in Hrun as (r1 & s3 & Hkeys & Hrun).
  pose proof (menuShow_keys_ok _ _ _ _ _ _ Hnav1 Hn Hkeys) as Hr1.
  destruct r1 as [nav2| |f]; [|now apply retR_inv in Hrun as ->..].
  apply bindR_inv in Hrun as (_ & s4 & _ & Hrun).
  apply bindR_inv in Hrun as (_ & s5 & _ & Hrun).
  apply bindR_inv in Hrun as (_ & s6 & _ & Hrun).
  now apply retR_inv in Hrun as ->.
Qed.

Lemma menuShow_loop_ok fuel : forall nav s r s',
  nav_ok nav -> menuShow_loop fuel nav s = Some (r, s') -> r = None.
Proof.
  induction fuel as [|fuel IH]; intros nav s r s' Hnav Hrun; [discriminate|].
  cbn [menuShow_loop] in Hrun.
  apply bindR_inv in Hrun as (r1 & s1 & Hround & Hrun).
  pose proof (menuShow_round_ok _ _ _ _ Hnav Hround) as Hr1.
  destruct r1 as [nav1| |f]; [|now apply retR_inv in Hrun|contradiction].
  apply bindR_inv in Hrun as (exit & s2 & _ & Hrun).
  destruct (negb exit); [eapply IH; eassumption | now apply retR_inv in Hrun].
Qed.

(** X23: a menu tree that is well formed and nested at most 0x81 deep is
    shown without a fault: whatever the keys, the callbacks and the
    drawing code do, [menuShow] never reads outside an array of items,
    never takes a modulo by zero, never writes past the 0x80 entries of
    [previousMenus] and never reaches [__builtin_trap]. *)
Theorem menuShow_never_faults (fuel : nat) (root : Menu) (s : RState)
    (r : option Fault) (s' : RState) :
  menu_ok root -> (menu_depth root <= 0x81)%nat ->
  menuShow fuel root s = Some (r, s') -> r = None.
Proof.
  intros Hok Hdepth Hrun. unfold menuShow in Hrun.
  destruct (menu_ok_count _ Hok) as (n & Hn & Hpos). rewrite Hn in Hrun.
  destruct (menuCountItems_item _ _ 0 Hn) as (first & Hfirst & _); [lia|].
  rewrite Hfirst in Hrun.
  apply bindR_inv in Hrun as (hidden & s1 & _ & Hrun).
  assert (Hsel : exists selected,
            (if hidden then menuAdvanceCursor 0 n 1 else Some 0) = Some selected
            /\ 0 <= selected < n).
  { destruct hidden; [apply menuAdvanceCursor_bound; lia|]. exists 0. split; [reflexivity|lia]. }
  destruct Hsel as (selected & Hsel & Hrange). rewrite Hsel in Hrun.
  do 6 (apply bindR_inv in Hrun as (_ & ? & _ & Hrun)).
  eapply menuShow_loop_ok; [|exact Hrun].
  split; [|exact I]. split; [exact Hok|]. split; [now exists n|].
  cbn [currentMenu previous length]. lia.
Qed.

(** X24: A on an item that leads to a submenu enters it with the cursor on
    its first item, and B there leads back to the menu and the item one
    came from; both only clear the screen.  B in the root menu leaves the
    loop. *)
Theorem menuShow_keys_enter_back (pressedA pressedB numItems numItems' : Z)
    (nav : Nav) (item : MenuItem) (sub : Menu) (s : RState) :
  Z.land pressedA KEY_A <> 0 ->
  Z.land pressedB KEY_A = 0 -> Z.land pressedB KEY_B <> 0 ->
  item_at (currentMenu nav) (selectedItem nav) = Some item ->
  action item = MENU sub ->
  (length (previous nav) < 0x80)%nat ->
  exists inside s1 s2 l,
    menuShow_keys pressedA numItems nav s = Some (Next inside, s1)
    /\ currentMenu inside = sub
    /\ selectedItem inside = 0
    /\ previous inside = (currentMenu nav, selectedItem nav) :: previous nav
    /\ menuShow_keys pressedB numItems' inside s1 = Some (Next nav, s2)
    /\ frame s s2 l
    /\ (previous nav = [] ->
        exists s3, menuShow_keys pressedB numItems nav s = Some (Break, s3)).
Proof.
  intros HA HnotA HB Hitem Haction Hroom.
  destruct nav as [sel cur prev rel]. cbn [currentMenu selectedItem previous] in *.
  destruct (quiet_clear_screen s) as ([] & s1 & l1 & E1 & F1 & _).
  destruct (quiet_clear_screen s1) as ([] & s2 & l2 & E2 & F2 & _).
  destruct (quiet_clear_screen s2) as ([] & s3 & l3 & E3 & F3 & _).
  exists (mkNav 0 sub ((cur, sel) :: prev) rel), s2, s3, ((l1 ++ l2) ++ l3).
  split.
  { unfold menuShow_keys. cbn [currentMenu selectedItem previous menuComboReleased].
    rewrite (proj2 (Z.eqb_neq _ _) HA), Hitem, Haction. cbn [negb].
    destruct (Z.leb_spec 0x80 (Z.of_nat (length prev))) as [?|_]; [lia|].
    rewrite (bindR_run _ _ _ _ _ E1). unfold bindR at 1, retR at 1.
    rewrite (bindR_run _ _ _ _ _ E2). reflexivity. }
  do 3 (split; [reflexivity|]).
  split.
  { unfold menuShow_keys. cbn [currentMenu selectedItem previous menuComboReleased].
    rewrite HnotA, (proj2 (Z.eqb_neq _ _) HB). cbn [negb Z.eqb].
    rewrite (bindR_run _ _ _ _ _ E3). reflexivity. }
  split; [eapply frame_trans; [eapply frame_trans|]; eassumption|].
  intros ->. unfold menuShow_keys. cbn [currentMenu selectedItem previous menuComboReleased].
  rewrite HnotA, (proj2 (Z.eqb_neq _ _) HB). cbn [negb Z.eqb].
  rewrite (bindR_run _ _ _ _ _ E1). eexists. reflexivity.
Qed.

End MenuShowProps.

Lemma sample_menu_ok : menu_ok sample_menu /\ (menu_depth sample_menu <= 0x81)%nat.
Proof.
  split; [|cbn; lia].
  cbn. repeat split; try (eexists; split; [reflexivity|lia]).
Qed.

(** With Down, A, B and B pressed in turn the sample menu is left after
    four rounds. *)
Lemma menuShow_never_faults_witness :
  exists s',
    @menuShow (with_hidKeysDown sample_keys sample_renv) sample_pad sample_menv
      4 sample_menu (sample_rstate [] false) = Some (None, s').
Proof.
  destruct (@menuShow (with_hidKeysDown sample_keys sample_renv) sample_pad sample_menv
              4 sample_menu (sample_rstate [] false)) as [[r s']|] eqn:Hrun.
  - exists s'.
    rewrite (@menuShow_never_faults (with_hidKeysDown sample_keys sample_renv)
               sample_pad sample_menv _ _ _ _ _
               (proj1 sample_menu_ok) (proj2 sample_menu_ok) Hrun).
    reflexivity.
  - vm_compute in Hrun. discriminate Hrun.
Defined.

(** From "More" in the sample menu into its submenu and back. *)
Lemma menuShow_keys_enter_back_witness :
  exists inside s1 s2,
    @menuShow_keys sample_menv 0x1 3 (mkNav 1 sample_menu [] true) (sample_rstate [] false)
    = Some (Next inside, s1)
    /\ currentMenu inside = sample_submenu
    /\ @menuShow_keys sample_menv 0x2 2 inside s1
       = Some (Next (mkNav 1 sample_menu [] true), s2).
Proof.
  destruct (@menuShow_keys_enter_back sample_menv 0x1 0x2 3 2
              (mkNav 1 sample_menu [] true) (mkMenuItem "More" (MENU sample_submenu) None)
              sample_submenu (sample_rstate [] false))
    as (inside & s1 & s2 & l & Hin & Hcur & _ & _ & Hback & _).
  - vm_compute. discriminate.
  - reflexivity.
  - vm_compute. discriminate.
  - reflexivity.
  - reflexivity.
  - cbn. lia.
  - exists inside, s1, s2. repeat split; assumption.
Defined.

(** A menu without end marker, and a cursor on the end marker. *)
Example menuShow_faults :
  (exists s', @menuShow sample_renv sample_pad sample_menv 1
                (mkMenu "Open" [sample_method "One"]) (sample_rstate [] false)
              = Some (Some Undefined, s'))
  /\ (exists s', @menuShow_keys sample_menv 0x1 3 (mkNav 3 sample_menu [] true)
                   (sample_rstate [] false)
                 = Some (Stop Trap, s')).
Proof. split; eexists; reflexivity. Qed.

(** ** A user string, then an error *)


Section UserStringShown.
Context `{RosalinaEnv}.






End UserStringShown.


(** ** The text of the error screen *)

Example sprintf_samples :
  ErrText.fmt_08lx 0xC0DE = ErrText.chars "0000c0de"
  /\ ErrText.fmt_lu 4294967295 = ErrText.chars "4294967295"
  /\ ErrText.fmt_lu 0 = ErrText.chars "0"
  /\ ErrText.ERRF_FormatRegisterValue "cpsr" 0x60000010 = ErrText.chars "cpsr      60000010".
Proof. repeat split. Qed.

Example ERRF_FormatError_sample :
  fst (@ErrText.ERRF_FormatError ErrText.sample_env ErrText.sample_failure)
  = ErrText.chars "Error type:       result failure" ++ ErrText.nl
    ++ ErrText.nl ++ ErrText.chars "Process ID:       7" ++ ErrText.nl
    ++ ErrText.chars "Process name:     menu" ++ ErrText.nl
    ++ ErrText.chars "Process title ID: 0x0004003000008f02" ++ ErrText.nl
    ++ ErrText.nl
    ++ ErrText.chars "Error code:       0xc8804478" ++ ErrText.nl
    ++ ErrText.nl ++ ErrText.chars "Hi" ++ ErrText.nl
    ++ ErrText.nl.
Proof. vm_compute. reflexivity. Qed.

Lemma length_c_string_le (l : list Z) : (length (c_string l) <= length l)%nat.
Proof.
  induction l as [|b l IH]; [cbn; lia|].
  cbn [c_string]. destruct (b =? 0); cbn [length]; lia.
Qed.

Lemma length_chars (s : string) : length (ErrText.chars s) = String.length s.
Proof.
  unfold ErrText.chars. rewrite length_map.
  induction s as [|a s IH]; [reflexivity|]. cbn. now rewrite IH.
Qed.

Lemma length_digits base fuel : forall v, (length (ErrText.digits base fuel v) <= fuel)%nat.
Proof.
  induction fuel as [|fuel IH]; intros v; [cbn; lia|].
  cbn [ErrText.digits]. rewrite length_app. cbn [length].
  destruct (v / base =? 0); [cbn; lia|]. specialize (IH (v / base)). lia.
Qed.

Lemma length_pad_zero width s :
  (length s <= width)%nat -> length (ErrText.pad_zero width s) = width.
Proof. intros Hs. unfold ErrText.pad_zero. rewrite length_app, repeat_length. lia. Qed.

Lemma length_pad_right width s :
  (length s <= width)%nat -> length (ErrText.pad_right width s) = width.
Proof. intros Hs. unfold ErrText.pad_right. rewrite length_app, repeat_length. lia. Qed.

Lemma length_fmt_08lx v : length (ErrText.fmt_08lx v) = 8%nat.
Proof. apply length_pad_zero, length_digits. Qed.

Lemma length_fmt_016llx v : length (ErrText.fmt_016llx v) = 16%nat.
Proof. apply length_pad_zero, length_digits. Qed.

Lemma length_fmt_lu v : (length (ErrText.fmt_lu v) <= 10)%nat.
Proof. apply length_digits. Qed.

(** A register takes 18 chars: its name in a column of 9, a blank and 8
    digits. *)
Lemma length_ERRF_FormatRegisterValue name value :
  (String.length name <= 9)%nat ->
  length (ErrText.ERRF_FormatRegisterValue name value) = 18%nat.
Proof.
  intros Hname. unfold ErrText.ERRF_FormatRegisterValue.
  rewrite !length_app, length_pad_right, length_fmt_08lx by now rewrite length_chars.
  reflexivity.
Qed.

Lemma length_registerNames (k : nat) :
  (String.length (nth k ErrText.registerNames EmptyString) <= 9)%nat.
Proof. do 18 (destruct k as [|k]; [cbn; lia|]). cbn. lia. Qed.

Lemma length_types (k : nat) :
  (length (ErrText.chars (nth k ErrText.types EmptyString)) <= 27)%nat.
Proof. rewrite length_chars. do 8 (destruct k as [|k]; [cbn; lia|]). cbn. lia. Qed.

Lemma length_exceptionTypes (k : nat) :
  (length (ErrText.chars (nth k ErrText.exceptionTypes EmptyString)) <= 21)%nat.
Proof. rewrite length_chars. do 6 (destruct k as [|k]; [cbn; lia|]). cbn. lia. Qed.

Lemma length_ERRF_FormatError_registers fuel : forall i regs,
  (length (ErrText.ERRF_FormatError_registers fuel i regs) <= fuel * 47)%nat.
Proof.
  induction fuel as [|fuel IH]; intros i regs; [cbn; lia|].
  cbn [ErrText.ERRF_FormatError_registers].
  destruct (i <? 17); [|cbn; lia].
  rewrite !length_app, length_ERRF_FormatRegisterValue by apply length_registerNames.
  specialize (IH (i + 2) regs).
  destruct (negb (i =? 16)).
  - rewrite !length_app, length_ERRF_FormatRegisterValue by apply length_registerNames.
    rewrite length_chars. cbn [String.length length ErrText.nl]. lia.
  - cbn [length]. lia.
Qed.

(** The process name is read from eight bytes that a NUL follows. *)
Lemma length_process_name v :
  (length (ErrText.fmt_s (ErrText.u64_bytes v ++ [0%Z])) <= 8)%nat.
Proof. apply c_string_length_le. reflexivity. Qed.

(** The failure message is cut after 0x5F chars. *)
Lemma length_failure_mesg mesg :
  length mesg = 0x60%nat ->
  (length (ErrText.fmt_s (<[0x5F%nat := 0%Z]> mesg)) <= 0x5F)%nat.
Proof. intros Hlen. apply c_string_length_le, list_lookup_insert_eq. lia. Qed.

Section ErrTextProps.
Context `{ErrText.Env}.

(** X26: the text [ERRF_FormatError] writes fits the buffer of 0x400 chars
    that [ERRF_DisplayError] hands it, terminator included, whatever the
    error record and whatever the kernel answers.  It looks a process up
    at most once and not at all for a removed card, and it closes the
    handle exactly when the process was opened. *)
Theorem ERRF_FormatError_fits (info : ErrText.ERRF_FatalErrInfo) :
  length (ErrText.failure_mesg info) = 0x60%nat ->
  let text := fst (ErrText.ERRF_FormatError info) in
  let calls := snd (ErrText.ERRF_FormatError info) in
  (length text < 0x400)%nat
  /\ (ErrText.type info = ErrText.ERRF_ERRTYPE_CARD_REMOVED -> calls = [])
  /\ (length (List.filter ErrText.is_open calls) <= 1)%nat
  /\ (forall handle,
        In (ErrText.EvSvcCloseHandle handle) calls <->
        exists res, In (ErrText.EvSvcOpenProcess (ErrText.procId info) res handle) calls
                    /\ ErrText.R_SUCCEEDED res = true).
Proof.
  intros Hmesg text calls. subst text calls. unfold ErrText.ERRF_FormatError.
  pose proof (length_fmt_lu (ErrText.procId info)) as Hlu.
  pose proof (length_types 6) as Ht6.
  pose proof (length_types (Z.to_nat (ErrText.type info))) as Htn.
  pose proof (length_exceptionTypes 4) as He4.
  pose proof (length_exceptionTypes (Z.to_nat (ErrText.excep_type info))) as Hen.
  pose proof (length_ERRF_FormatError_registers 9 0 (ErrText.regs info)) as Hregs.
  pose proof (length_failure_mesg _ Hmesg) as Hfail.
  pose proof (length_c_string_le
                (ErrText.chars "The card was removed or the app is corrupted.")) as Hcard.
  pose proof (length_c_string_le
                (ErrText.chars "The System Memory has been damaged (how).")) as Hmem.
  assert (Hnil : length (c_string []) = 0%nat) by reflexivity.
  rewrite length_chars in Hcard, Hmem, Ht6, Htn, He4, Hen.
  cbn [String.length] in Hcard, Hmem.
  destruct (ErrText.svcOpenProcess_ret (ErrText.procId info)) as [res processHandle].
  pose proof (length_process_name
                (ErrText.svcGetProcessInfo_out processHandle 0x10000)) as Hname.
  split.
  { destruct (ErrText.type info =? ErrText.ERRF_ERRTYPE_CARD_REMOVED) eqn:Ecard;
      destruct (ErrText.R_SUCCEEDED res);
      cbv beta iota zeta; cbn [fst snd negb];
      repeat match goal with
             | |- context [if ?b then _ else _] => destruct b
             end;
      rewrite ?length_app, ?length_fmt_08lx, ?length_fmt_016llx, ?length_chars,
        ?length_ERRF_FormatRegisterValue by (cbn; lia);
      unfold ErrText.fmt_s in *;
      cbn [String.length length ErrText.nl]; lia. }
  destruct (ErrText.type info =? ErrText.ERRF_ERRTYPE_CARD_REMOVED) eqn:Ecard.
  - cbn [negb snd]. split; [reflexivity|]. split; [cbn; lia|].
    intros handle. split; [intros []|intros (r & [] & _)].
  - cbn [negb]. split; [intros Heq; rewrite Heq, Z.eqb_refl in Ecard; discriminate|].
    destruct (ErrText.R_SUCCEEDED res) eqn:Eres; cbn [snd]; (split; [cbn; lia|]);
      intros handle; split.
    + intros [Hin|[Hin|[Hin|[Hin|[]]]]]; try discriminate.
      injection Hin as <-. exists res. split; [now left | exact Eres].
    + intros (r & [Hin|[Hin|[Hin|[Hin|[]]]]] & _); try discriminate.
      injection Hin as _ <-. right. right. right. now left.
    + intros [Hin|[]]. discriminate.
    + intros (r & [Hin|[]] & Hr). injection Hin as <- _. congruence.
Qed.

End ErrTextProps.

Lemma ERRF_FormatError_fits_witness :
  (length (fst (@ErrText.ERRF_FormatError ErrText.sample_env ErrText.sample_failure))
   < 0x400)%nat
  /\ In (ErrText.EvSvcCloseHandle 0x20)
        (snd (@ErrText.ERRF_FormatError ErrText.sample_env ErrText.sample_failure)).
Proof.
  destruct (@ERRF_FormatError_fits ErrText.sample_env ErrText.sample_failure eq_refl)
    as (Hfits & _ & _ & Hclose).
  split; [exact Hfits|]. apply Hclose. exists 0. split; [|reflexivity].
  left. reflexivity.
Defined.
